(** * Trade-flow / CBAM pipeline: a shallow embedding of the upload, the
    classifier, the scorer and the percent displays, with the properties
    of the specification stated against it.

    Source files embedded here:
    - the document upload page ([DocumentUpload]): [detectCBAMRelevance],
      the row mapper of [processExcelFile], [processFile], [onDrop],
      [removeFile] and [processAllFiles];
    - the CBAM analysis page ([CBAMAnalysis]): [calculateRiskLevel],
      [calculateComplianceScore], the record post-processing and the
      percent displays;
    - the dashboard, the overview and the trade-flow page: their statistics
      and percent displays;
    - the settings page: [deleteAllData];
    - the company profile page: the profile completion.

    The objects the pages use as tallies are plain objects: a read falls
    back on what [Object.prototype] provides.

    JavaScript numbers are modelled by the extended rationals with a NaN:
    arithmetic is exact where binary64 rounds, and the sign of zero is not
    kept.  Strings are byte strings; [toLowerCase] acts on the ASCII
    letters, which is all the keyword tables contain. *)

From Stdlib Require Import Ascii String QArith Qround Qminmax.
From stdpp Require Import gmap strings list sorting.
From Stdlib Require Import Lia Lqa.

Local Open Scope string_scope.

(* ===================================================================== *)
(** ** JavaScript values and the built-ins the pages call *)
(* ===================================================================== *)

Module JS.

(** A JavaScript [number]. *)
Inductive number : Type :=
| NaN : number
| NegInf : number
| Fin (q : Q) : number
| PosInf : number.

Definition num (z : Z) : number := Fin (inject_Z z).

Definition isNaN (x : number) : bool :=
  match x with NaN => true | _ => false end.

(** The sign of a number: [Lt], [Eq] (zero) or [Gt]; [None] for NaN. *)
Definition sign (x : number) : option comparison :=
  match x with
  | NaN => None
  | NegInf => Some Lt
  | PosInf => Some Gt
  | Fin q => Some (q ?= 0)%Q
  end.

Definition neg (x : number) : number :=
  match x with
  | NaN => NaN
  | NegInf => PosInf
  | PosInf => NegInf
  | Fin q => Fin (Qred (- q))
  end.

(** [x + y]. *)
Definition add (x y : number) : number :=
  match x, y with
  | NaN, _ | _, NaN => NaN
  | PosInf, NegInf | NegInf, PosInf => NaN
  | PosInf, _ | _, PosInf => PosInf
  | NegInf, _ | _, NegInf => NegInf
  | Fin a, Fin b => Fin (Qred (a + b))
  end.

(** [x - y]. *)
Definition sub (x y : number) : number := add x (neg y).

(** [x * y]. *)
Definition mul (x y : number) : number :=
  match x, y with
  | Fin a, Fin b => Fin (Qred (a * b))
  | _, _ =>
      match sign x, sign y with
      | Some Eq, _ | _, Some Eq => NaN
      | Some Lt, Some Lt | Some Gt, Some Gt => PosInf
      | Some Lt, Some Gt | Some Gt, Some Lt => NegInf
      | _, _ => NaN
      end
  end.

(** [x / y]; a zero divisor is taken to be [+0]. *)
Definition div (x y : number) : number :=
  match x, y with
  | NaN, _ | _, NaN => NaN
  | Fin a, Fin b =>
      if Qeq_bool b 0 then
        match (0 ?= a)%Q with
        | Eq => NaN
        | Lt => PosInf
        | Gt => NegInf
        end
      else Fin (Qred (a / b))
  | Fin _, _ => Fin 0
  | _, Fin b =>
      match x, (0 ?= b)%Q with
      | PosInf, Gt | NegInf, (Lt | Eq) => NegInf
      | _, _ => PosInf
      end
  | _, _ => NaN
  end.

(** [x < y], [x <= y], [x > y]: false as soon as one side is NaN. *)
Definition ltb (x y : number) : bool :=
  match x, y with
  | NaN, _ | _, NaN => false
  | _, NegInf => false
  | NegInf, _ => true
  | PosInf, _ => false
  | Fin _, PosInf => true
  | Fin a, Fin b => match (a ?= b)%Q with Lt => true | _ => false end
  end.

Definition leb (x y : number) : bool :=
  match x, y with
  | NaN, _ | _, NaN => false
  | NegInf, _ => true
  | _, PosInf => true
  | _, NegInf => false
  | PosInf, _ => false
  | Fin a, Fin b => Qle_bool a b
  end.

Definition gtb (x y : number) : bool := ltb y x.

(** [Math.min(x, y)] and [Math.max(x, y)]: NaN if either argument is. *)
Definition Math_min (x y : number) : number :=
  match x, y with
  | NaN, _ | _, NaN => NaN
  | _, _ => if ltb y x then y else x
  end.

Definition Math_max (x y : number) : number :=
  match x, y with
  | NaN, _ | _, NaN => NaN
  | _, _ => if ltb x y then y else x
  end.

(** [Math.round(x)]: the integer nearest to [x], halves going up. *)
Definition Math_round (x : number) : number :=
  match x with
  | Fin q => Fin (inject_Z (Qfloor (q + (1 # 2))))
  | _ => x
  end.

(** *** Strings *)

Definition isUpper (c : ascii) : bool :=
  let n := nat_of_ascii c in (65 <=? n)%nat && (n <=? 90)%nat.

Definition lowerChar (c : ascii) : ascii :=
  if isUpper c then ascii_of_nat (nat_of_ascii c + 32) else c.

(** [s.toLowerCase()]. *)
Fixpoint toLowerCase (s : string) : string :=
  match s with
  | EmptyString => EmptyString
  | String c s' => String (lowerChar c) (toLowerCase s')
  end.

(** [s.includes(k)]: [k] occurs in [s] as a contiguous substring. *)
Fixpoint includes (s k : string) : bool :=
  String.prefix k s ||
  match s with
  | EmptyString => false
  | String _ s' => includes s' k
  end.

(** White space and line terminators skipped by [parseFloat]. *)
Definition isWhiteSpace (c : ascii) : bool :=
  let n := nat_of_ascii c in
  ((9 <=? n)%nat && (n <=? 13)%nat) || (n =? 32)%nat.

Fixpoint trimStart (s : string) : string :=
  match s with
  | EmptyString => EmptyString
  | String c s' => if isWhiteSpace c then trimStart s' else s
  end.

Definition digitValue (c : ascii) : option Z :=
  let n := nat_of_ascii c in
  if (48 <=? n)%nat && (n <=? 57)%nat then Some (Z.of_nat n - 48)%Z
  else None.

(** The longest run of decimal digits at the head of [s]: the value it
    denotes on top of [acc], how many digits were read, and the rest. *)
Fixpoint readDigits (s : string) (acc : Z) (n : nat) : Z * nat * string :=
  match s with
  | EmptyString => (acc, n, s)
  | String c s' =>
      match digitValue c with
      | Some d => readDigits s' (10 * acc + d)%Z (S n)
      | None => (acc, n, s)
      end
  end.

(** The optional sign of a literal. *)
Definition readSign (s : string) : bool * string :=
  match s with
  | String "-" s' => (true, s')
  | String "+" s' => (false, s')
  | _ => (false, s)
  end.

(** The exponent part [[eE][+-]?digits] at the head of [s] and what
    follows it; exponent 0 and [s] itself when there is none. *)
Definition readExponent (s : string) : Z * string :=
  match s with
  | String c s' =>
      if (Ascii.eqb c "e" || Ascii.eqb c "E")%bool then
        let '(negative, s'') := readSign s' in
        let '(e, n, rest) := readDigits s'' 0 0 in
        match n with
        | O => (0%Z, s)
        | S _ => (if negative then (- e)%Z else e, rest)
        end
      else (0%Z, s)
  | EmptyString => (0%Z, s)
  end.

(** [m * 10^e] as a rational. *)
Definition scale10 (m e : Z) : Q :=
  if (0 <=? e)%Z then inject_Z (m * 10 ^ e)
  else Qred (Qmake m 1 / inject_Z (10 ^ (- e))).

(** The longest prefix of [s] that is a signed decimal literal
    ([Infinity], [12], [12.], [12.5], [.5], each with an optional
    exponent): its value and the rest of [s]; [None] when no prefix is
    one. *)
Definition readDecimalLiteral (s : string) : option (number * string) :=
  let '(negative, body) := readSign s in
  if String.prefix "Infinity" body then
    Some (if negative then NegInf else PosInf,
          String.substring 8 (String.length body - 8) body)
  else
    let '(ip, ni, afterInt) := readDigits body 0 0 in
    let '(m, nf, afterFrac) :=
      match afterInt with
      | String "." s' => readDigits s' ip 0
      | _ => (ip, O, afterInt)
      end in
    match (ni + nf)%nat with
    | O => None
    | S _ =>
        let '(e, rest) := readExponent afterFrac in
        Some (Fin (scale10 (if negative then (- m)%Z else m)
                           (e - Z.of_nat nf)), rest)
    end.

(** [parseFloat(s)] on a string: the value of the longest prefix of the
    left-trimmed string that is a decimal literal, NaN when there is none. *)
Definition parseFloatString (s : string) : number :=
  match readDecimalLiteral (trimStart s) with
  | Some (n, _) => n
  | None => NaN
  end.

(** [Number(s)] on a string: 0 for a blank string, the value of the
    trimmed string when all of it is a decimal literal, NaN otherwise
    (hexadecimal, octal and binary literals are left out). *)
Definition NumberString (s : string) : number :=
  let t := trimStart s in
  if String.eqb t "" then Fin 0
  else
    match readDecimalLiteral t with
    | Some (n, rest) => if String.eqb (trimStart rest) "" then n else NaN
    | None => NaN
    end.

(** *** Untyped values: what a worksheet cell or an object field holds *)

Inductive value : Type :=
| VUndefined : value
| VString (s : string) : value
| VNumber (n : number) : value
| VBoolean (b : bool) : value.

(** [ToBoolean]. *)
Definition truthy (v : value) : bool :=
  match v with
  | VUndefined => false
  | VString s => negb (String.eqb s "")
  | VNumber NaN => false
  | VNumber (Fin q) => negb (Qeq_bool q 0)
  | VNumber _ => true
  | VBoolean b => b
  end.

(** [a || b]. *)
Definition or (a b : value) : value := if truthy a then a else b.

(** [parseFloat(v)]: the argument goes through [ToString] first; a number
    reads back as itself, [true], [false] and [undefined] have no numeric
    prefix. *)
Definition parseFloat (v : value) : number :=
  match v with
  | VString s => parseFloatString s
  | VNumber n => n
  | VBoolean _ | VUndefined => NaN
  end.

(** [Number(v)]. *)
Definition Number (v : value) : number :=
  match v with
  | VString s => NumberString s
  | VNumber n => n
  | VBoolean b => if b then Fin 1 else Fin 0
  | VUndefined => NaN
  end.

(** A count (an array length) as a number. *)
Definition ofNat (n : nat) : number := Fin (inject_Z (Z.of_nat n)).

(** The equality of [Map] keys and of [Array.prototype.includes]. *)
Definition sameValueZero (a b : value) : bool :=
  match a, b with
  | VUndefined, VUndefined => true
  | VString s, VString t => String.eqb s t
  | VNumber NaN, VNumber NaN => true
  | VNumber NegInf, VNumber NegInf => true
  | VNumber PosInf, VNumber PosInf => true
  | VNumber (Fin p), VNumber (Fin q) => Qeq_bool p q
  | VBoolean x, VBoolean y => Bool.eqb x y
  | _, _ => false
  end.

(** [l.includes(v)] for an array of string literals. *)
Definition Array_includes (l : list string) (v : value) : bool :=
  match v with
  | VString s => existsb (String.eqb s) l
  | _ => false
  end.

(** What a [throw] carries: an [Error] with its message, or anything
    else. *)
Inductive thrown : Type :=
| ErrorObject (message : string) : thrown
| OtherThrown : thrown.

(** An object read by property name: [row['Name']]. *)
Definition get (o : gmap string value) (k : string) : value :=
  default VUndefined (o !! k).

End JS.

Infix "||'" := JS.or (at level 50, left associativity).

(** The outcome of evaluating an expression or awaiting a promise. *)
Inductive completion (A : Type) : Type :=
| Normal (a : A) : completion A
| Throw (e : JS.thrown) : completion A.
Arguments Normal {A} a.
Arguments Throw {A} e.

(** A worksheet row as [sheet_to_json] gives it: an object from column
    header to cell. *)
Abbreviation row := (gmap string JS.value).

(* ===================================================================== *)
(** ** The hosted store *)
(* ===================================================================== *)

(** Modelled from the spec: the persistence adapter [blink.db], which the
    repository only calls.  It is a keyed store consumed through
    create / list / update / delete; a write either succeeds and takes
    effect or throws and leaves the store as it was. *)
Module Store.

Module TradeDocuments.
Record t : Type := {
  id : string;
  userId : string;
  filename : string;
  status : string;
  uploadedAt : string;
  totalRecords : nat;
  cbamaRecords : nat
}.

Definition withStatus (st : string) (d : t) : t :=
  {| id := id d; userId := userId d; filename := filename d;
     status := st; uploadedAt := uploadedAt d;
     totalRecords := totalRecords d; cbamaRecords := cbamaRecords d |}.
End TradeDocuments.

Module TradeRecords.
Record t : Type := {
  id : string;
  documentId : string;
  userId : string;
  productCode : JS.value;
  productDescription : JS.value;
  originCountry : JS.value;
  quantity : JS.number;
  unit : JS.value;
  value : JS.number;
  currency : JS.value;
  isCbamRelevant : string;
  cbamaCategory : option string;   (* [None]: null *)
  createdAt : string
}.
End TradeRecords.

Record DB : Type := {
  tradeDocuments : list TradeDocuments.t;
  tradeRecords : list TradeRecords.t;
  writes : nat                        (* writes attempted so far *)
}.

(** What the outside world decides: whether the [k]-th write goes
    through ([None]) or throws. *)
Definition outcomes := nat -> option JS.thrown.

Definition tradeDocuments_create (o : outcomes) (d : TradeDocuments.t)
    (db : DB) : DB * completion unit :=
  match o (writes db) with
  | Some e =>
      ({| tradeDocuments := tradeDocuments db;
          tradeRecords := tradeRecords db;
          writes := S (writes db) |}, Throw e)
  | None =>
      ({| tradeDocuments := tradeDocuments db ++ [d];
          tradeRecords := tradeRecords db;
          writes := S (writes db) |}, Normal tt)
  end.

Definition tradeRecords_create (o : outcomes) (r : TradeRecords.t)
    (db : DB) : DB * completion unit :=
  match o (writes db) with
  | Some e =>
      ({| tradeDocuments := tradeDocuments db;
          tradeRecords := tradeRecords db;
          writes := S (writes db) |}, Throw e)
  | None =>
      ({| tradeDocuments := tradeDocuments db;
          tradeRecords := tradeRecords db ++ [r];
          writes := S (writes db) |}, Normal tt)
  end.

(** [tradeDocuments.update(id, { status })]. *)
Definition tradeDocuments_update_status (o : outcomes) (docId st : string)
    (db : DB) : DB * completion unit :=
  match o (writes db) with
  | Some e =>
      ({| tradeDocuments := tradeDocuments db;
          tradeRecords := tradeRecords db;
          writes := S (writes db) |}, Throw e)
  | None =>
      ({| tradeDocuments :=
            map (fun d => if String.eqb (TradeDocuments.id d) docId
                          then TradeDocuments.withStatus st d else d)
                (tradeDocuments db);
          tradeRecords := tradeRecords db;
          writes := S (writes db) |}, Normal tt)
  end.

End Store.

(* ===================================================================== *)
(** ** The document upload page *)
(* ===================================================================== *)

Module Upload.
Import JS.

(** The keyword table of [detectCBAMRelevance], in the order
    [Object.entries] walks it. *)
Definition cbamaCategories : list (string * list string) :=
  [ ("cement", ["2523"; "2507"; "cement"; "concrete"]);
    ("steel", ["72"; "7301"; "7302"; "7303"; "7304"; "7305"; "7306";
               "steel"; "iron"]);
    ("aluminum", ["76"; "7601"; "7602"; "7603"; "7604"; "7605";
                  "aluminum"; "aluminium"]);
    ("fertilizers", ["31"; "3102"; "3103"; "3104"; "3105"; "fertilizer";
                     "urea"; "ammonia"]);
    ("electricity", ["2716"; "electricity"; "power"; "energy"]) ].

Record CbamaCheck : Type := {
  relevant : bool;
  category : option string   (* [None]: the property is left out *)
}.

(** The inner loop: does some keyword of the list occur in [code] or in
    [desc]? *)
Fixpoint anyKeyword (code desc : string) (keywords : list string) : bool :=
  match keywords with
  | [] => false
  | keyword :: rest =>
      if (includes code keyword || includes desc keyword)%bool then true
      else anyKeyword code desc rest
  end.

(** The outer loop over the table entries. *)
Fixpoint scanCategories (code desc : string)
    (entries : list (string * list string)) : CbamaCheck :=
  match entries with
  | [] => {| relevant := false; category := None |}
  | (cat, keywords) :: rest =>
      if anyKeyword code desc keywords
      then {| relevant := true; category := Some cat |}
      else scanCategories code desc rest
  end.

Definition detectCBAMRelevance (productCode description : string)
    : CbamaCheck :=
  let code := toLowerCase productCode in
  let desc := toLowerCase description in
  scanCategories code desc cbamaCategories.

Record TradeRecord : Type := {
  productCode : JS.value;
  productDescription : JS.value;
  originCountry : JS.value;
  quantity : number;
  unit : JS.value;
  value : number;
  currency : JS.value;
  isCbamRelevant : bool;
  cbamaCategory : option string
}.

(** [v.toLowerCase] exists on strings only; calling it on a number or a
    boolean cell throws a [TypeError]. *)
Definition asString (what : string) (v : JS.value) : completion string :=
  match v with
  | VString s => Normal s
  | _ => Throw (ErrorObject (what ++ ".toLowerCase is not a function"))
  end.

(** The column mapping of [processExcelFile], one definition per
    [const] of the callback. *)
Definition rowProductCode (r : row) : JS.value :=
  get r "Product Code" ||' get r "HS Code" ||' get r "Code"
    ||' get r "Kod" ||' VString "".

Definition rowProductDescription (r : row) : JS.value :=
  get r "Product Description" ||' get r "Description"
    ||' get r "Açıklama" ||' get r "Ürün" ||' VString "".

Definition rowOriginCountry (r : row) : JS.value :=
  get r "Origin Country" ||' get r "Country" ||' get r "Ülke"
    ||' get r "Menşe" ||' VString "".

Definition rowQuantity (r : row) : number :=
  parseFloat (get r "Quantity" ||' get r "Miktar" ||' get r "Amount"
                ||' VNumber (num 0)).

Definition rowUnit (r : row) : JS.value :=
  get r "Unit" ||' get r "Birim" ||' VString "KG".

Definition rowValue (r : row) : number :=
  parseFloat (get r "Value" ||' get r "Değer" ||' get r "Amount"
                ||' VNumber (num 0)).

Definition rowCurrency (r : row) : JS.value :=
  get r "Currency" ||' get r "Para Birimi" ||' VString "USD".

(** The callback of [jsonData.map] in [processExcelFile]. *)
Definition mapRow (r : row) : completion TradeRecord :=
  let productCode := rowProductCode r in
  let productDescription := rowProductDescription r in
  let originCountry := rowOriginCountry r in
  let quantity := rowQuantity r in
  let unit := rowUnit r in
  let value := rowValue r in
  let currency := rowCurrency r in
  match asString "productCode" productCode with
  | Throw e => Throw e
  | Normal code =>
      match asString "description" productDescription with
      | Throw e => Throw e
      | Normal desc =>
          let cbamaCheck := detectCBAMRelevance code desc in
          Normal {| productCode := productCode;
                    productDescription := productDescription;
                    originCountry := originCountry;
                    quantity := quantity;
                    unit := unit;
                    value := value;
                    currency := currency;
                    isCbamRelevant := relevant cbamaCheck;
                    cbamaCategory := category cbamaCheck |}
      end
  end.

(** [jsonData.map(...)]: rows in order, the first throw ends the map. *)
Fixpoint mapRows (rows : list row) : completion (list TradeRecord) :=
  match rows with
  | [] => Normal []
  | r :: rest =>
      match mapRow r with
      | Throw e => Throw e
      | Normal rec =>
          match mapRows rest with
          | Throw e => Throw e
          | Normal recs => Normal (rec :: recs)
          end
      end
  end.

(** [processExcelFile]: [decoded] is what reading the file and
    [XLSX.read] / [sheet_to_json] on its first sheet give, rows or a
    throw; the promise resolves with the records or rejects. *)
Definition processExcelFile (decoded : completion (list row))
    : completion (list TradeRecord) :=
  match decoded with
  | Throw e => Throw e
  | Normal jsonData => mapRows jsonData
  end.

(** *** [processFile] *)

Inductive Status : Type := pending | processing | completed | error.

(** A dropped file: its name, and what reading and decoding it gives. *)
Record File : Type := {
  name : string;
  decoded : completion (list row)
}.

Record UploadedFile : Type := {
  file : File;
  id : string;
  status : Status;
  progress : nat;
  records : option nat;
  cbamaRecords : option nat;
  error_ : option string            (* the [error] property *)
}.

(** The page state [uploadedFiles] together with the store. *)
Record State : Type := {
  uploadedFiles : list UploadedFile;
  db : Store.DB
}.

(** What is outside the page during one [processFile]: the signed-in
    user, the identifiers and time stamps drawn, and the fate of each
    write. *)
Record World : Type := {
  me : completion string;               (* [blink.auth.me()], the user id *)
  newDocumentId : string;
  newRecordId : nat -> string;
  now : nat -> string;
  writeOutcome : Store.outcomes
}.

(** Asynchronous code over the state: a step yields the next state and
    either a value or a throw. *)
Definition M (A : Type) : Type := State -> State * completion A.

Definition ret {A} (a : A) : M A := fun s => (s, Normal a).

Definition bind {A B} (m : M A) (k : A -> M B) : M B :=
  fun s =>
    match m s with
    | (s', Normal a) => k a s'
    | (s', Throw e) => (s', Throw e)
    end.

Notation "x <- m ;; k" := (bind m (fun x => k))
  (at level 100, m at next level, right associativity).
Notation "m ;;; k" := (bind m (fun _ => k))
  (at level 100, right associativity).

Definition await {A} (c : completion A) : M A := fun s => (s, c).

Definition setUploadedFiles
    (f : list UploadedFile -> list UploadedFile) : M () :=
  fun s => ({| uploadedFiles := f (uploadedFiles s); db := db s |},
            Normal tt).

Definition onStore (op : Store.DB -> Store.DB * completion ()) : M () :=
  fun s =>
    let '(db', c) := op (db s) in
    ({| uploadedFiles := uploadedFiles s; db := db' |}, c).

Definition getWrites : M nat := fun s => (s, Normal (Store.writes (db s))).

(** [try { body } catch (error) { handler }]. *)
Definition tryCatch (body : M ()) (handler : JS.thrown -> M ())
    : M () :=
  fun s =>
    match body s with
    | (s', Normal tt) => (s', Normal tt)
    | (s', Throw e) => handler e s'
    end.

(** [for (const x of l) { await f(x) }]. *)
Fixpoint forOf {A} (l : list A) (f : A -> M ()) : M () :=
  match l with
  | [] => ret tt
  | x :: rest => f x ;;; forOf rest f
  end.

(** [prev.map(f => f.id === id ? upd(f) : f)]. *)
Definition updateFile (fid : string) (upd : UploadedFile -> UploadedFile)
    (prev : list UploadedFile) : list UploadedFile :=
  map (fun f => if String.eqb (id f) fid then upd f else f) prev.

Definition countCbam (recs : list TradeRecord) : nat :=
  length (filter (fun r => isCbamRelevant r = true) recs).

(** [record.cbamaCategory || null]. *)
Definition orNull (c : option string) : option string :=
  match c with
  | Some s => if String.eqb s "" then None else Some s
  | None => None
  end.

(** [error instanceof Error ? error.message : 'Processing failed']. *)
Definition cause (e : JS.thrown) : string :=
  match e with
  | ErrorObject message => message
  | OtherThrown => "Processing failed"
  end.

(** The object handed to [tradeRecords.create] for one record. *)
Definition recordFields (recordId documentId user createdAt : string)
    (record : TradeRecord) : Store.TradeRecords.t :=
  {| Store.TradeRecords.id := recordId;
     Store.TradeRecords.documentId := documentId;
     Store.TradeRecords.userId := user;
     Store.TradeRecords.productCode := productCode record;
     Store.TradeRecords.productDescription := productDescription record;
     Store.TradeRecords.originCountry := originCountry record;
     Store.TradeRecords.quantity := quantity record;
     Store.TradeRecords.unit := unit record;
     Store.TradeRecords.value := value record;
     Store.TradeRecords.currency := currency record;
     Store.TradeRecords.isCbamRelevant :=
       if isCbamRelevant record then "1" else "0";
     Store.TradeRecords.cbamaCategory := orNull (cbamaCategory record);
     Store.TradeRecords.createdAt := createdAt |}.

(** The object handed to [tradeDocuments.create]. *)
Definition documentFields (documentId user uploadedAt : string)
    (fileData : UploadedFile) (recs : list TradeRecord)
    : Store.TradeDocuments.t :=
  {| Store.TradeDocuments.id := documentId;
     Store.TradeDocuments.userId := user;
     Store.TradeDocuments.filename := name (file fileData);
     Store.TradeDocuments.status := "processing";
     Store.TradeDocuments.uploadedAt := uploadedAt;
     Store.TradeDocuments.totalRecords := length recs;
     Store.TradeDocuments.cbamaRecords := countCbam recs |}.

(** The body of the loop that saves the trade records. *)
Definition saveRecord (w : World) (documentId user : string)
    (record : TradeRecord) : M () :=
  k <- getWrites ;;
  onStore (Store.tradeRecords_create (writeOutcome w)
             (recordFields (newRecordId w k) documentId user (now w k)
                           record)).

(** [{ ...f, status, progress }] and the like. *)
Definition withProgress (st : Status) (p : nat) (f : UploadedFile)
    : UploadedFile :=
  {| file := file f; id := id f; status := st; progress := p;
     records := records f; cbamaRecords := cbamaRecords f;
     error_ := error_ f |}.

Definition withCompleted (n c : nat) (f : UploadedFile) : UploadedFile :=
  {| file := file f; id := id f; status := completed; progress := 100;
     records := Some n; cbamaRecords := Some c; error_ := error_ f |}.

Definition withError (msg : string) (f : UploadedFile) : UploadedFile :=
  {| file := file f; id := id f; status := error; progress := progress f;
     records := records f; cbamaRecords := cbamaRecords f;
     error_ := Some msg |}.

(** The [try] block of [processFile]. *)
Definition attempt (w : World) (fileData : UploadedFile) : M () :=
  setUploadedFiles
    (updateFile (id fileData) (withProgress processing 10)) ;;;
  (* Process the Excel file *)
  recs <- await (processExcelFile (decoded (file fileData))) ;;
  setUploadedFiles
    (updateFile (id fileData) (fun f => withProgress (status f) 50 f)) ;;;
  user <- await (me w) ;;
  (* Save document record *)
  let documentId := newDocumentId w in
  k <- getWrites ;;
  onStore (Store.tradeDocuments_create (writeOutcome w)
             (documentFields documentId user (now w k) fileData recs)) ;;;
  setUploadedFiles
    (updateFile (id fileData) (fun f => withProgress (status f) 75 f)) ;;;
  (* Save trade records *)
  forOf recs (saveRecord w documentId user) ;;;
  (* Update document status *)
  onStore (Store.tradeDocuments_update_status (writeOutcome w)
             documentId "completed") ;;;
  setUploadedFiles
    (updateFile (id fileData)
                (withCompleted (length recs) (countCbam recs))).

(** The [catch] block. *)
Definition onError (fileData : UploadedFile) (e : JS.thrown) : M () :=
  setUploadedFiles (updateFile (id fileData) (withError (cause e))).

Definition processFile (w : World) (fileData : UploadedFile) : M () :=
  tryCatch (attempt w fileData) (onError fileData).

End Upload.

(* ===================================================================== *)
(** ** Plain objects used as tallies *)
(* ===================================================================== *)

Module PlainObject.
Import JS.

(** The own properties of an object that starts as [{}] and receives
    primitive values; the order of the entries is not kept. *)
Abbreviation t := (gmap string JS.value).

(** The methods every such object inherits from [Object.prototype]: the
    property name and the name of the function behind it. *)
Definition inheritedFunctions : list (string * string) :=
  [("constructor", "Object");
   ("hasOwnProperty", "hasOwnProperty");
   ("isPrototypeOf", "isPrototypeOf");
   ("propertyIsEnumerable", "propertyIsEnumerable");
   ("toLocaleString", "toLocaleString");
   ("toString", "toString");
   ("valueOf", "valueOf");
   ("__defineGetter__", "__defineGetter__");
   ("__defineSetter__", "__defineSetter__");
   ("__lookupGetter__", "__lookupGetter__");
   ("__lookupSetter__", "__lookupSetter__")].

Fixpoint functionNamed (key : string) (table : list (string * string))
    : option string :=
  match table with
  | [] => None
  | (k, name) :: rest =>
      if String.eqb key k then Some name else functionNamed key rest
  end.

(** The names a fresh object answers to without having them. *)
Definition inheritedNames : list string :=
  "__proto__" :: map fst inheritedFunctions.

(** What reading [o[key]] finds: a primitive (an own property, or
    [undefined]), an inherited method, or, under [__proto__], the
    prototype itself. *)
Inductive found : Type :=
| Primitive (v : JS.value) : found
| Method (name : string) : found
| Prototype : found.

(** [o[key]]. *)
Definition get (o : t) (key : string) : found :=
  if String.eqb key "__proto__" then Prototype
  else
    match o !! key with
    | Some v => Primitive v
    | None =>
        match functionNamed key inheritedFunctions with
        | Some name => Method name
        | None => Primitive VUndefined
        end
    end.

(** [String(f)] of a built-in function, in the layout V8 prints. *)
Definition nativeSource (name : string) : string :=
  "function " ++ name ++ "() { [native code] }".

(** [v + 1] on a primitive: a string is extended, anything else is
    turned into a number first. *)
Definition plusOne (v : JS.value) : JS.value :=
  match v with
  | VString s => VString (s ++ "1")
  | VNumber n => VNumber (add n (num 1))
  | VBoolean b => VNumber (add (if b then num 1 else num 0) (num 1))
  | VUndefined => VNumber NaN
  end.

(** [(x || 0) + 1] for what a read found: functions and objects are
    truthy, and [+] turns them into their string. *)
Definition orZeroPlusOne (x : found) : JS.value :=
  match x with
  | Primitive v => plusOne (v ||' VNumber (num 0))
  | Method name => VString (nativeSource name ++ "1")
  | Prototype => VString "[object Object]1"
  end.

(** [o[key] = v] for a primitive [v]: an own property is written, except
    under [__proto__], whose setter ignores what is not an object. *)
Definition set (o : t) (key : string) (v : JS.value) : t :=
  if String.eqb key "__proto__" then o else <[key := v]> o.

(** [o[key] = (o[key] || 0) + 1]. *)
Definition increment (o : t) (key : string) : t :=
  set o key (orZeroPlusOne (get o key)).

(** [Object.entries(o)], in no particular order. *)
Definition entries (o : t) : list (string * JS.value) := map_to_list o.

End PlainObject.

(* ===================================================================== *)
(** ** The CBAM analysis page: risk level, compliance score, statistics *)
(* ===================================================================== *)

Module Analysis.
Import JS.

Inductive RiskLevel : Type := low | medium | high.

(** The string literal behind each level. *)
Definition riskString (r : RiskLevel) : string :=
  match r with
  | low => "low"
  | medium => "medium"
  | high => "high"
  end.

Definition highRiskCountries : list string :=
  ["China"; "India"; "Russia"; "Turkey"; "Ukraine"].
Definition mediumRiskCountries : list string :=
  ["Brazil"; "South Africa"; "Indonesia"; "Thailand"].
Definition highRiskCategories : list string :=
  ["steel"; "cement"; "aluminum"].

(** The arguments are what the listed row holds, typed [string] in the
    source. *)
Definition calculateRiskLevel (country category : JS.value) : RiskLevel :=
  if (Array_includes highRiskCountries country
      && Array_includes highRiskCategories category)%bool then high
  else if (Array_includes highRiskCountries country
           || Array_includes highRiskCategories category)%bool then medium
  else if Array_includes mediumRiskCountries country then medium
  else low.

Definition baseScore (riskLevel : string) : number :=
  if String.eqb riskLevel "high" then num 40
  else if String.eqb riskLevel "medium" then num 70
  else num 85.

Definition calculateComplianceScore (riskLevel : string) (value : number)
    : number :=
  let valueAdjustment := Math_min (div value (num 100000)) (num 15) in
  Math_max (num 0) (Math_min (num 100) (sub (baseScore riskLevel)
                                            valueAdjustment)).

Record CBAMRecord : Type := {
  id : string;
  productCode : JS.value;
  productDescription : JS.value;
  originCountry : JS.value;
  quantity : number;
  value : number;
  cbamaCategory : string;
  riskLevel : RiskLevel;
  complianceScore : number
}.

(** The callback of [records.map] in [loadCBAMData]. *)
Definition processRecord (record : Store.TradeRecords.t) : CBAMRecord :=
  let category :=
    match Store.TradeRecords.cbamaCategory record with
    | Some c => if String.eqb c "" then "unknown" else c
    | None => "unknown"
    end in
  let riskLevel :=
    calculateRiskLevel (Store.TradeRecords.originCountry record)
                       (VString category) in
  let complianceScore :=
    calculateComplianceScore (riskString riskLevel)
                             (Store.TradeRecords.value record) in
  {| id := Store.TradeRecords.id record;
     productCode := Store.TradeRecords.productCode record;
     productDescription := Store.TradeRecords.productDescription record;
     originCountry := Store.TradeRecords.originCountry record;
     quantity := Store.TradeRecords.quantity record;
     value := Store.TradeRecords.value record;
     cbamaCategory := category;
     riskLevel := riskLevel;
     complianceScore := complianceScore |}.

Definition isHigh (r : CBAMRecord) : bool :=
  match riskLevel r with high => true | _ => false end.

Record CBAMStats : Type := {
  totalRecords : nat;
  highRiskRecords : nat;
  averageComplianceScore : number;
  categoriesBreakdown : PlainObject.t
}.

(** The statistics [loadCBAMData] derives from the listed records. *)
Definition calculateStats (records : list Store.TradeRecords.t)
    : CBAMStats :=
  let processedRecords := map processRecord records in
  let totalRecords := length processedRecords in
  let highRiskRecords := length (filter (fun r => isHigh r = true)
                                        processedRecords) in
  let averageComplianceScore :=
    if gtb (ofNat totalRecords) (num 0)
    then div (foldl (fun sum r => add sum (complianceScore r)) (num 0)
                    processedRecords)
             (ofNat totalRecords)
    else num 0 in
  let categoriesBreakdown :=
    foldl (fun acc r => PlainObject.increment acc (cbamaCategory r))
          ∅ processedRecords in
  {| totalRecords := totalRecords;
     highRiskRecords := highRiskRecords;
     averageComplianceScore := averageComplianceScore;
     categoriesBreakdown := categoriesBreakdown |}.

(** The "% of total" under the high-risk count. *)
Definition highRiskPercent (stats : CBAMStats) : number :=
  if gtb (ofNat (totalRecords stats)) (num 0)
  then Math_round (mul (div (ofNat (highRiskRecords stats))
                            (ofNat (totalRecords stats))) (num 100))
  else num 0.

(** The percentage shown with one entry of the category breakdown; the
    division turns [count] into a number. *)
Definition categoryPercent (stats : CBAMStats) (count : JS.value) : number :=
  if gtb (ofNat (totalRecords stats)) (num 0)
  then Math_round (mul (div (Number count) (ofNat (totalRecords stats)))
                       (num 100))
  else num 0.

(** The percentages rendered for
    [Object.entries(stats.categoriesBreakdown)]. *)
Definition categoryPercents (stats : CBAMStats) : list (string * number) :=
  map (fun '(category, count) => (category, categoryPercent stats count))
      (PlainObject.entries (categoriesBreakdown stats)).

End Analysis.

(* ===================================================================== *)
(** ** The dashboard *)
(* ===================================================================== *)

Module Dashboard.
Import JS.

Record DashboardStats : Type := {
  totalRecords : nat;
  cbamaRecords : nat
}.

(** [Number(record.isCbamRelevant) > 0]. *)
Definition isCbam (record : Store.TradeRecords.t) : bool :=
  gtb (Number (VString (Store.TradeRecords.isCbamRelevant record))) (num 0).

Definition calculateStats (recordsResult : list Store.TradeRecords.t)
    : DashboardStats :=
  {| totalRecords := length recordsResult;
     cbamaRecords := length (filter (fun r => isCbam r = true)
                                    recordsResult) |}.

(** The "% of total" under the CBAM record count. *)
Definition cbamPercent (stats : DashboardStats) : number :=
  if gtb (ofNat (totalRecords stats)) (num 0)
  then Math_round (mul (div (ofNat (cbamaRecords stats))
                            (ofNat (totalRecords stats))) (num 100))
  else num 0.

End Dashboard.

(* ===================================================================== *)
(** ** The CBAM overview page (pages/CBAMAnalysis.tsx) *)
(* ===================================================================== *)

Module Overview.
Import JS.

Section Overview.

(** The property [cbamCategory] of a listed row as the store returns
    it: a string, or [None] when it is null or missing. *)
Variable cbamCategory : Store.TradeRecords.t -> option string.

Record Stats : Type := {
  totalRecords : nat;
  cbamRelevant : nat;
  categories : PlainObject.t
}.

(** [record.cbamCategory || 'Unknown']. *)
Definition categoryKey (record : Store.TradeRecords.t) : string :=
  match cbamCategory record with
  | Some c => if String.eqb c "" then "Unknown" else c
  | None => "Unknown"
  end.

Definition calculateStats (records : list Store.TradeRecords.t) : Stats :=
  let cbamRecords := filter (fun r => Dashboard.isCbam r = true) records in
  let categories :=
    foldl (fun acc record =>
             let category := categoryKey record in
             PlainObject.increment acc category)
          ∅ cbamRecords in
  {| totalRecords := length records;
     cbamRelevant := length cbamRecords;
     categories := categories |}.

(** [complianceScore]: the share of records that are not CBAM
    relevant. *)
Definition complianceScore (stats : Stats) : number :=
  if gtb (ofNat (totalRecords stats)) (num 0)
  then Math_round
         (mul (div (sub (ofNat (totalRecords stats))
                        (ofNat (cbamRelevant stats)))
                   (ofNat (totalRecords stats))) (num 100))
  else num 100.

(** The "% of total" under the CBAM-relevant count. *)
Definition cbamPercent (stats : Stats) : number :=
  if gtb (ofNat (totalRecords stats)) (num 0)
  then Math_round (mul (div (ofNat (cbamRelevant stats))
                            (ofNat (totalRecords stats))) (num 100))
  else num 0.

(** The "% of CBAM records" of one entry of [stats.categories]. *)
Definition categoryPercent (stats : Stats) (count : JS.value) : number :=
  Math_round (mul (div (Number count) (ofNat (cbamRelevant stats)))
                  (num 100)).

(** The percentages rendered for [Object.entries(stats.categories)]. *)
Definition categoryPercents (stats : Stats) : list (string * number) :=
  map (fun '(category, count) => (category, categoryPercent stats count))
      (PlainObject.entries (categories stats)).

End Overview.
End Overview.

(* ===================================================================== *)
(** ** The trade-flow page: the per-country rollup *)
(* ===================================================================== *)

Module TradeFlow.
Import JS.

Module CountryData.
Record t : Type := {
  country : JS.value;
  totalRecords : nat;
  totalValue : number;
  cbamaRecords : nat;
  topProducts : list JS.value
}.
End CountryData.

Record TradeFlowData : Type := {
  totalCountries : nat;
  totalValue : number;
  topCountries : list CountryData.t
}.

(** The entry [countryMap.set] creates for a country not seen before. *)
Definition fresh (country : JS.value) : CountryData.t :=
  {| CountryData.country := country;
     CountryData.totalRecords := 0;
     CountryData.totalValue := num 0;
     CountryData.cbamaRecords := 0;
     CountryData.topProducts := [] |}.

(** What one record adds to the entry of its country. *)
Definition account (record : Store.TradeRecords.t) (value : number)
    (countryData : CountryData.t) : CountryData.t :=
  let description := Store.TradeRecords.productDescription record in
  {| CountryData.country := CountryData.country countryData;
     CountryData.totalRecords := S (CountryData.totalRecords countryData);
     CountryData.totalValue :=
       add (CountryData.totalValue countryData) value;
     CountryData.cbamaRecords :=
       if Dashboard.isCbam record
       then S (CountryData.cbamaRecords countryData)
       else CountryData.cbamaRecords countryData;
     CountryData.topProducts :=
       if (truthy description
           && negb (existsb (sameValueZero description)
                            (CountryData.topProducts countryData)))%bool
       then CountryData.topProducts countryData ++ [description]
       else CountryData.topProducts countryData |}.

(** [countryMap], in insertion order: the entry of [country] is created
    when missing, then updated in place. *)
Fixpoint upsert (country : JS.value) (f : CountryData.t -> CountryData.t)
    (countryMap : list CountryData.t) : list CountryData.t :=
  match countryMap with
  | [] => [f (fresh country)]
  | d :: rest =>
      if sameValueZero (CountryData.country d) country
      then f d :: rest
      else d :: upsert country f rest
  end.

(** The body of [records.forEach]. *)
Definition visit (acc : list CountryData.t * number)
    (record : Store.TradeRecords.t) : list CountryData.t * number :=
  let '(countryMap, totalValue) := acc in
  let country := Store.TradeRecords.originCountry record ||' VString "Unknown" in
  let value :=
    if truthy (VNumber (Store.TradeRecords.value record))
    then Store.TradeRecords.value record else num 0 in
  (upsert country (account record value) countryMap, add totalValue value).

(** [sort((a, b) => b.totalValue - a.totalValue)], stable: [x] goes
    before the first entry the comparator puts after it. *)
Fixpoint insertSorted (x : CountryData.t) (l : list CountryData.t)
    : list CountryData.t :=
  match l with
  | [] => [x]
  | y :: rest =>
      if gtb (sub (CountryData.totalValue x) (CountryData.totalValue y))
             (num 0)
      then x :: l
      else y :: insertSorted x rest
  end.

Definition sortByValue (l : list CountryData.t) : list CountryData.t :=
  foldl (fun sorted x => insertSorted x sorted) [] l.

(** The data [loadTradeFlowData] puts in the page state. *)
Definition calculateTradeFlow (records : list Store.TradeRecords.t)
    : TradeFlowData :=
  let '(countryMap, totalValue) := foldl visit ([], num 0) records in
  {| totalCountries := length countryMap;
     totalValue := totalValue;
     topCountries := take 10 (sortByValue countryMap) |}.

(** The "Trade Volume" percentage of one country. *)
Definition tradeVolumePercent (tradeData : TradeFlowData)
    (country : CountryData.t) : number :=
  Math_round (mul (div (CountryData.totalValue country)
                       (totalValue tradeData)) (num 100)).

End TradeFlow.

(** The row of the specification's first scenario. *)
Definition steelPipeRow : row :=
  <["Code" := JS.VString "7301"]>
    (<["Description" := JS.VString "steel pipe"]>
       (<["Country" := JS.VString "China"]>
          (<["Quantity" := JS.VString "100"]>
             (<["Value" := JS.VString "50000"]> ∅)))).

(** *** The matching rule in the specification's words *)

(** [k] occurs in [s] as a contiguous substring. *)
Definition isSubstring (k s : string) : Prop :=
  exists before after, s = (before ++ k ++ after)%string.

(** A keyword list matches when one of its keywords occurs in the code or
    in the description. *)
Definition keywordsMatch (code desc : string) (keywords : list string)
    : Prop :=
  exists k, k ∈ keywords /\ (isSubstring k code \/ isSubstring k desc).

(** [cat] is the first entry of the table whose keyword list matches. *)
Definition firstMatch (code desc : string)
    (entries : list (string * list string)) (cat : string) : Prop :=
  exists earlier keywords later,
    entries = (earlier ++ (cat, keywords) :: later)%list /\
    keywordsMatch code desc keywords /\
    Forall (fun entry => ~ keywordsMatch code desc (snd entry)) earlier.

(** *** Column resolution in the specification's words *)

(** The cell of the first alias of the list whose cell is truthy, the
    default when there is none. *)
Fixpoint resolve (r : row) (aliases : list string) (dflt : JS.value)
    : JS.value :=
  match aliases with
  | [] => dflt
  | a :: rest =>
      if JS.truthy (JS.get r a) then JS.get r a else resolve r rest dflt
  end.

Definition productCodeAliases : list string :=
  ["Product Code"; "HS Code"; "Code"; "Kod"].
Definition productDescriptionAliases : list string :=
  ["Product Description"; "Description"; "Açıklama"; "Ürün"].
Definition originCountryAliases : list string :=
  ["Origin Country"; "Country"; "Ülke"; "Menşe"].
Definition quantityAliases : list string := ["Quantity"; "Miktar"; "Amount"].
Definition unitAliases : list string := ["Unit"; "Birim"].
Definition valueAliases : list string := ["Value"; "Değer"; "Amount"].
Definition currencyAliases : list string := ["Currency"; "Para Birimi"].

Definition knownColumns : list string :=
  (productCodeAliases ++ productDescriptionAliases ++ originCountryAliases
   ++ quantityAliases ++ unitAliases ++ valueAliases ++ currencyAliases)%list.

(** The record of a row in which no known column has a usable cell. *)
Definition defaultRecord : Upload.TradeRecord :=
  {| Upload.productCode := JS.VString "";
     Upload.productDescription := JS.VString "";
     Upload.originCountry := JS.VString "";
     Upload.quantity := JS.num 0;
     Upload.unit := JS.VString "KG";
     Upload.value := JS.num 0;
     Upload.currency := JS.VString "USD";
     Upload.isCbamRelevant := false;
     Upload.cbamaCategory := None |}.

(** A listed record worth nothing: what a sheet without a value column
    leaves in the store. *)
Definition zeroValueRecord : Store.TradeRecords.t :=
  {| Store.TradeRecords.id := "rec_1";
     Store.TradeRecords.documentId := "doc_1";
     Store.TradeRecords.userId := "user1";
     Store.TradeRecords.productCode := JS.VString "0901";
     Store.TradeRecords.productDescription := JS.VString "coffee";
     Store.TradeRecords.originCountry := JS.VString "France";
     Store.TradeRecords.quantity := JS.num 10;
     Store.TradeRecords.unit := JS.VString "KG";
     Store.TradeRecords.value := JS.num 0;
     Store.TradeRecords.currency := JS.VString "USD";
     Store.TradeRecords.isCbamRelevant := "0";
     Store.TradeRecords.cbamaCategory := None;
     Store.TradeRecords.createdAt := "2024-01-01T00:00:00.000Z" |}.

(** The percent displays guarded by [total > 0 ? ... : 0] all have this
    shape. *)
Definition guardedPercent (count total : nat) : JS.number :=
  if JS.gtb (JS.ofNat total) (JS.num 0)
  then JS.Math_round (JS.mul (JS.div (JS.ofNat count) (JS.ofNat total))
                             (JS.num 100))
  else JS.num 0.

(** Rows of the examples. *)
Definition lowerCaseHeaderRow : row := <["code" := JS.VString "7301"]> ∅.
Definition unparsableValueRow : row := <["Value" := JS.VString "abc"]> ∅.
Definition amountOnlyRow : row :=
  <["Code" := JS.VString "2523"]> (<["Amount" := JS.VString "250"]> ∅).

(** The keyword list of a category in the table. *)
Definition keywordsOf (cat : string) : list string :=
  match find (fun entry => String.eqb (fst entry) cat) Upload.cbamaCategories with
  | Some entry => snd entry
  | None => []
  end.

(** A two-row file, and a world in which the third write (the second
    record) is refused by the store. *)
Definition twoRowFile : Upload.UploadedFile :=
  {| Upload.file :=
       {| Upload.name := "trade.xlsx";
          Upload.decoded := Normal [steelPipeRow; steelPipeRow] |};
     Upload.id := "f1";
     Upload.status := Upload.pending;
     Upload.progress := 0;
     Upload.records := None;
     Upload.cbamaRecords := None;
     Upload.error_ := None |}.

Definition refusingWorld : Upload.World :=
  {| Upload.me := Normal "user1";
     Upload.newDocumentId := "doc_1";
     Upload.newRecordId := fun _ => "rec_1";
     Upload.now := fun _ => "2024-01-01T00:00:00.000Z";
     Upload.writeOutcome := fun k =>
       if (k =? 2)%nat then Some (JS.ErrorObject "Network error") else None |}.

Definition emptyState (files : list Upload.UploadedFile) : Upload.State :=
  {| Upload.uploadedFiles := files;
     Upload.db := {| Store.tradeDocuments := [];
                     Store.tradeRecords := [];
                     Store.writes := 0 |} |}.

(** *** Further rows and names used by the properties of the upload page *)

(** The five category names. *)
Definition categoryNames : list string :=
  ["cement"; "steel"; "aluminum"; "fertilizers"; "electricity"].

(** A row whose HS code cell holds a number, as a numeric spreadsheet
    column gives it. *)
Definition numericCodeRow : row :=
  <["HS Code" := JS.VNumber (JS.num 7208)]>
    (<["Description" := JS.VString "hot-rolled coil"]> ∅).

(* ===================================================================== *)
(** ** The upload page: the handlers around [processFile] *)
(* ===================================================================== *)

Module UploadPage.

(** The page state: the entries and the store, and the [isProcessing]
    flag. *)
Record PageState : Type := {
  state : Upload.State;
  isProcessing : bool
}.

(** [onDrop]: every accepted file becomes a pending entry at the end of the
    list; [accepted] pairs each file with the identifier drawn for it. *)
Definition onDrop (accepted : list (Upload.File * string))
    (prev : list Upload.UploadedFile) : list Upload.UploadedFile :=
  (prev ++
   map (fun '(file, fid) =>
          {| Upload.file := file; Upload.id := fid;
             Upload.status := Upload.pending; Upload.progress := 0;
             Upload.records := None; Upload.cbamaRecords := None;
             Upload.error_ := None |}) accepted)%list.

(** [removeFile]. *)
Definition removeFile (fid : string) (prev : list Upload.UploadedFile)
    : list Upload.UploadedFile :=
  filter (fun f => Upload.id f <> fid) prev.

Definition isPending (f : Upload.UploadedFile) : bool :=
  match Upload.status f with
  | Upload.pending => true
  | _ => false
  end.

(** The loop of [processAllFiles] over the files it found pending, each
    with the world it meets. *)
Definition processEach (todo : list (Upload.World * Upload.UploadedFile))
    : Upload.M () :=
  Upload.forOf todo (fun '(w, file) => Upload.processFile w file).

(** [processAllFiles]: the pending entries of the list, as it is when the
    handler starts, are processed one after the other; [worlds i] is what
    the [i]-th of them meets. *)
Definition processAllFiles (worlds : nat -> Upload.World) (p : PageState)
    : PageState * completion () :=
  let pendingFiles :=
    filter (fun f => isPending f = true) (Upload.uploadedFiles (state p)) in
  match processEach (imap (fun i file => (worlds i, file)) pendingFiles)
                    (state p) with
  | (s', Normal _) => ({| state := s'; isProcessing := false |}, Normal tt)
  | (s', Throw e) => ({| state := s'; isProcessing := true |}, Throw e)
  end.

End UploadPage.

(** *** Names for the parts of [loadTradeFlowData] *)

(** The key under which a record is filed: [record.originCountry ||
    'Unknown']. *)
Definition countryKey (record : Store.TradeRecords.t) : JS.value :=
  Store.TradeRecords.originCountry record ||' JS.VString "Unknown".

(** [countryMap] once every record is visited. *)
Definition countryMapOf (records : list Store.TradeRecords.t)
    : list TradeFlow.CountryData.t :=
  fst (foldl TradeFlow.visit ([], JS.num 0) records).

(** [a] is listed before [b] when its total value is not smaller. *)
Definition notSmaller (a b : TradeFlow.CountryData.t) : Prop :=
  JS.leb (TradeFlow.CountryData.totalValue b)
         (TradeFlow.CountryData.totalValue a) = true.

(** An entry whose total value is a finite number. *)
Definition finiteTotal (d : TradeFlow.CountryData.t) : Prop :=
  exists q, TradeFlow.CountryData.totalValue d = JS.Fin q.

(** A value that is not an infinity. *)
Definition notInfinite (x : JS.number) : Prop :=
  x <> JS.PosInf /\ x <> JS.NegInf.

(** [record.value || 0]. *)
Definition recordValue (record : Store.TradeRecords.t) : JS.number :=
  if JS.truthy (JS.VNumber (Store.TradeRecords.value record))
  then Store.TradeRecords.value record else JS.num 0.

(** The records filed under a key. *)
Definition filedUnder (k : JS.value) (records : list Store.TradeRecords.t)
    : list Store.TradeRecords.t :=
  filter (fun r => JS.sameValueZero k (countryKey r) = true) records.

(* ===================================================================== *)
(** ** The settings page: deleting all data of the user *)
(* ===================================================================== *)

Module Settings.

(** A stored company profile. *)
Record Profile : Type := {
  id : string;
  userId : string;
  name : string;
  address : string;
  country : string;
  email : string;
  phone : string;
  website : string;
  industry : string;
  taxId : string;
  description : string;
  updatedAt : string
}.

(** Modelled from the spec: the three tables of the store the page reads
    and deletes from, with the count of writes attempted; [delete(id)]
    removes the rows under that identifier or throws and removes
    nothing. *)
Record DB : Type := {
  tradeDocuments : list Store.TradeDocuments.t;
  tradeRecords : list Store.TradeRecords.t;
  companyProfiles : list Profile;
  writes : nat
}.

Record PageState : Type := {
  db : DB;
  isDeleting : bool;
  showDeleteConfirm : bool
}.

(** What is outside the page: the signed-in user, whether the three
    [list] calls gathered by [Promise.all] go through, and the fate of each
    delete. *)
Record World : Type := {
  me : completion string;
  lists : option JS.thrown;
  deleteOutcome : Store.outcomes
}.

(** [for (const row of rows) { await table.delete(row.id) }] on one table:
    [ids] are the identifiers of the listed rows, [rows] the table and [n]
    the count of writes. *)
Fixpoint deleteRows {A} (rowId : A -> string) (o : Store.outcomes)
    (ids : list string) (rows : list A) (n : nat)
    : list A * nat * completion () :=
  match ids with
  | [] => (rows, n, Normal tt)
  | i :: rest =>
      match o n with
      | Some e => (rows, S n, Throw e)
      | None =>
          deleteRows rowId o rest (filter (fun r => rowId r <> i) rows) (S n)
      end
  end.

(** The [try] block of [deleteAllData]. *)
Definition attemptDelete (w : World) (d : DB) : DB * completion () :=
  match me w with
  | Throw e => (d, Throw e)
  | Normal user =>
      match lists w with
      | Some e => (d, Throw e)
      | None =>
          let documents :=
            filter (fun x => Store.TradeDocuments.userId x = user)
                   (tradeDocuments d) in
          let records :=
            filter (fun x => Store.TradeRecords.userId x = user)
                   (tradeRecords d) in
          let profiles :=
            filter (fun x => userId x = user) (companyProfiles d) in
          (* Delete records *)
          let '(records', n1, c1) :=
            deleteRows Store.TradeRecords.id (deleteOutcome w)
                       (map Store.TradeRecords.id records)
                       (tradeRecords d) (writes d) in
          match c1 with
          | Throw e =>
              ({| tradeDocuments := tradeDocuments d;
                  tradeRecords := records';
                  companyProfiles := companyProfiles d;
                  writes := n1 |}, Throw e)
          | Normal _ =>
              (* Delete documents *)
              let '(documents', n2, c2) :=
                deleteRows Store.TradeDocuments.id (deleteOutcome w)
                           (map Store.TradeDocuments.id documents)
                           (tradeDocuments d) n1 in
              match c2 with
              | Throw e =>
                  ({| tradeDocuments := documents';
                      tradeRecords := records';
                      companyProfiles := companyProfiles d;
                      writes := n2 |}, Throw e)
              | Normal _ =>
                  (* Delete profiles *)
                  let '(profiles', n3, c3) :=
                    deleteRows id (deleteOutcome w) (map id profiles)
                               (companyProfiles d) n2 in
                  ({| tradeDocuments := documents';
                      tradeRecords := records';
                      companyProfiles := profiles';
                      writes := n3 |}, c3)
              end
          end
      end
  end.

(** [deleteAllData]: the confirmation is closed only when everything went
    through; the [finally] block resets [isDeleting] in every case. *)
Definition deleteAllData (w : World) (p : PageState) : PageState :=
  match attemptDelete w (db p) with
  | (d', Normal _) =>
      {| db := d'; isDeleting := false; showDeleteConfirm := false |}
  | (d', Throw _) =>
      {| db := d'; isDeleting := false;
         showDeleteConfirm := showDeleteConfirm p |}
  end.

End Settings.

(** *** Stores and worlds used by the properties of the settings page *)

Definition recordOf (rid did user : string) : Store.TradeRecords.t :=
  {| Store.TradeRecords.id := rid;
     Store.TradeRecords.documentId := did;
     Store.TradeRecords.userId := user;
     Store.TradeRecords.productCode := JS.VString "7208";
     Store.TradeRecords.productDescription := JS.VString "steel sheet";
     Store.TradeRecords.originCountry := JS.VString "Turkey";
     Store.TradeRecords.quantity := JS.num 10;
     Store.TradeRecords.unit := JS.VString "KG";
     Store.TradeRecords.value := JS.num 500;
     Store.TradeRecords.currency := JS.VString "USD";
     Store.TradeRecords.isCbamRelevant := "1";
     Store.TradeRecords.cbamaCategory := Some "Iron and Steel";
     Store.TradeRecords.createdAt := "2024-01-01T00:00:00.000Z" |}.

Definition documentOf (did user : string) : Store.TradeDocuments.t :=
  {| Store.TradeDocuments.id := did;
     Store.TradeDocuments.userId := user;
     Store.TradeDocuments.filename := "trade.xlsx";
     Store.TradeDocuments.status := "completed";
     Store.TradeDocuments.uploadedAt := "2024-01-01T00:00:00.000Z";
     Store.TradeDocuments.totalRecords := 1;
     Store.TradeDocuments.cbamaRecords := 1 |}.

Definition profileOf (pid user : string) : Settings.Profile :=
  {| Settings.id := pid;
     Settings.userId := user;
     Settings.name := "Acme";
     Settings.address := "";
     Settings.country := "Germany";
     Settings.email := "";
     Settings.phone := "";
     Settings.website := "";
     Settings.industry := "";
     Settings.taxId := "";
     Settings.description := "";
     Settings.updatedAt := "2024-01-01T00:00:00.000Z" |}.

(** A store holding the rows of two users. *)
Definition sharedStore : Settings.DB :=
  {| Settings.tradeDocuments :=
       [documentOf "doc_1" "user1"; documentOf "doc_2" "user2"];
     Settings.tradeRecords :=
       [recordOf "rec_1" "doc_1" "user1"; recordOf "rec_2" "doc_2" "user2";
        recordOf "rec_3" "doc_1" "user1"];
     Settings.companyProfiles :=
       [profileOf "prof_1" "user1"; profileOf "prof_2" "user2"];
     Settings.writes := 0 |}.

Definition confirmingPage : Settings.PageState :=
  {| Settings.db := sharedStore;
     Settings.isDeleting := true;
     Settings.showDeleteConfirm := true |}.

(** The store accepts every delete. *)
Definition obligingWorld : Settings.World :=
  {| Settings.me := Normal "user1";
     Settings.lists := None;
     Settings.deleteOutcome := fun _ => None |}.

(** The store refuses the second delete. *)
Definition balkingWorld : Settings.World :=
  {| Settings.me := Normal "user1";
     Settings.lists := None;
     Settings.deleteOutcome := fun k =>
       if (k =? 1)%nat then Some (JS.ErrorObject "Network error") else None |}.

(** Each table has one row per identifier. *)
Definition uniqueIds (d : Settings.DB) : Prop :=
  NoDup (map Store.TradeDocuments.id (Settings.tradeDocuments d)) /\
  NoDup (map Store.TradeRecords.id (Settings.tradeRecords d)) /\
  NoDup (map Settings.id (Settings.companyProfiles d)).

(* ===================================================================== *)
(** ** The company profile page: profile completion *)
(* ===================================================================== *)

Module CompanyProfile.

(** The white space and line terminators of [String.prototype.trim] that
    take two or three bytes in UTF-8: U+00A0, U+1680, U+2000 to U+200A,
    U+2028, U+2029, U+202F, U+205F, U+3000 and U+FEFF. *)
Definition isWhiteSpace2 (a b : ascii) : bool :=
  ((nat_of_ascii a =? 194) && (nat_of_ascii b =? 160))%nat.

Definition isWhiteSpace3 (a b c : ascii) : bool :=
  let '(x, y, z) := (nat_of_ascii a, nat_of_ascii b, nat_of_ascii c) in
  ((x =? 225) && (y =? 154) && (z =? 128)
   || (x =? 226) && (y =? 128)
      && ((128 <=? z) && (z <=? 138) || (z =? 168) || (z =? 169)
          || (z =? 175))
   || (x =? 226) && (y =? 129) && (z =? 159)
   || (x =? 227) && (y =? 128) && (z =? 128)
   || (x =? 239) && (y =? 187) && (z =? 191))%nat.

(** [s.trimStart()]. *)
Fixpoint trimStart (s : string) : string :=
  match s with
  | EmptyString => EmptyString
  | String a s1 =>
      if JS.isWhiteSpace a then trimStart s1
      else
        match s1 with
        | EmptyString => s
        | String b s2 =>
            if isWhiteSpace2 a b then trimStart s2
            else
              match s2 with
              | EmptyString => s
              | String c s3 =>
                  if isWhiteSpace3 a b c then trimStart s3 else s
              end
        end
  end.

(** [s.trimEnd()]: the string is cut where only white space follows. *)
Fixpoint trimEnd (s : string) : string :=
  match s with
  | EmptyString => EmptyString
  | String a s1 =>
      match trimStart s with
      | EmptyString => EmptyString
      | String _ _ => String a (trimEnd s1)
      end
  end.

(** [s.trim()]. *)
Definition trim (s : string) : string := trimEnd (trimStart s).

(** The callback of the filter: [field && field.trim()], as a condition. *)
Definition isCompleted (field : string) : bool :=
  JS.truthy (if JS.truthy (JS.VString field)
             then JS.VString (trim field) else JS.VString field).

Definition fields (profile : Settings.Profile) : list string :=
  [Settings.name profile; Settings.industry profile; Settings.email profile;
   Settings.address profile; Settings.country profile;
   Settings.taxId profile].

Definition completedFields (profile : Settings.Profile) : nat :=
  length (filter (fun field => isCompleted field = true) (fields profile)).

Definition completionPercentage (profile : Settings.Profile) : JS.number :=
  JS.Math_round
    (JS.mul (JS.div (JS.ofNat (completedFields profile))
                    (JS.ofNat (length (fields profile))))
            (JS.num 100)).

(** The text of the badge. *)
Definition completionLabel (profile : Settings.Profile) : string :=
  if JS.leb (JS.num 80) (completionPercentage profile) then "Complete"
  else if JS.leb (JS.num 50) (completionPercentage profile) then "Partial"
  else "Incomplete".

End CompanyProfile.

(** The string holds ASCII characters only. *)
Definition isAscii (s : string) : Prop :=
  Forall (fun c => (nat_of_ascii c < 128)%nat) (list_ascii_of_string s).

(** *** What a tally in a plain object holds *)

(** The text under an inherited method name after [n] increments: the
    source of the method followed by one "1" per increment. *)
Fixpoint textAfter (name : string) (n : nat) : string :=
  match n with
  | O => PlainObject.nativeSource name
  | S k => textAfter name k ++ "1"
  end.

(** What a fresh object holds under [key] after [n] increments of that
    key: nothing under [__proto__], a text under the name of an inherited
    method, the number [n] under any other key. *)
Definition tallied (key : string) (n : nat) : option JS.value :=
  if String.eqb key "__proto__" then None
  else
    match n with
    | O => None
    | S _ =>
        Some (match PlainObject.functionNamed key
                      PlainObject.inheritedFunctions with
              | Some name => JS.VString (textAfter name n)
              | None => JS.VNumber (JS.ofNat n)
              end)
    end.

(** A key no fresh object answers to. *)
Definition ordinaryKey (key : string) : Prop :=
  key ∉ PlainObject.inheritedNames.

(** A stored CBAM record of a given category. *)
Definition categoryRecord (rid category : string) : Store.TradeRecords.t :=
  {| Store.TradeRecords.id := rid;
     Store.TradeRecords.documentId := "doc_1";
     Store.TradeRecords.userId := "user1";
     Store.TradeRecords.productCode := JS.VString "7208";
     Store.TradeRecords.productDescription := JS.VString "sheet";
     Store.TradeRecords.originCountry := JS.VString "Turkey";
     Store.TradeRecords.quantity := JS.num 10;
     Store.TradeRecords.unit := JS.VString "KG";
     Store.TradeRecords.value := JS.num 500;
     Store.TradeRecords.currency := JS.VString "USD";
     Store.TradeRecords.isCbamRelevant := "1";
     Store.TradeRecords.cbamaCategory := Some category;
     Store.TradeRecords.createdAt := "2024-01-01T00:00:00.000Z" |}.

(** A stored record from a given country with a given value, and the
    records of a user who trades with twelve countries. *)
Definition recordFrom (rid country : string) (v : Z) : Store.TradeRecords.t :=
  {| Store.TradeRecords.id := rid;
     Store.TradeRecords.documentId := "doc_1";
     Store.TradeRecords.userId := "user1";
     Store.TradeRecords.productCode := JS.VString "0901";
     Store.TradeRecords.productDescription := JS.VString "coffee";
     Store.TradeRecords.originCountry := JS.VString country;
     Store.TradeRecords.quantity := JS.num 1;
     Store.TradeRecords.unit := JS.VString "KG";
     Store.TradeRecords.value := JS.num v;
     Store.TradeRecords.currency := JS.VString "USD";
     Store.TradeRecords.isCbamRelevant := "0";
     Store.TradeRecords.cbamaCategory := None;
     Store.TradeRecords.createdAt := "2024-01-01T00:00:00.000Z" |}.

Definition twelveCountries : list Store.TradeRecords.t :=
  [recordFrom "r1" "China" 500; recordFrom "r2" "Turkey" 300;
   recordFrom "r3" "India" 700; recordFrom "r4" "Germany" 100;
   recordFrom "r5" "France" 900; recordFrom "r6" "Brazil" 200;
   recordFrom "r7" "Japan" 800; recordFrom "r8" "Italy" 50;
   recordFrom "r9" "Spain" 400; recordFrom "r10" "Egypt" 600;
   recordFrom "r11" "Chile" 20; recordFrom "r12" "Peru" 1000;
   recordFrom "r13" "Turkey" 350].

(* ===================================================================== *)
(** ** Properties *)
(* ===================================================================== *)

(** *** The order on numbers *)

(** The sign rule of [*] when an operand is infinite. *)
Example mul_infinite :
  JS.mul JS.PosInf (JS.num 100) = JS.PosInf /\
  JS.mul JS.NegInf (JS.num 100) = JS.NegInf /\
  JS.mul (JS.num (-2)) JS.PosInf = JS.NegInf /\
  JS.mul JS.NegInf (JS.num (-2)) = JS.PosInf /\
  JS.mul JS.PosInf (JS.num 0) = JS.NaN.
Proof. repeat split. Qed.

Lemma leb_Fin (a b : Q) : JS.leb (JS.Fin a) (JS.Fin b) = true <-> (a <= b)%Q.
Proof. simpl. apply Qle_bool_iff. Qed.

Lemma ltb_Fin (a b : Q) : JS.ltb (JS.Fin a) (JS.Fin b) = true <-> (a < b)%Q.
Proof.
  simpl. rewrite Qlt_alt. destruct (a ?= b)%Q; split; congruence.
Qed.

Lemma ltb_Fin_false (a b : Q) :
  JS.ltb (JS.Fin a) (JS.Fin b) = false <-> (b <= a)%Q.
Proof.
  rewrite <- Bool.not_true_iff_false, ltb_Fin. split.
  - apply Qnot_lt_le.
  - apply Qle_not_lt.
Qed.

Lemma leb_refl (x : JS.number) : JS.isNaN x = false -> JS.leb x x = true.
Proof.
  destruct x; simpl; try congruence. intros _. apply Qle_bool_iff, Qle_refl.
Qed.

Lemma leb_trans (x y z : JS.number) :
  JS.leb x y = true -> JS.leb y z = true -> JS.leb x z = true.
Proof.
  destruct x, y, z; simpl; try congruence.
  rewrite !Qle_bool_iff. apply Qle_trans.
Qed.

Lemma leb_not_NaN (x y : JS.number) :
  JS.leb x y = true -> JS.isNaN x = false /\ JS.isNaN y = false.
Proof. destruct x, y; simpl; auto; congruence. Qed.

(** [Math.min] and [Math.max] against a finite bound. *)
Lemma Math_min_Fin_r (x : JS.number) (c : Q) :
  JS.isNaN x = false ->
  JS.leb (JS.Math_min x (JS.Fin c)) (JS.Fin c) = true /\
  JS.leb (JS.Math_min x (JS.Fin c)) x = true.
Proof.
  destruct x as [| |q|]; simpl; try congruence; intros _.
  - auto.
  - destruct (c ?= q)%Q eqn:E; simpl; rewrite !Qle_bool_iff.
    + apply Qeq_alt in E. split; [rewrite E|]; apply Qle_refl.
    + apply Qlt_alt in E. split; [apply Qle_refl | now apply Qlt_le_weak].
    + apply Qgt_alt in E. split; [now apply Qlt_le_weak | apply Qle_refl].
  - split; [apply Qle_bool_iff, Qle_refl | reflexivity].
Qed.

Ltac q_props :=
  repeat match goal with
  | H : JS.ltb (JS.Fin _) (JS.Fin _) = true |- _ => apply ltb_Fin in H
  | H : JS.ltb (JS.Fin _) (JS.Fin _) = false |- _ => apply ltb_Fin_false in H
  | H : JS.leb (JS.Fin _) (JS.Fin _) = true |- _ => apply leb_Fin in H
  | |- JS.leb (JS.Fin _) (JS.Fin _) = true => apply leb_Fin
  end.

(** Case analysis on the comparison inside [Math.min] / [Math.max]. *)
Ltac minmax_cases :=
  cbn [JS.Math_min JS.Math_max];
  repeat match goal with
  | |- context [if JS.ltb ?a ?b then _ else _] =>
      let E := fresh "E" in destruct (JS.ltb a b) eqn:E
  end;
  try discriminate; q_props; try reflexivity; try lra.

Lemma Math_min_mono_l (x y c : JS.number) :
  JS.isNaN c = false ->
  JS.leb x y = true -> JS.leb (JS.Math_min x c) (JS.Math_min y c) = true.
Proof.
  destruct c, x, y; intros Hc H; try discriminate; minmax_cases.
Qed.

Lemma Math_min_mono_r (x y c : JS.number) :
  JS.isNaN c = false ->
  JS.leb x y = true -> JS.leb (JS.Math_min c x) (JS.Math_min c y) = true.
Proof.
  destruct c, x, y; intros Hc H; try discriminate; minmax_cases.
Qed.

Lemma Math_max_mono_r (x y c : JS.number) :
  JS.isNaN c = false ->
  JS.leb x y = true -> JS.leb (JS.Math_max c x) (JS.Math_max c y) = true.
Proof.
  destruct c, x, y; intros Hc H; try discriminate; minmax_cases.
Qed.

Lemma Math_max_lower (c y : JS.number) :
  JS.isNaN c = false -> JS.isNaN y = false ->
  JS.leb c (JS.Math_max c y) = true.
Proof.
  destruct c, y; intros Hc Hy; try discriminate; minmax_cases.
Qed.

Lemma Math_max_upper (c y u : JS.number) :
  JS.leb c u = true -> JS.leb y u = true ->
  JS.leb (JS.Math_max c y) u = true.
Proof.
  destruct c, y, u; intros Hc Hy; try discriminate; minmax_cases.
Qed.

Lemma Math_min_upper_l (c x : JS.number) :
  JS.isNaN c = false -> JS.isNaN x = false ->
  JS.leb (JS.Math_min c x) c = true.
Proof.
  destruct c, x; intros Hc Hx; try discriminate; minmax_cases.
Qed.

(** Division by a positive constant keeps the order. *)
Lemma div_mono_pos (x y : JS.number) (c : Q) :
  (0 < c)%Q ->
  JS.leb x y = true -> JS.leb (JS.div x (JS.Fin c)) (JS.div y (JS.Fin c)) = true.
Proof.
  intros Hc H.
  assert (Hz : Qeq_bool c 0 = false).
  { apply Bool.not_true_iff_false. rewrite Qeq_bool_iff. lra. }
  assert (Hs : (0 ?= c)%Q = Lt) by now apply Qlt_alt.
  destruct x as [| |a|], y as [| |b|]; try discriminate;
    cbn [JS.div]; rewrite ?Hz, ?Hs; try reflexivity.
  q_props. rewrite !Qred_correct. unfold Qdiv.
  apply Qmult_le_compat_r; [exact H|].
  apply Qlt_le_weak, Qinv_lt_0_compat, Hc.
Qed.

(** Subtraction from a finite number reverses the order. *)
Lemma sub_anti (b : Q) (x y : JS.number) :
  JS.leb x y = true ->
  JS.leb (JS.sub (JS.Fin b) y) (JS.sub (JS.Fin b) x) = true.
Proof.
  destruct x as [| |p|], y as [| |q|]; intros H; try discriminate;
    try reflexivity.
  q_props. cbn [JS.sub JS.neg JS.add]. q_props.
  rewrite !Qred_correct. lra.
Qed.

Lemma sub_not_NaN (b : Q) (x : JS.number) :
  JS.isNaN x = false -> JS.isNaN (JS.sub (JS.Fin b) x) = false.
Proof. destruct x; simpl; congruence. Qed.

Lemma div_not_NaN (x : JS.number) (c : Q) :
  (0 < c)%Q -> JS.isNaN x = false -> JS.isNaN (JS.div x (JS.Fin c)) = false.
Proof.
  intros Hc Hx.
  assert (Hz : Qeq_bool c 0 = false).
  { apply Bool.not_true_iff_false. rewrite Qeq_bool_iff. lra. }
  assert (Hs : (0 ?= c)%Q = Lt) by now apply Qlt_alt.
  destruct x; try discriminate; cbn [JS.div]; rewrite ?Hz, ?Hs; reflexivity.
Qed.

Lemma baseScore_cases (riskLevel : string) :
  Analysis.baseScore riskLevel = JS.num 40 \/
  Analysis.baseScore riskLevel = JS.num 70 \/
  Analysis.baseScore riskLevel = JS.num 85.
Proof.
  unfold Analysis.baseScore.
  destruct (String.eqb riskLevel "high"); [auto|].
  destruct (String.eqb riskLevel "medium"); auto.
Qed.

(** The value adjustment is a number whenever the value is, and at most
    15. *)
Lemma valueAdjustment_le_15 (value : JS.number) :
  JS.isNaN value = false ->
  JS.leb (JS.Math_min (JS.div value (JS.num 100000)) (JS.num 15)) (JS.num 15)
  = true.
Proof.
  intros Hv. apply Math_min_Fin_r. apply div_not_NaN; [reflexivity | exact Hv].
Qed.

(** C5, as amended: for every risk level and every trade value other than
    NaN (finite or infinite), [calculateComplianceScore] returns a number
    in the closed interval [0, 100]. *)
Theorem complianceScore_in_range (riskLevel : string) (value : JS.number) :
  JS.isNaN value = false ->
  JS.leb (JS.num 0) (Analysis.calculateComplianceScore riskLevel value) = true
  /\ JS.leb (Analysis.calculateComplianceScore riskLevel value) (JS.num 100)
     = true.
Proof.
  intros Hv. unfold Analysis.calculateComplianceScore.
  pose proof (valueAdjustment_le_15 value Hv) as Hadj.
  apply leb_not_NaN in Hadj as [Hadj _].
  set (adj := JS.Math_min _ (JS.num 15)) in *.
  assert (Hx : JS.isNaN (JS.sub (Analysis.baseScore riskLevel) adj) = false).
  { destruct (baseScore_cases riskLevel) as [-> | [-> | ->]];
      now apply sub_not_NaN. }
  pose proof (Math_min_upper_l (JS.num 100) _ eq_refl Hx) as Hup.
  split.
  - apply Math_max_lower; [reflexivity|].
    now apply leb_not_NaN in Hup.
  - apply Math_max_upper; [reflexivity | exact Hup].
Qed.

Lemma complianceScore_in_range_witness :
  JS.isNaN (JS.num 2000000) = false /\
  JS.leb (JS.num 0) (Analysis.calculateComplianceScore "low" (JS.num 2000000))
  = true
  /\ JS.leb (Analysis.calculateComplianceScore "low" (JS.num 2000000))
            (JS.num 100) = true.
Proof.
  split; [reflexivity | apply complianceScore_in_range; reflexivity].
Defined.

(** C5 as stated fails at the value NaN: the score is NaN, which lies in
    no interval. *)
Lemma complianceScore_NaN_out_of_range :
  Analysis.calculateComplianceScore "high" JS.NaN = JS.NaN
  /\ ~ (JS.leb (JS.num 0) (Analysis.calculateComplianceScore "high" JS.NaN)
        = true
        /\ JS.leb (Analysis.calculateComplianceScore "high" JS.NaN)
                  (JS.num 100) = true).
Proof. split; [reflexivity|]. intros [H _]. discriminate H. Qed.

(** C7: for every fixed risk level the compliance score does not increase
    with the trade value, and it never drops more than 15 points under the
    base score: for [v1 <= v2],
    [score v1 >= score v2 >= base - 15]. *)
Theorem complianceScore_monotone (riskLevel : string) (v1 v2 : JS.number) :
  JS.leb v1 v2 = true ->
  JS.leb (Analysis.calculateComplianceScore riskLevel v2)
         (Analysis.calculateComplianceScore riskLevel v1) = true
  /\ JS.leb (JS.sub (Analysis.baseScore riskLevel) (JS.num 15))
            (Analysis.calculateComplianceScore riskLevel v2) = true.
Proof.
  intros H. unfold Analysis.calculateComplianceScore.
  assert (Hb : exists b, Analysis.baseScore riskLevel = JS.Fin b /\
                         JS.Math_max (JS.num 0)
                           (JS.Math_min (JS.num 100)
                              (JS.sub (JS.Fin b) (JS.num 15)))
                         = JS.sub (JS.Fin b) (JS.num 15)).
  { destruct (baseScore_cases riskLevel) as [-> | [-> | ->]];
      eexists; split; reflexivity. }
  destruct Hb as (b & -> & Hclamp).
  split.
  - apply Math_max_mono_r; [reflexivity|].
    apply Math_min_mono_r; [reflexivity|].
    apply sub_anti.
    apply Math_min_mono_l; [reflexivity|].
    apply div_mono_pos; [reflexivity | exact H].
  - rewrite <- Hclamp.
    apply Math_max_mono_r; [reflexivity|].
    apply Math_min_mono_r; [reflexivity|].
    apply sub_anti.
    apply valueAdjustment_le_15.
    now apply leb_not_NaN in H.
Qed.

Lemma complianceScore_monotone_witness :
  JS.leb (JS.num 50000) (JS.num 900000) = true /\
  JS.leb (Analysis.calculateComplianceScore "medium" (JS.num 900000))
         (Analysis.calculateComplianceScore "medium" (JS.num 50000)) = true
  /\ JS.leb (JS.sub (Analysis.baseScore "medium") (JS.num 15))
            (Analysis.calculateComplianceScore "medium" (JS.num 900000))
     = true.
Proof.
  split; [reflexivity | apply complianceScore_monotone; reflexivity].
Defined.

(** *** Risk level *)

Lemma Array_includes_elem_of (l : list string) (s : string) :
  JS.Array_includes l (JS.VString s) = true <-> s ∈ l.
Proof.
  simpl. rewrite existsb_exists, list_elem_of_In. split.
  - intros (x & Hin & Heq). apply String.eqb_eq in Heq. now subst.
  - intros Hin. exists s. split; [exact Hin | apply String.eqb_refl].
Qed.

(** C6: the risk level is high exactly when the country is a high-risk
    country and the category a high-risk category (steel, cement,
    aluminum); otherwise medium exactly when the country is high-risk, or
    the category is high-risk, or the country is medium-risk; otherwise
    low. *)
Theorem calculateRiskLevel_cases (country category : string) :
  let r := Analysis.calculateRiskLevel (JS.VString country)
                                       (JS.VString category) in
  let A := country ∈ Analysis.highRiskCountries in
  let B := category ∈ Analysis.highRiskCategories in
  let C := country ∈ Analysis.mediumRiskCountries in
  Analysis.highRiskCategories = ["steel"; "cement"; "aluminum"] /\
  (r = Analysis.high <-> A /\ B) /\
  (r = Analysis.medium <-> ~ (A /\ B) /\ (A \/ B \/ C)) /\
  (r = Analysis.low <-> ~ (A /\ B) /\ ~ (A \/ B \/ C)).
Proof.
  intros r A B C. subst r A B C. unfold Analysis.calculateRiskLevel.
  rewrite <- !Array_includes_elem_of.
  destruct (JS.Array_includes Analysis.highRiskCountries _),
           (JS.Array_includes Analysis.highRiskCategories _),
           (JS.Array_includes Analysis.mediumRiskCountries _);
    cbn [andb orb]; (split; [reflexivity|]);
    repeat split; try discriminate; try tauto;
    intuition discriminate.
Qed.

(** *** The first scenario *)

(** C1: the row [{Code: "7301", Description: "steel pipe", Country:
    "China", Quantity: "100", Value: "50000"}] is classified as CBAM
    relevant in category steel, its risk level is high and its compliance
    score is 39.5, through the row mapper, the stored fields and the
    analysis of the listed record. *)
Theorem steel_pipe_scenario :
  Upload.detectCBAMRelevance "7301" "steel pipe"
  = {| Upload.relevant := true; Upload.category := Some "steel" |} /\
  Analysis.calculateRiskLevel (JS.VString "China") (JS.VString "steel")
  = Analysis.high /\
  Analysis.calculateComplianceScore "high" (JS.num 50000) = JS.Fin (79 # 2) /\
  exists record,
    Upload.mapRow steelPipeRow = Normal record /\
    Upload.isCbamRelevant record = true /\
    Upload.cbamaCategory record = Some "steel" /\
    Upload.value record = JS.num 50000 /\
    forall recordId documentId user createdAt,
      let scored :=
        Analysis.processRecord
          (Upload.recordFields recordId documentId user createdAt record) in
      Analysis.cbamaCategory scored = "steel" /\
      Analysis.riskLevel scored = Analysis.high /\
      Analysis.complianceScore scored = JS.Fin (79 # 2).
Proof.
  split; [reflexivity|]. split; [reflexivity|].
  split; [vm_compute; reflexivity|].
  eexists. split; [vm_compute; reflexivity|].
  repeat split; vm_compute; reflexivity.
Qed.

(** *** [processFile] and failing writes *)

(** The loop that saves the records either performs every write, or stops
    at the first write that throws, with that throw; it touches neither
    the file list nor the documents. *)
Lemma saveRecords_outcome (w : Upload.World) (documentId user : string)
    (recs : list Upload.TradeRecord) :
  forall s : Upload.State,
    let n := Store.writes (Upload.db s) in
    let '(s', c) := Upload.forOf recs (Upload.saveRecord w documentId user) s in
    Upload.uploadedFiles s' = Upload.uploadedFiles s /\
    Store.tradeDocuments (Upload.db s') = Store.tradeDocuments (Upload.db s) /\
    match c with
    | Normal _ =>
        (forall j, (j < length recs)%nat ->
                   Upload.writeOutcome w (n + j) = None) /\
        Store.writes (Upload.db s') = (n + length recs)%nat /\
        length (Store.tradeRecords (Upload.db s'))
        = (length (Store.tradeRecords (Upload.db s)) + length recs)%nat
    | Throw e =>
        exists j, (j < length recs)%nat /\
                  Upload.writeOutcome w (n + j) = Some e /\
                  (forall i, (i < j)%nat ->
                             Upload.writeOutcome w (n + i) = None) /\
                  length (Store.tradeRecords (Upload.db s'))
                  = (length (Store.tradeRecords (Upload.db s)) + j)%nat
    end.
Proof.
  induction recs as [|record rest IH]; intros s; cbn zeta.
  - simpl. repeat split; simpl in *; lia.
  - cbn [Upload.forOf]. unfold Upload.bind at 1.
    unfold Upload.saveRecord at 1, Upload.bind at 1, Upload.getWrites,
      Upload.onStore, Store.tradeRecords_create.
    destruct (Upload.writeOutcome w (Store.writes (Upload.db s))) as [e|] eqn:Ho;
      cbn [Upload.db Upload.uploadedFiles Store.tradeDocuments
           Store.tradeRecords Store.writes].
    + repeat split. exists 0%nat. rewrite Nat.add_0_r.
      repeat split; simpl; try lia. exact Ho.
    + match goal with |- context [Upload.forOf rest _ ?st] =>
        specialize (IH st); cbn zeta in IH;
        destruct (Upload.forOf rest (Upload.saveRecord w documentId user) st)
          as [s' c]
      end.
      cbn [Upload.db Upload.uploadedFiles Store.tradeDocuments
           Store.tradeRecords Store.writes] in IH.
      destruct IH as (Hf & Hd & Hc). split; [exact Hf|]. split; [exact Hd|].
      destruct c as [[]|e].
      * destruct Hc as (Hall & Hw & Hl). rewrite length_app in Hl.
        simpl in *. repeat split; try lia.
        intros [|j] Hj; [now rewrite Nat.add_0_r|].
        replace (Store.writes (Upload.db s) + S j)%nat
          with (S (Store.writes (Upload.db s)) + j)%nat by lia.
        apply Hall. lia.
      * destruct Hc as (j & Hj & Hoj & Hbefore & Hl).
        rewrite length_app in Hl. simpl in *.
        exists (S j). repeat split; try lia.
        -- replace (Store.writes (Upload.db s) + S j)%nat
             with (S (Store.writes (Upload.db s)) + j)%nat by lia.
           exact Hoj.
        -- intros [|i] Hi; [now rewrite Nat.add_0_r|].
           replace (Store.writes (Upload.db s) + S i)%nat
             with (S (Store.writes (Upload.db s)) + i)%nat by lia.
           apply Hbefore. lia.
Qed.

Lemma updateFile_ids (fid : string)
    (upd : Upload.UploadedFile -> Upload.UploadedFile)
    (l : list Upload.UploadedFile) :
  (forall f, Upload.id (upd f) = Upload.id f) ->
  map Upload.id (Upload.updateFile fid upd l) = map Upload.id l.
Proof.
  intros Hupd. unfold Upload.updateFile. rewrite map_map.
  apply map_ext. intros f. destruct (String.eqb _ _); [apply Hupd | reflexivity].
Qed.

Lemma updateFile_elem (fid : string)
    (upd : Upload.UploadedFile -> Upload.UploadedFile)
    (l : list Upload.UploadedFile) (f : Upload.UploadedFile) :
  (forall g, Upload.id (upd g) = Upload.id g) ->
  f ∈ Upload.updateFile fid upd l -> Upload.id f = fid ->
  exists g, g ∈ l /\ f = upd g.
Proof.
  intros Hupd Hin Hid. unfold Upload.updateFile in Hin.
  apply list_elem_of_fmap in Hin as (g & -> & Hg).
  exists g. split; [exact Hg|].
  destruct (String.eqb (Upload.id g) fid) eqn:E; [reflexivity|].
  apply String.eqb_neq in E. contradiction.
Qed.

(** What the [catch] block leaves behind: the entries of the file are
    marked [error] with the cause, and no entry is dropped. *)
Lemma onError_marks (fileData : Upload.UploadedFile) (e : JS.thrown)
    (s : Upload.State) :
  let s' := fst (Upload.onError fileData e s) in
  Upload.db s' = Upload.db s /\
  map Upload.id (Upload.uploadedFiles s') = map Upload.id (Upload.uploadedFiles s) /\
  forall f, f ∈ Upload.uploadedFiles s' -> Upload.id f = Upload.id fileData ->
            Upload.status f = Upload.error /\
            Upload.error_ f = Some (Upload.cause e).
Proof.
  cbn. split; [reflexivity|]. split.
  - now apply updateFile_ids.
  - intros f Hin Hid.
    apply updateFile_elem in Hin as (g & _ & ->); auto.
Qed.

(** The [try] block, once the file is decoded and the user known: it ends
    normally only if the document write, every record write and the status
    update all went through; otherwise it throws what the first failing
    write threw, and the store then holds no new document or the new
    document in status "processing", with the records written before the
    failure. *)
Lemma attempt_outcome (w : Upload.World) (fileData : Upload.UploadedFile)
    (s : Upload.State) (recs : list Upload.TradeRecord) (user : string) :
  Upload.processExcelFile (Upload.decoded (Upload.file fileData)) = Normal recs ->
  Upload.me w = Normal user ->
  let n := Store.writes (Upload.db s) in
  let '(s', c) := Upload.attempt w fileData s in
  map Upload.id (Upload.uploadedFiles s') = map Upload.id (Upload.uploadedFiles s) /\
  match c with
  | Normal _ =>
      forall j, (j <= S (length recs))%nat ->
                Upload.writeOutcome w (n + j) = None
  | Throw e' =>
      exists j, (j <= S (length recs))%nat /\
        Upload.writeOutcome w (n + j) = Some e' /\
        (forall i, (i < j)%nat -> Upload.writeOutcome w (n + i) = None) /\
        Store.tradeDocuments (Upload.db s')
        = (Store.tradeDocuments (Upload.db s) ++
           match j with
           | O => []
           | S _ => [Upload.documentFields (Upload.newDocumentId w) user
                       (Upload.now w n) fileData recs]
           end)%list /\
        length (Store.tradeRecords (Upload.db s'))
        = (length (Store.tradeRecords (Upload.db s)) + Nat.pred j)%nat
  end.
Proof.
  intros Hparse Hme n. subst n.
  unfold Upload.attempt.
  unfold Upload.bind at 1. cbn [Upload.setUploadedFiles].
  unfold Upload.bind at 1, Upload.await at 1. rewrite Hparse.
  unfold Upload.bind at 1. cbn [Upload.setUploadedFiles].
  unfold Upload.bind at 1, Upload.await at 1. rewrite Hme.
  cbn zeta.
  unfold Upload.bind at 1, Upload.getWrites at 1.
  cbn [Upload.db Upload.uploadedFiles].
  unfold Upload.bind at 1, Upload.onStore at 1, Store.tradeDocuments_create.
  cbn [Upload.db Upload.uploadedFiles].
  set (files2 := Upload.updateFile _ _ (Upload.updateFile _ _ _)).
  assert (Hfiles2 : map Upload.id files2 = map Upload.id (Upload.uploadedFiles s)).
  { subst files2. rewrite !updateFile_ids; auto. }
  destruct (Upload.writeOutcome w (Store.writes (Upload.db s))) as [e0|] eqn:Ho.
  - (* the document write throws *)
    cbn [Upload.db Upload.uploadedFiles Store.tradeDocuments Store.tradeRecords].
    split; [exact Hfiles2|].
    exists 0%nat. rewrite Nat.add_0_r, app_nil_r.
    repeat split; auto; try lia.
  - unfold Upload.bind at 1. cbn [Upload.setUploadedFiles].
    cbn [Upload.db Upload.uploadedFiles].
    unfold Upload.bind at 1.
    match goal with |- context [Upload.forOf recs _ ?st] =>
      pose proof (saveRecords_outcome w (Upload.newDocumentId w) user recs st)
        as Hloop; cbn zeta in Hloop;
      destruct (Upload.forOf recs
                  (Upload.saveRecord w (Upload.newDocumentId w) user) st)
        as [s1 c1]
    end.
    cbn [Upload.db Upload.uploadedFiles Store.tradeDocuments
         Store.tradeRecords Store.writes] in Hloop.
    destruct Hloop as (Hf1 & Hd1 & Hc1).
    assert (Hids1 : map Upload.id (Upload.uploadedFiles s1)
                    = map Upload.id (Upload.uploadedFiles s)).
    { rewrite Hf1, updateFile_ids; auto. }
    destruct c1 as [[]|e1].
    + (* every record is written; the status update remains *)
      destruct Hc1 as (Hall & Hw1 & Hl1).
      unfold Upload.bind at 1, Upload.onStore at 1,
        Store.tradeDocuments_update_status.
      rewrite Hw1.
      destruct (Upload.writeOutcome w (S (Store.writes (Upload.db s)) + length recs))
        as [e2|] eqn:Hu.
      * cbn [Upload.db Upload.uploadedFiles Store.tradeDocuments
             Store.tradeRecords].
        split; [exact Hids1|].
        exists (S (length recs)). repeat split; try lia.
        -- rewrite <- Hu. f_equal. lia.
        -- intros [|i] Hi; [now rewrite Nat.add_0_r|].
           replace (Store.writes (Upload.db s) + S i)%nat
             with (S (Store.writes (Upload.db s)) + i)%nat by lia.
           apply Hall. lia.
        -- exact Hd1.
      * cbn [Upload.setUploadedFiles Upload.db Upload.uploadedFiles].
        split; [rewrite updateFile_ids; auto|].
        intros j Hj.
        destruct j as [|j]; [now rewrite Nat.add_0_r|].
        replace (Store.writes (Upload.db s) + S j)%nat
          with (S (Store.writes (Upload.db s)) + j)%nat by lia.
        destruct (Nat.eq_dec j (length recs)) as [->|Hne]; [exact Hu|].
        apply Hall. lia.
    + (* a record write throws *)
      destruct Hc1 as (j & Hj & Hoj & Hbefore & Hl1).
      split; [exact Hids1|].
      exists (S j). repeat split; try lia.
      * replace (Store.writes (Upload.db s) + S j)%nat
          with (S (Store.writes (Upload.db s)) + j)%nat by lia.
        exact Hoj.
      * intros [|i] Hi; [now rewrite Nat.add_0_r|].
        replace (Store.writes (Upload.db s) + S i)%nat
          with (S (Store.writes (Upload.db s)) + i)%nat by lia.
        apply Hbefore. lia.
      * exact Hd1.
Qed.

Lemma same_ids_lookup (l l' : list Upload.UploadedFile) (i : nat)
    (f : Upload.UploadedFile) :
  map Upload.id l' = map Upload.id l -> l !! i = Some f ->
  exists f', l' !! i = Some f' /\ Upload.id f' = Upload.id f.
Proof.
  intros Hids Hf.
  assert (H : map Upload.id l' !! i = Some (Upload.id f)).
  { rewrite Hids. change (map Upload.id l) with (Upload.id <$> l).
    now rewrite list_lookup_fmap, Hf. }
  change (map Upload.id l') with (Upload.id <$> l') in H.
  rewrite list_lookup_fmap in H.
  destruct (l' !! i) as [f'|]; [|discriminate].
  injection H as H. now exists f'.
Qed.

(** C8, as amended: whenever a write to the store fails while a file is
    processed (the document write, a record write or the status update),
    the upload entry of the file, and only it, is marked [error], with the
    message of what the first failing write threw, or "Processing failed"
    when that is not an [Error].  The stored document is not marked: when
    its own write failed there is none, and otherwise it stays as it was
    created, in status "processing", next to the records written before
    the failure; no document is stored as "completed" by the run. *)
Theorem failed_write_marks_error (w : Upload.World)
    (fileData : Upload.UploadedFile) (s : Upload.State)
    (recs : list Upload.TradeRecord) (user : string) (k : nat)
    (e : JS.thrown) :
  Upload.processExcelFile (Upload.decoded (Upload.file fileData)) = Normal recs ->
  Upload.me w = Normal user ->
  (k <= S (length recs))%nat ->
  Upload.writeOutcome w (Store.writes (Upload.db s) + k) = Some e ->
  let n := Store.writes (Upload.db s) in
  let s' := fst (Upload.processFile w fileData s) in
  exists j e',
    (j <= k)%nat /\
    Upload.writeOutcome w (n + j) = Some e' /\
    (forall i, (i < j)%nat -> Upload.writeOutcome w (n + i) = None) /\
    let message :=
      match e' with
      | JS.ErrorObject text => text
      | JS.OtherThrown => "Processing failed"
      end in
    map Upload.id (Upload.uploadedFiles s')
    = map Upload.id (Upload.uploadedFiles s) /\
    (forall i f, Upload.uploadedFiles s !! i = Some f ->
       Upload.id f = Upload.id fileData ->
       exists f', Upload.uploadedFiles s' !! i = Some f' /\
                  Upload.status f' = Upload.error /\
                  Upload.error_ f' = Some message) /\
    (forall f, f ∈ Upload.uploadedFiles s' ->
       Upload.id f = Upload.id fileData ->
       Upload.status f = Upload.error /\
       Upload.error_ f = Some message) /\
    Store.tradeDocuments (Upload.db s')
    = (Store.tradeDocuments (Upload.db s) ++
       match j with
       | O => []
       | S _ => [Upload.documentFields (Upload.newDocumentId w) user
                   (Upload.now w n) fileData recs]
       end)%list /\
    Store.TradeDocuments.status
      (Upload.documentFields (Upload.newDocumentId w) user
         (Upload.now w n) fileData recs) = "processing" /\
    length (Store.tradeRecords (Upload.db s'))
    = (length (Store.tradeRecords (Upload.db s)) + Nat.pred j)%nat.
Proof.
  intros Hparse Hme Hk Hfail n s'. subst n s'.
  pose proof (attempt_outcome w fileData s recs user Hparse Hme) as Hatt.
  cbn zeta in Hatt.
  unfold Upload.processFile, Upload.tryCatch.
  destruct (Upload.attempt w fileData s) as [s1 c].
  destruct Hatt as (Hids & Hc).
  destruct c as [[]|e'].
  - rewrite (Hc k Hk) in Hfail. discriminate.
  - destruct Hc as (j & Hj & Hoj & Hbefore & Hdocs & Hlen).
    pose proof (onError_marks fileData e' s1) as (Hdb & Hids' & Hmark).
    assert (Hcause : Upload.cause e'
                     = match e' with
                       | JS.ErrorObject text => text
                       | JS.OtherThrown => "Processing failed"
                       end) by (destruct e'; reflexivity).
    rewrite Hcause in Hmark.
    assert (Hsame : map Upload.id
                      (Upload.uploadedFiles (fst (Upload.onError fileData e' s1)))
                    = map Upload.id (Upload.uploadedFiles s))
      by now rewrite Hids'.
    exists j, e'. cbn zeta.
    split.
    { destruct (Nat.le_gt_cases j k) as [Hle|Hgt]; [exact Hle|].
      rewrite (Hbefore k Hgt) in Hfail. discriminate. }
    split; [exact Hoj|]. split; [exact Hbefore|].
    split; [exact Hsame|]. split.
    { intros i f Hf Hid.
      destruct (same_ids_lookup _ _ i f Hsame Hf) as (f' & Hf' & Hid').
      exists f'. split; [exact Hf'|].
      apply Hmark; [now apply list_elem_of_lookup_2 in Hf' | congruence]. }
    split; [exact Hmark|].
    split; [rewrite Hdb; exact Hdocs|].
    split; [reflexivity|].
    rewrite Hdb. exact Hlen.
Qed.

Lemma failed_write_marks_error_witness :
  Upload.processExcelFile (Upload.decoded (Upload.file twoRowFile))
  = Upload.mapRows [steelPipeRow; steelPipeRow] /\
  Upload.writeOutcome refusingWorld 2 = Some (JS.ErrorObject "Network error") /\
  let s' := fst (Upload.processFile refusingWorld twoRowFile
                   (emptyState [twoRowFile])) in
  exists f',
    Upload.uploadedFiles s' !! 0%nat = Some f' /\
    Upload.status f' = Upload.error /\
    Upload.error_ f' = Some "Network error".
Proof.
  split; [reflexivity|]. split; [reflexivity|]. cbn zeta.
  destruct (failed_write_marks_error refusingWorld twoRowFile
              (emptyState [twoRowFile])
              (match Upload.mapRows [steelPipeRow; steelPipeRow] with
               | Normal l => l
               | Throw _ => []
               end)
              "user1" 2 (JS.ErrorObject "Network error"))
    as (j & e' & Hj & Ho & _ & _ & Hentry & _).
  - vm_compute. reflexivity.
  - reflexivity.
  - vm_compute. lia.
  - reflexivity.
  - destruct (Hentry 0%nat twoRowFile eq_refl eq_refl)
      as (f' & Hf' & Hstatus & Herror).
    exists f'. split; [exact Hf'|]. split; [exact Hstatus|].
    rewrite Herror.
    destruct j as [|[|[|j]]]; try lia; cbn in Ho; try discriminate.
    injection Ho as <-. reflexivity.
Defined.

(** The claim as stated fails for the document in the store: when the
    store refuses the second of two record writes, the document written for
    the file is still there in status "processing", not "error", with one
    of its two records, while the upload entry shows the error. *)
Lemma stored_document_stays_processing :
  let s' := fst (Upload.processFile refusingWorld twoRowFile
                   (emptyState [twoRowFile])) in
  Upload.writeOutcome refusingWorld 2 = Some (JS.ErrorObject "Network error") /\
  map Upload.status (Upload.uploadedFiles s') = [Upload.error] /\
  map Upload.error_ (Upload.uploadedFiles s') = [Some "Network error"] /\
  map (fun d => (Store.TradeDocuments.id d, Store.TradeDocuments.status d))
      (Store.tradeDocuments (Upload.db s'))
  = [("doc_1", "processing")] /\
  (forall d, d ∈ Store.tradeDocuments (Upload.db s') ->
             Store.TradeDocuments.status d <> "error") /\
  map Store.TradeRecords.documentId (Store.tradeRecords (Upload.db s'))
  = ["doc_1"].
Proof.
  cbn zeta. split; [reflexivity|].
  split; [vm_compute; reflexivity|]. split; [vm_compute; reflexivity|].
  split; [vm_compute; reflexivity|]. split; [|vm_compute; reflexivity].
  intros d Hd.
  assert (Hst : Store.TradeDocuments.status d = "processing").
  { revert Hd. vm_compute. intros Hd. inversion Hd as [|? ? ? Hd']; subst.
    - reflexivity.
    - inversion Hd'. }
  rewrite Hst. discriminate.
Qed.

(** *** The classifier *)

Lemma prefix_spec (k s : string) :
  String.prefix k s = true <-> exists after, s = (k ++ after)%string.
Proof.
  revert s. induction k as [|c k IH]; intros s.
  - split; [intros _; now exists s | intros _; now destruct s].
  - destruct s as [|d s]; simpl.
    + split; [discriminate | intros (after & H); discriminate].
    + destruct (Ascii.ascii_dec c d) as [->|Hne].
      * rewrite IH. split; intros (after & H); exists after.
        -- now rewrite H.
        -- now inversion H.
      * split; [discriminate|].
        intros (after & H). inversion H. congruence.
Qed.

Lemma includes_spec (s k : string) :
  JS.includes s k = true <-> isSubstring k s.
Proof.
  unfold isSubstring. induction s as [|c s IH]; cbn [JS.includes].
  - rewrite Bool.orb_false_r, prefix_spec. split.
    + intros (after & H). now exists EmptyString, after.
    + intros ([|d before] & after & H); [now exists after | discriminate].
  - rewrite Bool.orb_true_iff, prefix_spec, IH. split.
    + intros [(after & H) | (before & after & H)].
      * now exists EmptyString, after.
      * exists (String c before), after. simpl. now rewrite H.
    + intros ([|d before] & after & H).
      * left. now exists after.
      * right. simpl in H. inversion H. now exists before, after.
Qed.

Lemma anyKeyword_spec (code desc : string) (keywords : list string) :
  Upload.anyKeyword code desc keywords = true <->
  keywordsMatch code desc keywords.
Proof.
  unfold keywordsMatch. induction keywords as [|k rest IH]; simpl.
  - split; [discriminate | intros (k & Hk & _); inversion Hk].
  - destruct (JS.includes code k || JS.includes desc k)%bool eqn:E.
    + split; [intros _ | reflexivity].
      exists k. split; [constructor|].
      apply Bool.orb_true_iff in E. now rewrite <- !includes_spec.
    + rewrite IH. split.
      * intros (k' & Hk' & Hm). exists k'. split; [now constructor | exact Hm].
      * intros (k' & Hk' & Hm). apply elem_of_cons in Hk' as [-> | Hk'].
        -- rewrite <- !includes_spec, <- Bool.orb_true_iff in Hm. congruence.
        -- now exists k'.
Qed.

(** The scan returns either a relevant check with the first matching
    category, or the irrelevant check when nothing matches. *)
Lemma scanCategories_spec (code desc : string)
    (entries : list (string * list string)) :
  (exists cat,
     Upload.scanCategories code desc entries
     = {| Upload.relevant := true; Upload.category := Some cat |} /\
     firstMatch code desc entries cat)
  \/
  (Upload.scanCategories code desc entries
   = {| Upload.relevant := false; Upload.category := None |} /\
   Forall (fun entry => ~ keywordsMatch code desc (snd entry)) entries).
Proof.
  induction entries as [|[cat keywords] rest IH]; simpl.
  - right. split; [reflexivity | constructor].
  - destruct (Upload.anyKeyword code desc keywords) eqn:E.
    + left. exists cat. split; [reflexivity|].
      exists [], keywords, rest. repeat split; [|constructor].
      now apply anyKeyword_spec.
    + assert (Hno : ~ keywordsMatch code desc keywords).
      { rewrite <- anyKeyword_spec. congruence. }
      destruct IH as [(c & Hc & (earlier & kws & later & -> & Hm & Hearlier)) | [Hc Hall]].
      * left. exists c. split; [exact Hc|].
        exists ((cat, keywords) :: earlier), kws, later.
        repeat split; [exact Hm | now constructor].
      * right. split; [exact Hc | now constructor].
Qed.

(** The first match of a table is unique. *)
Lemma firstMatch_unique (code desc : string)
    (entries : list (string * list string)) (c1 c2 : string) :
  firstMatch code desc entries c1 -> firstMatch code desc entries c2 -> c1 = c2.
Proof.
  intros (e1 & k1 & l1 & H1 & M1 & F1) (e2 & k2 & l2 & H2 & M2 & F2).
  subst entries. revert e2 H2 F2.
  induction e1 as [|x e1 IH]; intros [|y e2] H2 F2; simpl in H2.
  - now inversion H2.
  - inversion H2; subst. inversion F2; subst. simpl in *. contradiction.
  - inversion H2; subst. inversion F1; subst. simpl in *. contradiction.
  - inversion H2; subst.
    apply Forall_cons in F1 as [_ F1]. apply Forall_cons in F2 as [_ F2].
    now apply (IH F1 e2).
Qed.

Lemma scanCategories_relevant_iff (code desc : string)
    (entries : list (string * list string)) (cat : string) :
  Upload.scanCategories code desc entries
  = {| Upload.relevant := true; Upload.category := Some cat |}
  <-> firstMatch code desc entries cat.
Proof.
  destruct (scanCategories_spec code desc entries)
    as [(c & Hc & Hfirst) | [Hc Hall]]; rewrite Hc.
  - split.
    + intros [= ->]. exact Hfirst.
    + intros H. now rewrite (firstMatch_unique _ _ _ _ _ H Hfirst).
  - split; [discriminate|].
    intros (earlier & kws & later & -> & Hm & _).
    apply Forall_app in Hall as [_ Hall].
    apply Forall_cons in Hall as [Hno _]. contradiction.
Qed.

Lemma scanCategories_irrelevant_iff (code desc : string)
    (entries : list (string * list string)) :
  Upload.scanCategories code desc entries
  = {| Upload.relevant := false; Upload.category := None |}
  <-> Forall (fun entry => ~ keywordsMatch code desc (snd entry)) entries.
Proof.
  destruct (scanCategories_spec code desc entries)
    as [(c & Hc & Hfirst) | [Hc Hall]]; rewrite Hc.
  - split; [discriminate|]. intros Hall.
    destruct Hfirst as (earlier & kws & later & -> & Hm & _).
    apply Forall_app in Hall as [_ Hall].
    apply Forall_cons in Hall as [Hno _]. contradiction.
  - split; [now intros _ | reflexivity].
Qed.

(** C4, as amended: [detectCBAMRelevance] lower-cases both inputs, walks
    the categories in the order cement, steel, aluminum, fertilizers,
    electricity, and returns the first category one of whose keywords is a
    substring of either field; when no category matches it returns the
    irrelevant check without a category.  A description containing both a
    steel and an aluminum keyword is never classified as aluminum: it is
    classified as steel, unless a cement keyword occurs in the code or the
    description too, in which case it is classified as cement. *)
Theorem detectCBAMRelevance_first_match (productCode description : string) :
  let code := JS.toLowerCase productCode in
  let desc := JS.toLowerCase description in
  let check := Upload.detectCBAMRelevance productCode description in
  map fst Upload.cbamaCategories
  = ["cement"; "steel"; "aluminum"; "fertilizers"; "electricity"] /\
  (forall cat,
     check = {| Upload.relevant := true; Upload.category := Some cat |}
     <-> firstMatch code desc Upload.cbamaCategories cat) /\
  (check = {| Upload.relevant := false; Upload.category := None |}
   <-> Forall (fun entry => ~ keywordsMatch code desc (snd entry))
              Upload.cbamaCategories) /\
  ((exists k, k ∈ keywordsOf "steel" /\ isSubstring k desc) ->
   (exists k, k ∈ keywordsOf "aluminum" /\ isSubstring k desc) ->
   Upload.category check <> Some "aluminum" /\
   (~ keywordsMatch code desc (keywordsOf "cement") ->
    check = {| Upload.relevant := true; Upload.category := Some "steel" |}) /\
   (keywordsMatch code desc (keywordsOf "cement") ->
    check = {| Upload.relevant := true; Upload.category := Some "cement" |})).
Proof.
  intros code desc check. subst check. unfold Upload.detectCBAMRelevance.
  fold code desc.
  split; [reflexivity|].
  split; [intros cat; apply scanCategories_relevant_iff|].
  split; [apply scanCategories_irrelevant_iff|].
  intros (k & Hk & Hsub) _.
  assert (Hsteel : Upload.anyKeyword code desc (keywordsOf "steel") = true).
  { apply anyKeyword_spec. exists k. auto. }
  rewrite <- anyKeyword_spec.
  change (keywordsOf "steel")
    with ["72"; "7301"; "7302"; "7303"; "7304"; "7305"; "7306"; "steel"; "iron"]
    in Hsteel.
  change (keywordsOf "cement") with ["2523"; "2507"; "cement"; "concrete"].
  unfold Upload.cbamaCategories. cbn [Upload.scanCategories].
  destruct (Upload.anyKeyword code desc ["2523"; "2507"; "cement"; "concrete"]).
  - repeat split; try discriminate. intros H. now contradiction H.
  - rewrite Hsteel. repeat split; discriminate.
Qed.

(** C4 as stated fails when a cement keyword is present as well: this
    description contains the keywords "steel" and "aluminum", and is
    classified as cement. *)
Lemma steel_aluminum_cement_counterexample :
  let description := "Steel and aluminum formwork for concrete" in
  isSubstring "steel" (JS.toLowerCase description) /\
  isSubstring "aluminum" (JS.toLowerCase description) /\
  Upload.detectCBAMRelevance "" description
  = {| Upload.relevant := true; Upload.category := Some "cement" |} /\
  Upload.category (Upload.detectCBAMRelevance "" description) <> Some "steel".
Proof.
  cbn zeta. rewrite <- !includes_spec.
  repeat split; try (vm_compute; reflexivity).
  vm_compute. discriminate.
Qed.

(** *** The row mapper *)

Lemma or_resolve (r : row) (aliases : list string) (a : string)
    (d : JS.value) :
  resolve r aliases (JS.get r a) ||' d = resolve r (aliases ++ [a]) d.
Proof.
  induction aliases as [|x rest IH]; simpl.
  - reflexivity.
  - unfold JS.or at 1. destruct (JS.truthy (JS.get r x)) eqn:E.
    + now rewrite E.
    + exact IH.
Qed.

Lemma resolve_default (r : row) (aliases : list string) (d : JS.value) :
  (forall a, a ∈ aliases -> JS.truthy (JS.get r a) = false) ->
  resolve r aliases d = d.
Proof.
  induction aliases as [|x rest IH]; intros H; simpl; [reflexivity|].
  rewrite (H x) by constructor. apply IH. intros a Ha. apply H. now constructor.
Qed.

(** The first alias with a truthy cell wins. *)
Lemma resolve_first (r : row) (earlier later : list string) (a : string)
    (d : JS.value) :
  (forall b, b ∈ earlier -> JS.truthy (JS.get r b) = false) ->
  JS.truthy (JS.get r a) = true ->
  resolve r (earlier ++ a :: later) d = JS.get r a.
Proof.
  induction earlier as [|x rest IH]; intros H Ha; simpl.
  - now rewrite Ha.
  - rewrite (H x) by constructor. apply IH; [|exact Ha].
    intros b Hb. apply H. now constructor.
Qed.

Lemma rowProductCode_resolve (r : row) :
  Upload.rowProductCode r = resolve r productCodeAliases (JS.VString "").
Proof.
  unfold Upload.rowProductCode.
  change (JS.get r "Product Code") with (resolve r [] (JS.get r "Product Code")).
  now rewrite !or_resolve.
Qed.

Lemma rowProductDescription_resolve (r : row) :
  Upload.rowProductDescription r
  = resolve r productDescriptionAliases (JS.VString "").
Proof.
  unfold Upload.rowProductDescription.
  change (JS.get r "Product Description")
    with (resolve r [] (JS.get r "Product Description")).
  now rewrite !or_resolve.
Qed.

Lemma rowOriginCountry_resolve (r : row) :
  Upload.rowOriginCountry r = resolve r originCountryAliases (JS.VString "").
Proof.
  unfold Upload.rowOriginCountry.
  change (JS.get r "Origin Country")
    with (resolve r [] (JS.get r "Origin Country")).
  now rewrite !or_resolve.
Qed.

Lemma rowQuantity_resolve (r : row) :
  Upload.rowQuantity r
  = JS.parseFloat (resolve r quantityAliases (JS.VNumber (JS.num 0))).
Proof.
  unfold Upload.rowQuantity.
  change (JS.get r "Quantity") with (resolve r [] (JS.get r "Quantity")).
  now rewrite !or_resolve.
Qed.

Lemma rowUnit_resolve (r : row) :
  Upload.rowUnit r = resolve r unitAliases (JS.VString "KG").
Proof.
  unfold Upload.rowUnit.
  change (JS.get r "Unit") with (resolve r [] (JS.get r "Unit")).
  now rewrite !or_resolve.
Qed.

Lemma rowValue_resolve (r : row) :
  Upload.rowValue r
  = JS.parseFloat (resolve r valueAliases (JS.VNumber (JS.num 0))).
Proof.
  unfold Upload.rowValue.
  change (JS.get r "Value") with (resolve r [] (JS.get r "Value")).
  now rewrite !or_resolve.
Qed.

Lemma rowCurrency_resolve (r : row) :
  Upload.rowCurrency r = resolve r currencyAliases (JS.VString "USD").
Proof.
  unfold Upload.rowCurrency.
  change (JS.get r "Currency") with (resolve r [] (JS.get r "Currency")).
  now rewrite !or_resolve.
Qed.

(** The fields of a mapped row are the resolved columns. *)
Lemma mapRow_fields (r : row) (record : Upload.TradeRecord) :
  Upload.mapRow r = Normal record ->
  Upload.productCode record = Upload.rowProductCode r /\
  Upload.productDescription record = Upload.rowProductDescription r /\
  Upload.originCountry record = Upload.rowOriginCountry r /\
  Upload.quantity record = Upload.rowQuantity r /\
  Upload.unit record = Upload.rowUnit r /\
  Upload.value record = Upload.rowValue r /\
  Upload.currency record = Upload.rowCurrency r.
Proof.
  unfold Upload.mapRow. cbn zeta.
  destruct (Upload.asString "productCode" _); [|discriminate].
  destruct (Upload.asString "description" _); [|discriminate].
  intros [= <-]. repeat split.
Qed.

(** The mapper throws only on a product code or description cell that is
    not a string. *)
Lemma mapRow_throws (r : row) (e : JS.thrown) :
  Upload.mapRow r = Throw e ->
  (forall s, Upload.rowProductCode r <> JS.VString s) \/
  (forall s, Upload.rowProductDescription r <> JS.VString s).
Proof.
  unfold Upload.mapRow. cbn zeta.
  destruct (Upload.rowProductCode r); simpl;
    try (intros _; left; intros s; discriminate).
  destruct (Upload.rowProductDescription r); simpl;
    try (intros _; right; intros s'; discriminate).
  discriminate.
Qed.

Lemma get_absent (r : row) (a : string) :
  r !! a = None -> JS.truthy (JS.get r a) = false.
Proof. unfold JS.get. now intros ->. Qed.

(** C3, as amended: every field is resolved by trying its ordered alias
    list under the exact column names (the product code from "Product
    Code", "HS Code", "Code", "Kod"), the first alias whose cell is truthy
    wins, and a field none of whose aliases has a truthy cell gets its
    default: the empty string for code, description and country, 0 for
    quantity and value, "KG" for the unit and "USD" for the currency.  A
    row without any known column is mapped to the record of defaults; it
    does not fail. *)
Theorem column_resolution (r : row) :
  (Upload.rowProductCode r = resolve r productCodeAliases (JS.VString "") /\
   Upload.rowProductDescription r
   = resolve r productDescriptionAliases (JS.VString "") /\
   Upload.rowOriginCountry r = resolve r originCountryAliases (JS.VString "") /\
   Upload.rowQuantity r
   = JS.parseFloat (resolve r quantityAliases (JS.VNumber (JS.num 0))) /\
   Upload.rowUnit r = resolve r unitAliases (JS.VString "KG") /\
   Upload.rowValue r
   = JS.parseFloat (resolve r valueAliases (JS.VNumber (JS.num 0))) /\
   Upload.rowCurrency r = resolve r currencyAliases (JS.VString "USD")) /\
  (forall earlier a later d,
     (forall b, b ∈ earlier -> JS.truthy (JS.get r b) = false) ->
     JS.truthy (JS.get r a) = true ->
     resolve r (earlier ++ a :: later) d = JS.get r a) /\
  (forall aliases d,
     (forall a, a ∈ aliases -> JS.truthy (JS.get r a) = false) ->
     resolve r aliases d = d) /\
  (forall record, Upload.mapRow r = Normal record ->
     Upload.productCode record = Upload.rowProductCode r /\
     Upload.productDescription record = Upload.rowProductDescription r /\
     Upload.originCountry record = Upload.rowOriginCountry r /\
     Upload.quantity record = Upload.rowQuantity r /\
     Upload.unit record = Upload.rowUnit r /\
     Upload.value record = Upload.rowValue r /\
     Upload.currency record = Upload.rowCurrency r) /\
  ((forall a, a ∈ knownColumns -> r !! a = None) ->
   Upload.mapRow r = Normal defaultRecord).
Proof.
  split.
  { repeat split;
      auto using rowProductCode_resolve, rowProductDescription_resolve,
        rowOriginCountry_resolve, rowQuantity_resolve, rowUnit_resolve,
        rowValue_resolve, rowCurrency_resolve. }
  split; [intros; now apply resolve_first|].
  split; [intros; now apply resolve_default|].
  split; [apply mapRow_fields|].
  intros Habsent.
  assert (Hres : forall aliases d,
            (forall a, a ∈ aliases -> a ∈ knownColumns) ->
            resolve r aliases d = d).
  { intros aliases d Hsub. apply resolve_default.
    intros a Ha. apply get_absent, Habsent, Hsub, Ha. }
  unfold Upload.mapRow. cbn zeta.
  rewrite rowProductCode_resolve, rowProductDescription_resolve,
    rowOriginCountry_resolve, rowQuantity_resolve, rowUnit_resolve,
    rowValue_resolve, rowCurrency_resolve.
  rewrite !Hres; [reflexivity | ..];
    intros a Ha; unfold knownColumns; rewrite !elem_of_app; tauto.
Qed.

(** C3 as stated fails on the column header "code": it equals the alias
    "Code" up to case, and the product code stays empty. *)
Lemma lower_case_header_not_resolved :
  JS.toLowerCase "code" = JS.toLowerCase "Code" /\
  lowerCaseHeaderRow !! "code" = Some (JS.VString "7301") /\
  Upload.rowProductCode lowerCaseHeaderRow = JS.VString "" /\
  Upload.rowProductCode lowerCaseHeaderRow <> JS.VString "7301" /\
  Upload.mapRow lowerCaseHeaderRow = Normal defaultRecord.
Proof. repeat split; try (vm_compute; reflexivity). vm_compute. discriminate. Qed.

(** C2, as amended: the numeric fields are total functions of the row, so
    parsing never throws (the mapper throws only on a product code or
    description cell that is not a string); a numeric field none of whose
    alias cells is truthy (absent, empty, zero) becomes 0; otherwise the
    field is [parseFloat] of the first truthy cell, which is NaN, not 0,
    for a cell without a numeric prefix. *)
Theorem numeric_fields_lenient (r : row) :
  (forall record, Upload.mapRow r = Normal record ->
     Upload.quantity record = Upload.rowQuantity r /\
     Upload.value record = Upload.rowValue r) /\
  (forall e, Upload.mapRow r = Throw e ->
     (forall s, Upload.rowProductCode r <> JS.VString s) \/
     (forall s, Upload.rowProductDescription r <> JS.VString s)) /\
  ((forall a, a ∈ quantityAliases -> JS.truthy (JS.get r a) = false) ->
   Upload.rowQuantity r = JS.num 0) /\
  ((forall a, a ∈ valueAliases -> JS.truthy (JS.get r a) = false) ->
   Upload.rowValue r = JS.num 0) /\
  (forall earlier a later,
     quantityAliases = (earlier ++ a :: later)%list ->
     (forall b, b ∈ earlier -> JS.truthy (JS.get r b) = false) ->
     JS.truthy (JS.get r a) = true ->
     Upload.rowQuantity r = JS.parseFloat (JS.get r a)) /\
  (forall earlier a later,
     valueAliases = (earlier ++ a :: later)%list ->
     (forall b, b ∈ earlier -> JS.truthy (JS.get r b) = false) ->
     JS.truthy (JS.get r a) = true ->
     Upload.rowValue r = JS.parseFloat (JS.get r a)).
Proof.
  split.
  { intros record H. apply mapRow_fields in H. tauto. }
  split; [apply mapRow_throws|].
  rewrite rowQuantity_resolve, rowValue_resolve.
  split; [intros H; now rewrite resolve_default|].
  split; [intros H; now rewrite resolve_default|].
  split; intros earlier a later -> Hearlier Ha; now rewrite resolve_first.
Qed.

(** C2 as stated fails on the cell "abc": it is unparsable, and the value
    of the record is NaN, not 0. *)
Lemma unparsable_value_is_NaN :
  unparsableValueRow !! "Value" = Some (JS.VString "abc") /\
  JS.parseFloat (JS.VString "abc") = JS.NaN /\
  (exists record,
     Upload.mapRow unparsableValueRow = Normal record /\
     Upload.value record = JS.NaN /\
     Upload.value record <> JS.num 0).
Proof.
  split; [vm_compute; reflexivity|]. split; [reflexivity|].
  eexists. split; [vm_compute; reflexivity|].
  split; [reflexivity | discriminate].
Qed.

(** C10: quantity and value share the fallback alias "Amount": in a row
    whose "Quantity", "Miktar", "Value" and "Değer" cells are absent or
    falsy and whose "Amount" cell is truthy, both fields are parsed from
    the "Amount" cell, so the record has quantity = value.  The record of
    such a row carries [parseFloat] of the "Amount" cell in both fields,
    and the row is mapped whenever its product code and description are
    strings. *)
Theorem amount_feeds_quantity_and_value (r : row) :
  JS.truthy (JS.get r "Quantity") = false ->
  JS.truthy (JS.get r "Miktar") = false ->
  JS.truthy (JS.get r "Value") = false ->
  JS.truthy (JS.get r "Değer") = false ->
  JS.truthy (JS.get r "Amount") = true ->
  Upload.rowQuantity r = JS.parseFloat (JS.get r "Amount") /\
  Upload.rowValue r = JS.parseFloat (JS.get r "Amount") /\
  (forall record, Upload.mapRow r = Normal record ->
     Upload.quantity record = JS.parseFloat (JS.get r "Amount") /\
     Upload.value record = JS.parseFloat (JS.get r "Amount") /\
     Upload.quantity record = Upload.value record) /\
  (forall code desc,
     Upload.rowProductCode r = JS.VString code ->
     Upload.rowProductDescription r = JS.VString desc ->
     exists record,
       Upload.mapRow r = Normal record /\
       Upload.quantity record = JS.parseFloat (JS.get r "Amount") /\
       Upload.value record = JS.parseFloat (JS.get r "Amount")).
Proof.
  intros Hq Hm Hv Hd Ha.
  assert (HQ : Upload.rowQuantity r = JS.parseFloat (JS.get r "Amount")).
  { unfold Upload.rowQuantity, JS.or. now rewrite Hq, Hm, Ha. }
  assert (HV : Upload.rowValue r = JS.parseFloat (JS.get r "Amount")).
  { unfold Upload.rowValue, JS.or. now rewrite Hv, Hd, Ha. }
  assert (Hrec : forall record, Upload.mapRow r = Normal record ->
            Upload.quantity record = JS.parseFloat (JS.get r "Amount") /\
            Upload.value record = JS.parseFloat (JS.get r "Amount")).
  { intros record H.
    apply mapRow_fields in H as (_ & _ & _ & -> & _ & -> & _).
    now rewrite HQ, HV. }
  split; [exact HQ|]. split; [exact HV|]. split.
  - intros record H. destruct (Hrec record H) as [H1 H2].
    repeat split; congruence.
  - intros code desc Hcode Hdesc.
    assert (Hmap : exists record, Upload.mapRow r = Normal record).
    { unfold Upload.mapRow. rewrite Hcode, Hdesc.
      cbn [Upload.asString]. eexists. reflexivity. }
    destruct Hmap as [record Hmap]. exists record.
    split; [exact Hmap | now apply Hrec].
Qed.

Lemma amount_feeds_quantity_and_value_witness :
  JS.truthy (JS.get amountOnlyRow "Amount") = true /\
  Upload.rowQuantity amountOnlyRow = JS.num 250 /\
  Upload.rowValue amountOnlyRow = JS.num 250 /\
  exists record,
    Upload.mapRow amountOnlyRow = Normal record /\
    Upload.quantity record = JS.num 250 /\
    Upload.value record = JS.num 250.
Proof.
  split; [reflexivity|].
  destruct (amount_feeds_quantity_and_value amountOnlyRow)
    as (HQ & HV & _ & Hmapped); try reflexivity.
  split; [rewrite HQ; reflexivity|]. split; [rewrite HV; reflexivity|].
  destruct (Hmapped "2523" "") as (record & Hmap & Hq & Hv);
    [reflexivity | reflexivity |].
  exists record. split; [exact Hmap|].
  split; [rewrite Hq; reflexivity | rewrite Hv; reflexivity].
Defined.

(** *** Percent displays *)

Lemma gtb_ofNat (n : nat) :
  JS.gtb (JS.ofNat n) (JS.num 0) = match n with O => false | S _ => true end.
Proof. destruct n; reflexivity. Qed.

Lemma div_ofNat_S (a : JS.number) (n : nat) :
  JS.isNaN a = false -> JS.isNaN (JS.div a (JS.ofNat (S n))) = false.
Proof. intros Ha. apply div_not_NaN; [reflexivity | exact Ha]. Qed.

Lemma mul_100_not_NaN (a : JS.number) :
  JS.isNaN a = false -> JS.isNaN (JS.mul a (JS.num 100)) = false.
Proof. destruct a; simpl; congruence. Qed.

Lemma Math_round_not_NaN (a : JS.number) :
  JS.isNaN a = false -> JS.isNaN (JS.Math_round a) = false.
Proof. destruct a; simpl; congruence. Qed.

Lemma percent_of_zero (n : nat) :
  JS.Math_round (JS.mul (JS.div (JS.ofNat 0) (JS.ofNat (S n))) (JS.num 100))
  = JS.num 0.
Proof.
  unfold JS.ofNat. cbn [JS.div].
  replace (Qeq_bool (inject_Z (Z.of_nat (S n))) 0) with false by reflexivity.
  replace (Qred (inject_Z (Z.of_nat 0) / inject_Z (Z.of_nat (S n)))) with 0%Q.
  - reflexivity.
  - symmetry. change 0%Q with (Qred 0). apply Qred_complete.
    unfold Qdiv. simpl inject_Z at 1. apply Qmult_0_l.
Qed.

(** A guarded percentage is a number; it is 0 when the denominator is 0
    and when the count is 0. *)
Lemma guardedPercent_safe (count total : nat) :
  JS.isNaN (guardedPercent count total) = false /\
  (total = 0%nat -> guardedPercent count total = JS.num 0) /\
  (count = 0%nat -> guardedPercent count total = JS.num 0).
Proof.
  unfold guardedPercent. rewrite gtb_ofNat. destruct total as [|n].
  - repeat split.
  - split; [|split].
    + apply Math_round_not_NaN, mul_100_not_NaN, div_ofNat_S. reflexivity.
    + discriminate.
    + intros ->. apply percent_of_zero.
Qed.

(** *** Tallies in a plain object *)

Lemma Qred_inject_Z (z : Z) : Qred (inject_Z z) = inject_Z z.
Proof.
  unfold Qred, inject_Z.
  pose proof (Z.ggcd_gcd z 1) as Hg.
  pose proof (Z.ggcd_correct_divisors z 1) as Hd.
  destruct (Z.ggcd z 1) as [g [a b]]. cbn [fst snd] in *.
  rewrite Z.gcd_1_r in Hg. subst g. destruct Hd as [Ha Hb].
  rewrite Z.mul_1_l in Ha, Hb. now subst a b.
Qed.

Lemma add_ofNat_1 (n : nat) :
  JS.add (JS.ofNat n) (JS.num 1) = JS.ofNat (S n).
Proof.
  unfold JS.ofNat, JS.num. cbn [JS.add]. f_equal.
  rewrite <- (Qred_inject_Z (Z.of_nat (S n))). apply Qred_complete.
  rewrite Nat2Z.inj_succ. unfold Z.succ. rewrite inject_Z_plus. reflexivity.
Qed.

Lemma functionNamed_ordinary (key : string) :
  ordinaryKey key ->
  String.eqb key "__proto__" = false /\
  PlainObject.functionNamed key PlainObject.inheritedFunctions = None.
Proof.
  unfold ordinaryKey, PlainObject.inheritedNames. intros Hkey.
  apply not_elem_of_cons in Hkey as [Hproto Hkey]. split.
  - now apply String.eqb_neq.
  - induction PlainObject.inheritedFunctions as [|[k name] rest IH];
      [reflexivity|].
    cbn [map fst] in Hkey. apply not_elem_of_cons in Hkey as [Hk Hkey].
    cbn [PlainObject.functionNamed].
    apply String.eqb_neq in Hk. rewrite Hk. now apply IH.
Qed.

Lemma tallied_ordinary (key : string) (n : nat) :
  ordinaryKey key ->
  tallied key n
  = match n with O => None | S _ => Some (JS.VNumber (JS.ofNat n)) end.
Proof.
  intros Hkey. unfold tallied.
  destruct (functionNamed_ordinary key Hkey) as [-> ->]. reflexivity.
Qed.

Lemma increment_other (o : PlainObject.t) (key c : string) :
  key <> c -> PlainObject.increment o key !! c = o !! c.
Proof.
  intros Hne. unfold PlainObject.increment, PlainObject.set.
  destruct (String.eqb key "__proto__"); [reflexivity|].
  now apply lookup_insert_ne.
Qed.

Lemma increment_same (o : PlainObject.t) (c : string) (n : nat) :
  o !! c = tallied c n -> PlainObject.increment o c !! c = tallied c (S n).
Proof.
  unfold tallied, PlainObject.increment, PlainObject.set, PlainObject.get.
  destruct (String.eqb c "__proto__"); [intros H; exact H|].
  intros Ho. rewrite lookup_insert_eq. f_equal. rewrite Ho.
  destruct n as [|k].
  - destruct (PlainObject.functionNamed c PlainObject.inheritedFunctions);
      reflexivity.
  - destruct (PlainObject.functionNamed c PlainObject.inheritedFunctions)
      as [name|].
    + cbn [PlainObject.orZeroPlusOne textAfter].
      assert (Htruthy : JS.truthy (JS.VString (textAfter name k ++ "1"))
                        = true).
      { cbn [JS.truthy]. destruct (textAfter name k); reflexivity. }
      unfold JS.or. rewrite Htruthy. reflexivity.
    + cbn [PlainObject.orZeroPlusOne]. unfold JS.or.
      replace (JS.truthy (JS.VNumber (JS.ofNat (S k)))) with true
        by reflexivity.
      cbn [PlainObject.plusOne]. now rewrite add_ofNat_1.
Qed.

(** The tally of a list by key, read under one key, is decided by the
    number of elements with that key. *)
Lemma tally_lookup {A} (key : A -> string) (l : list A) (c : string) :
  foldl (fun acc x => PlainObject.increment acc (key x)) ∅ l !! c
  = tallied c (length (filter (fun x => key x = c) l)).
Proof.
  induction l as [|x l IH] using rev_ind.
  - cbn. unfold tallied. now destruct (String.eqb c "__proto__").
  - rewrite foldl_app, filter_app, length_app. cbn [foldl].
    destruct (decide (key x = c)) as [Heq|Hne].
    + rewrite (filter_cons_True _ x []) by exact Heq.
      rewrite filter_nil. cbn [length]. rewrite Nat.add_1_r.
      rewrite Heq. now apply increment_same.
    + rewrite (filter_cons_False _ x []) by exact Hne.
      rewrite filter_nil. cbn [length]. rewrite Nat.add_0_r.
      now rewrite increment_other.
Qed.

Lemma tallied_Some (c : string) (n : nat) (v : JS.value) :
  tallied c n = Some v -> n <> 0%nat.
Proof.
  unfold tallied. destruct (String.eqb c "__proto__"); [discriminate|].
  destruct n; [discriminate | intros _; discriminate].
Qed.

(** An entry under an ordinary key holds the number of elements with that
    key, and there is at least one. *)
Lemma tally_entry {A} (key : A -> string) (l : list A) (c : string)
    (v : JS.value) :
  (c, v) ∈ PlainObject.entries
             (foldl (fun acc x => PlainObject.increment acc (key x)) ∅ l) ->
  exists n t,
    length (filter (fun x => key x = c) l) = S n /\
    length l = S t /\
    (ordinaryKey c -> v = JS.VNumber (JS.ofNat (S n))).
Proof.
  unfold PlainObject.entries. rewrite elem_of_map_to_list, tally_lookup.
  intros Hv. pose proof (tallied_Some _ _ _ Hv) as Hn.
  pose proof (length_filter (fun x => key x = c) l) as Hle.
  destruct (length (filter (fun x => key x = c) l)) as [|n] eqn:Hlen;
    [contradiction|].
  destruct (length l) as [|t] eqn:Hl; [lia|].
  exists n, t. repeat split.
  intros Hkey. rewrite (tallied_ordinary c (S n) Hkey) in Hv. congruence.
Qed.

(** C9, as amended: every count-over-total percentage the pages display
    is a number, never NaN.  The displays guarded by [total > 0] (the
    dashboard's CBAM share, the analysis page's high-risk share and
    category share, the overview's CBAM share) yield 0 when the denominator
    is 0, and the CBAM shares yield 0 when no record is CBAM relevant; the
    overview's compliance percentage yields 100 for an empty collection;
    the overview's per-category share divides by the number of CBAM
    records, which is not 0 whenever a category is listed.  The
    per-category shares are numbers for every listed category whose name
    is not a property a plain object inherits. *)
Theorem percent_displays_safe :
  (forall stats : Dashboard.DashboardStats,
     JS.isNaN (Dashboard.cbamPercent stats) = false /\
     (Dashboard.totalRecords stats = 0%nat ->
      Dashboard.cbamPercent stats = JS.num 0) /\
     (Dashboard.cbamaRecords stats = 0%nat ->
      Dashboard.cbamPercent stats = JS.num 0)) /\
  (forall (stats : Analysis.CBAMStats) (count : JS.value),
     JS.isNaN (Analysis.highRiskPercent stats) = false /\
     (Analysis.totalRecords stats = 0%nat ->
      Analysis.highRiskPercent stats = JS.num 0 /\
      Analysis.categoryPercent stats count = JS.num 0)) /\
  (forall (records : list Store.TradeRecords.t) (cat : string)
          (p : JS.number),
     let stats := Analysis.calculateStats records in
     (cat, p) ∈ Analysis.categoryPercents stats ->
     ordinaryKey cat -> JS.isNaN p = false) /\
  (forall stats : Overview.Stats,
     JS.isNaN (Overview.cbamPercent stats) = false /\
     (Overview.totalRecords stats = 0%nat ->
      Overview.cbamPercent stats = JS.num 0) /\
     (Overview.cbamRelevant stats = 0%nat ->
      Overview.cbamPercent stats = JS.num 0) /\
     JS.isNaN (Overview.complianceScore stats) = false /\
     (Overview.totalRecords stats = 0%nat ->
      Overview.complianceScore stats = JS.num 100)) /\
  (forall (cbamCategory : Store.TradeRecords.t -> option string)
          (records : list Store.TradeRecords.t) (cat : string) (p : JS.number),
     let stats := Overview.calculateStats cbamCategory records in
     (cat, p) ∈ Overview.categoryPercents stats ->
     Overview.cbamRelevant stats <> 0%nat /\
     (ordinaryKey cat -> JS.isNaN p = false)) /\
  (forall (cbamCategory : Store.TradeRecords.t -> option string)
          (records : list Store.TradeRecords.t),
     (forall r, r ∈ records -> Dashboard.isCbam r = false) ->
     Dashboard.cbamPercent (Dashboard.calculateStats records) = JS.num 0 /\
     Overview.cbamPercent (Overview.calculateStats cbamCategory records)
     = JS.num 0 /\
     Analysis.highRiskPercent (Analysis.calculateStats []) = JS.num 0).
Proof.
  split; [|split; [|split; [|split; [|split]]]].
  - intros stats.
    change (Dashboard.cbamPercent stats)
      with (guardedPercent (Dashboard.cbamaRecords stats)
                           (Dashboard.totalRecords stats)).
    apply guardedPercent_safe.
  - intros stats count.
    change (Analysis.highRiskPercent stats)
      with (guardedPercent (Analysis.highRiskRecords stats)
                           (Analysis.totalRecords stats)).
    split; [apply guardedPercent_safe|].
    intros H0.
    split; [apply (proj1 (proj2 (guardedPercent_safe _ _))), H0|].
    unfold Analysis.categoryPercent. now rewrite H0.
  - intros records cat p stats Hin Hkey.
    unfold Analysis.categoryPercents in Hin.
    apply list_elem_of_fmap in Hin as ([c v] & Heq & Hentry).
    injection Heq as -> ->.
    subst stats. unfold Analysis.calculateStats in *.
    cbn [Analysis.categoriesBreakdown] in Hentry.
    apply tally_entry in Hentry as (n & t & _ & Hl & Hv).
    rewrite (Hv Hkey).
    unfold Analysis.categoryPercent. cbn [Analysis.totalRecords JS.Number].
    rewrite Hl.
    change (JS.gtb (JS.ofNat (S t)) (JS.num 0)) with true. cbn iota.
    apply Math_round_not_NaN, mul_100_not_NaN, div_ofNat_S. reflexivity.
  - intros stats.
    change (Overview.cbamPercent stats)
      with (guardedPercent (Overview.cbamRelevant stats)
                           (Overview.totalRecords stats)).
    split; [apply guardedPercent_safe|].
    split; [apply guardedPercent_safe|].
    split; [apply guardedPercent_safe|].
    unfold Overview.complianceScore. rewrite gtb_ofNat.
    destruct (Overview.totalRecords stats) as [|n].
    + split; reflexivity.
    + split; [|discriminate].
      apply Math_round_not_NaN, mul_100_not_NaN, div_ofNat_S. reflexivity.
  - intros cbamCategory records cat p stats Hin.
    unfold Overview.categoryPercents in Hin.
    apply list_elem_of_fmap in Hin as ([c v] & Heq & Hentry).
    injection Heq as -> ->.
    subst stats. unfold Overview.calculateStats in *.
    cbn [Overview.categories Overview.cbamRelevant] in *.
    apply (tally_entry (Overview.categoryKey cbamCategory)) in Hentry
      as (n & t & _ & Hl & Hv).
    split; [rewrite Hl; discriminate|].
    intros Hkey. rewrite (Hv Hkey).
    unfold Overview.categoryPercent. cbn [Overview.cbamRelevant JS.Number].
    rewrite Hl.
    apply Math_round_not_NaN, mul_100_not_NaN, div_ofNat_S. reflexivity.
  - intros cbamCategory records Hnone.
    assert (Hf : filter (fun r => Dashboard.isCbam r = true) records = []).
    { induction records as [|x l IH]; [reflexivity|].
      rewrite filter_cons. destruct (decide (Dashboard.isCbam x = true)) as [Hx|_].
      - rewrite (Hnone x) in Hx by constructor. discriminate.
      - apply IH. intros r Hr. apply Hnone. now constructor. }
    split; [|split; [|reflexivity]].
    + change (Dashboard.cbamPercent (Dashboard.calculateStats records))
        with (guardedPercent
                (length (filter (fun r => Dashboard.isCbam r = true) records))
                (length records)).
      rewrite Hf. now apply guardedPercent_safe.
    + change (Overview.cbamPercent
                (Overview.calculateStats cbamCategory records))
        with (guardedPercent
                (length (filter (fun r => Dashboard.isCbam r = true) records))
                (length records)).
      rewrite Hf. now apply guardedPercent_safe.
Qed.

(** C9 as stated fails on the overview's compliance percentage,
    [(total - cbam) / total * 100]: for an empty collection the denominator
    is 0 and the page shows 100, not 0. *)
Lemma compliance_percent_of_nothing_is_100 :
  let stats := Overview.calculateStats (fun _ => None) [] in
  Overview.totalRecords stats = 0%nat /\
  Overview.complianceScore stats = JS.num 100 /\
  Overview.complianceScore stats <> JS.num 0.
Proof. cbn zeta. repeat split. vm_compute. discriminate. Qed.

(** Beside the count-based displays, the trade-flow page shows the share
    of each country in the total trade value without a guard: when every
    listed record is worth 0 the division is 0 / 0. *)
Lemma tradeVolumePercent_of_zero_total :
  let tradeData := TradeFlow.calculateTradeFlow [zeroValueRecord] in
  TradeFlow.totalValue tradeData = JS.num 0 /\
  exists country,
    TradeFlow.topCountries tradeData = [country] /\
    TradeFlow.CountryData.country country = JS.VString "France" /\
    TradeFlow.tradeVolumePercent tradeData country = JS.NaN.
Proof.
  cbn zeta. split; [vm_compute; reflexivity|].
  eexists. split; [vm_compute; reflexivity|]. split; reflexivity.
Qed.

(* ===================================================================== *)
(** ** Further properties of the upload page *)
(* ===================================================================== *)

(** *** Mapping the rows of a sheet *)

(** X1: [processExcelFile] resolves with one record per row, in the order
    of the rows, each the mapping of its row: nothing is dropped, merged or
    reordered.  An empty sheet gives the empty list. *)
Theorem processExcelFile_pointwise (rows : list row)
    (recs : list Upload.TradeRecord) :
  Upload.processExcelFile (Normal rows) = Normal recs <->
  Forall2 (fun r record => Upload.mapRow r = Normal record) rows recs.
Proof.
  cbn [Upload.processExcelFile]. revert recs.
  induction rows as [|r rest IH]; intros recs; cbn [Upload.mapRows].
  - split.
    + intros [= <-]. constructor.
    + intros H. inversion H. reflexivity.
  - destruct (Upload.mapRow r) as [record|e] eqn:Hr.
    + destruct (Upload.mapRows rest) as [tl|e] eqn:Hrest.
      * split.
        -- intros [= <-]. constructor; [exact Hr | now apply IH].
        -- intros H. inversion H as [|? rec' ? tl' Hhd Htl]; subst.
           apply IH in Htl. congruence.
      * split; [discriminate|].
        intros H. inversion H as [|? rec' ? tl' Hhd Htl]; subst.
        apply IH in Htl. discriminate.
    + split; [discriminate|].
      intros H. inversion H; subst. congruence.
Qed.

(** X2: [processExcelFile] rejects exactly when some row makes the mapper
    throw, and it rejects with what the first such row throws; the rows
    before it were mapped, the rows after it are not looked at. *)
Theorem processExcelFile_rejects (rows : list row) (e : JS.thrown) :
  Upload.processExcelFile (Normal rows) = Throw e <->
  exists earlier r later,
    rows = (earlier ++ r :: later)%list /\
    Upload.mapRow r = Throw e /\
    Forall (fun r' => exists record, Upload.mapRow r' = Normal record) earlier.
Proof.
  cbn [Upload.processExcelFile].
  induction rows as [|r rest IH]; cbn [Upload.mapRows].
  - split; [discriminate|].
    intros ([|? ?] & ? & ? & H & _); discriminate.
  - destruct (Upload.mapRow r) as [record|e'] eqn:Hr.
    + destruct (Upload.mapRows rest) as [tl|e''] eqn:Hrest.
      * split; [discriminate|].
        intros ([|r0 earlier] & r1 & later & Heq & Hthrow & Hall);
          simpl in Heq; injection Heq as -> ->.
        -- congruence.
        -- apply Forall_cons in Hall as [_ Hall].
           assert (Habs : Normal tl = Throw e); [|discriminate].
           apply IH. now exists earlier, r1, later.
      * split.
        -- intros H. apply IH in H as (earlier & r1 & later & -> & Hthrow & Hall).
           exists (r :: earlier), r1, later.
           repeat split; [exact Hthrow|]. constructor; [eauto | exact Hall].
        -- intros ([|r0 earlier] & r1 & later & Heq & Hthrow & Hall);
             simpl in Heq; injection Heq as -> ->.
           ++ congruence.
           ++ apply Forall_cons in Hall as [_ Hall].
              apply IH. now exists earlier, r1, later.
    + split.
      * intros [= ->]. exists [], r, rest. repeat split; [exact Hr | constructor].
      * intros ([|r0 earlier] & r1 & later & Heq & Hthrow & Hall);
          simpl in Heq; injection Heq as -> ->.
        -- congruence.
        -- apply Forall_cons in Hall as [(record & Hrec) _]. congruence.
Qed.

(** The mapper returns a record exactly when the resolved product code and
    description are strings. *)
Lemma mapRow_normal_iff (r : row) :
  (exists record, Upload.mapRow r = Normal record) <->
  (exists code desc, Upload.rowProductCode r = JS.VString code /\
                     Upload.rowProductDescription r = JS.VString desc).
Proof.
  unfold Upload.mapRow. cbn zeta.
  destruct (Upload.rowProductCode r) as [|code|n|b]; cbn [Upload.asString];
    try (split; [intros (? & ?); discriminate
                | intros (? & ? & ? & _); discriminate]).
  destruct (Upload.rowProductDescription r) as [|desc|n|b];
    cbn [Upload.asString];
    try (split; [intros (? & ?); discriminate
                | intros (? & ? & _ & ?); discriminate]).
  split; eauto.
Qed.

(** One row that makes the mapper throw is enough for the whole list. *)
Lemma mapRows_throws (rows : list row) (r : row) :
  r ∈ rows ->
  (forall record, Upload.mapRow r <> Normal record) ->
  exists e, Upload.mapRows rows = Throw e.
Proof.
  induction rows as [|r0 rest IH]; intros Hin Hr.
  - now apply elem_of_nil in Hin.
  - cbn [Upload.mapRows].
    destruct (Upload.mapRow r0) as [record|e] eqn:H0; [|now exists e].
    apply elem_of_cons in Hin as [->|Hin]; [now destruct (Hr record)|].
    destruct (IH Hin Hr) as (e & ->). now exists e.
Qed.

(** X3: a sheet with a row whose product code resolves to a number cell
    (a numeric HS code column) is rejected as a whole: the mapper calls
    [toLowerCase] on the number, and no record of the file is returned. *)
Theorem numeric_code_rejects_file (rows : list row) (r : row) (n : JS.number) :
  r ∈ rows ->
  Upload.rowProductCode r = JS.VNumber n ->
  exists e, Upload.processExcelFile (Normal rows) = Throw e.
Proof.
  intros Hin Hcode. cbn [Upload.processExcelFile].
  apply (mapRows_throws rows r Hin). intros record Hrec.
  assert (Hn : exists record, Upload.mapRow r = Normal record) by eauto.
  apply mapRow_normal_iff in Hn as (code & _ & Hc & _). congruence.
Qed.

Lemma numeric_code_rejects_file_witness :
  numericCodeRow ∈ [steelPipeRow; numericCodeRow] /\
  Upload.rowProductCode numericCodeRow = JS.VNumber (JS.num 7208) /\
  exists e, Upload.processExcelFile (Normal [steelPipeRow; numericCodeRow])
            = Throw e.
Proof.
  assert (Hin : numericCodeRow ∈ [steelPipeRow; numericCodeRow]).
  { apply elem_of_cons. right. apply elem_of_cons. now left. }
  split; [exact Hin|]. split; [reflexivity|].
  apply (numeric_code_rejects_file _ numericCodeRow (JS.num 7208) Hin).
  reflexivity.
Defined.

(** *** The classifier: invariants *)

Lemma firstMatch_name (code desc : string)
    (entries : list (string * list string)) (cat : string) :
  firstMatch code desc entries cat -> cat ∈ map fst entries.
Proof.
  intros (earlier & kws & later & -> & _).
  rewrite map_app. apply elem_of_app. right. simpl. now left.
Qed.

Lemma detect_relevance_category (productCode description : string) :
  let check := Upload.detectCBAMRelevance productCode description in
  (Upload.relevant check = true <->
   exists cat, Upload.category check = Some cat) /\
  (forall cat, Upload.category check = Some cat -> cat ∈ categoryNames).
Proof.
  intros check. subst check. unfold Upload.detectCBAMRelevance.
  destruct (scanCategories_spec (JS.toLowerCase productCode)
              (JS.toLowerCase description) Upload.cbamaCategories)
    as [(c & -> & Hfirst) | [-> _]]; cbn [Upload.relevant Upload.category].
  - split; [split; eauto|].
    intros cat [= <-]. now apply firstMatch_name in Hfirst.
  - split; [split; [discriminate | intros (? & ?); discriminate]|].
    discriminate.
Qed.

Lemma relevance_category_invariant_aux (r : row)
    (record : Upload.TradeRecord) :
  Upload.mapRow r = Normal record ->
  (Upload.isCbamRelevant record = true <->
   exists cat, Upload.cbamaCategory record = Some cat) /\
  (forall cat, Upload.cbamaCategory record = Some cat ->
               cat ∈ categoryNames) /\
  Upload.orNull (Upload.cbamaCategory record) = Upload.cbamaCategory record.
Proof.
  intros Hmap. unfold Upload.mapRow in Hmap. cbn zeta in Hmap.
  destruct (Upload.asString "productCode" _) as [code|]; [|discriminate].
  destruct (Upload.asString "description" _) as [desc|]; [|discriminate].
  injection Hmap as <-.
  cbn [Upload.isCbamRelevant Upload.cbamaCategory].
  destruct (detect_relevance_category code desc) as (Hrel & Hname).
  split; [exact Hrel|]. split; [exact Hname|].
  destruct (Upload.category (Upload.detectCBAMRelevance code desc))
    as [cat|] eqn:Hcat; [|reflexivity].
  specialize (Hname cat eq_refl). cbn [Upload.orNull].
  destruct (String.eqb cat "") eqn:E; [|reflexivity].
  apply String.eqb_eq in E. subst cat.
  unfold categoryNames in Hname.
  repeat (apply elem_of_cons in Hname as [Hname|Hname]; [discriminate|]).
  now apply elem_of_nil in Hname.
Qed.

(** X4: the check returned by [detectCBAMRelevance] is relevant exactly
    when it carries a category, and the category is one of the five names
    of the table.  A mapped record keeps this: [isCbamRelevant] holds
    exactly when [cbamaCategory] is set, and the category written to the
    store ([cbamaCategory || null]) is the same one. *)
Theorem relevance_category_invariant :
  (forall productCode description,
     let check := Upload.detectCBAMRelevance productCode description in
     (Upload.relevant check = true <->
      exists cat, Upload.category check = Some cat) /\
     (forall cat, Upload.category check = Some cat -> cat ∈ categoryNames)) /\
  (forall r record,
     Upload.mapRow r = Normal record ->
     (Upload.isCbamRelevant record = true <->
      exists cat, Upload.cbamaCategory record = Some cat) /\
     (forall cat, Upload.cbamaCategory record = Some cat ->
                  cat ∈ categoryNames) /\
     Upload.orNull (Upload.cbamaCategory record) = Upload.cbamaCategory record).
Proof.
  split; [exact detect_relevance_category
         | exact relevance_category_invariant_aux].
Qed.

(** The keywords of the table are written in lower case. *)
Lemma keywords_lower_case :
  Forall (fun entry => Forall (fun k => JS.toLowerCase k = k) (snd entry))
         Upload.cbamaCategories.
Proof. repeat constructor. Qed.

Lemma isSubstring_refl (k : string) : isSubstring k k.
Proof.
  exists EmptyString, EmptyString.
  induction k as [|c k IH]; [reflexivity|].
  change (String c k = String c ("" ++ k ++ "")). now rewrite <- IH.
Qed.

Lemma keyword_match_relevant (code desc cat : string) (kws : list string) :
  (cat, kws) ∈ Upload.cbamaCategories ->
  keywordsMatch code desc kws ->
  Upload.relevant (Upload.scanCategories code desc Upload.cbamaCategories)
  = true.
Proof.
  intros Hin Hm.
  destruct (scanCategories_spec code desc Upload.cbamaCategories)
    as [(c & -> & _) | [_ Hall]]; [reflexivity|].
  rewrite Forall_forall in Hall. now destruct (Hall _ Hin).
Qed.

(** X5: no keyword of the table is dead, and letter case does not
    matter: a product code or a description that equals a keyword up to
    the case of its ASCII letters is classified as CBAM relevant, whatever
    the other field holds. *)
Theorem keyword_in_any_case_is_relevant (cat : string) (kws : list string)
    (k field other : string) :
  (cat, kws) ∈ Upload.cbamaCategories ->
  k ∈ kws ->
  JS.toLowerCase field = JS.toLowerCase k ->
  Upload.relevant (Upload.detectCBAMRelevance field other) = true /\
  Upload.relevant (Upload.detectCBAMRelevance other field) = true.
Proof.
  intros Hin Hk Hfield.
  assert (Hlow : JS.toLowerCase k = k).
  { pose proof keywords_lower_case as H. rewrite Forall_forall in H.
    specialize (H _ Hin). cbn [snd] in H. rewrite Forall_forall in H.
    now apply H. }
  rewrite Hlow in Hfield. unfold Upload.detectCBAMRelevance. rewrite Hfield.
  split; apply (keyword_match_relevant _ _ cat kws Hin);
    exists k; (split; [exact Hk|]).
  - left. apply isSubstring_refl.
  - right. apply isSubstring_refl.
Qed.

Lemma keyword_in_any_case_is_relevant_witness :
  ("fertilizers",
   ["31"; "3102"; "3103"; "3104"; "3105"; "fertilizer"; "urea"; "ammonia"])
    ∈ Upload.cbamaCategories /\
  JS.toLowerCase "UREA" = JS.toLowerCase "urea" /\
  Upload.relevant (Upload.detectCBAMRelevance "UREA" "bags") = true /\
  Upload.relevant (Upload.detectCBAMRelevance "bags" "UREA") = true.
Proof.
  assert (Hin : ("fertilizers",
                 ["31"; "3102"; "3103"; "3104"; "3105"; "fertilizer"; "urea";
                  "ammonia"]) ∈ Upload.cbamaCategories).
  { unfold Upload.cbamaCategories. do 3 (apply elem_of_cons; right).
    apply elem_of_cons. now left. }
  split; [exact Hin|]. split; [reflexivity|].
  apply (keyword_in_any_case_is_relevant _ _ "urea" "UREA" "bags" Hin);
    [|reflexivity].
  do 6 (apply elem_of_cons; right). apply elem_of_cons. now left.
Defined.

(** *** [processFile]: what it does to the entries and to the store *)

Lemma updateFile_compose (fid : string)
    (u1 u2 : Upload.UploadedFile -> Upload.UploadedFile)
    (l : list Upload.UploadedFile) :
  (forall f, Upload.id (u1 f) = Upload.id f) ->
  Upload.updateFile fid u2 (Upload.updateFile fid u1 l)
  = Upload.updateFile fid (fun f => u2 (u1 f)) l.
Proof.
  intros H1. unfold Upload.updateFile. rewrite map_map.
  apply map_ext. intros f.
  destruct (String.eqb (Upload.id f) fid) eqn:E.
  - now rewrite H1, E.
  - now rewrite E.
Qed.

Lemma updateFile_lookup (fid : string)
    (upd : Upload.UploadedFile -> Upload.UploadedFile)
    (l : list Upload.UploadedFile) (i : nat) :
  Upload.updateFile fid upd l !! i
  = (fun f => if String.eqb (Upload.id f) fid then upd f else f) <$> l !! i.
Proof. unfold Upload.updateFile. apply list_lookup_fmap. Qed.

(** The loop that saves the records, when no write is refused: the records
    are appended to the store in order, each with the identifier and time
    stamp drawn at its write. *)
Lemma saveRecords_success (w : Upload.World) (documentId user : string)
    (recs : list Upload.TradeRecord) :
  forall s : Upload.State,
    (forall j, (j < length recs)%nat ->
               Upload.writeOutcome w (Store.writes (Upload.db s) + j) = None) ->
    Upload.forOf recs (Upload.saveRecord w documentId user) s
    = ({| Upload.uploadedFiles := Upload.uploadedFiles s;
          Upload.db :=
            {| Store.tradeDocuments := Store.tradeDocuments (Upload.db s);
               Store.tradeRecords :=
                 Store.tradeRecords (Upload.db s) ++
                 imap (fun j record =>
                         Upload.recordFields
                           (Upload.newRecordId w (Store.writes (Upload.db s) + j))
                           documentId user
                           (Upload.now w (Store.writes (Upload.db s) + j))
                           record) recs;
               Store.writes := Store.writes (Upload.db s) + length recs |} |},
       Normal tt).
Proof.
  induction recs as [|record rest IH]; intros [files [docs stored n]] Hall;
    cbn [Upload.db Upload.uploadedFiles Store.tradeDocuments
         Store.tradeRecords Store.writes] in *.
  - cbn. now rewrite app_nil_r, Nat.add_0_r.
  - cbn [Upload.forOf]. unfold Upload.bind at 1.
    unfold Upload.saveRecord at 1, Upload.bind at 1, Upload.getWrites,
      Upload.onStore, Store.tradeRecords_create.
    cbn [Upload.db Upload.uploadedFiles Store.tradeDocuments
         Store.tradeRecords Store.writes].
    pose proof (Hall 0%nat ltac:(simpl; lia)) as H0.
    rewrite Nat.add_0_r in H0. rewrite H0.
    rewrite IH; cbn [Upload.db Upload.uploadedFiles Store.tradeDocuments
                     Store.tradeRecords Store.writes].
    + f_equal. f_equal. f_equal.
      * rewrite <- app_assoc. f_equal. cbn [imap app].
        rewrite Nat.add_0_r. f_equal.
        apply imap_ext. intros j x _. cbn.
        now replace (n + S j)%nat with (S (n + j)) by lia.
      * simpl. lia.
    + intros j Hj.
      replace (S n + j)%nat with (n + S j)%nat by lia.
      apply Hall. simpl. lia.
Qed.

(** The [try] block when nothing fails: the exact state it leaves. *)
Lemma attempt_success (w : Upload.World) (fileData : Upload.UploadedFile)
    (s : Upload.State) (recs : list Upload.TradeRecord) (user : string) :
  Upload.processExcelFile (Upload.decoded (Upload.file fileData)) = Normal recs ->
  Upload.me w = Normal user ->
  (forall j, (j <= S (length recs))%nat ->
             Upload.writeOutcome w (Store.writes (Upload.db s) + j) = None) ->
  Upload.attempt w fileData s
  = ({| Upload.uploadedFiles :=
          Upload.updateFile (Upload.id fileData)
            (Upload.withCompleted (length recs) (Upload.countCbam recs))
            (Upload.updateFile (Upload.id fileData)
               (fun f => Upload.withProgress (Upload.status f) 75 f)
               (Upload.updateFile (Upload.id fileData)
                  (fun f => Upload.withProgress (Upload.status f) 50 f)
                  (Upload.updateFile (Upload.id fileData)
                     (Upload.withProgress Upload.processing 10)
                     (Upload.uploadedFiles s))));
        Upload.db :=
          {| Store.tradeDocuments :=
               map (fun d =>
                      if String.eqb (Store.TradeDocuments.id d)
                                    (Upload.newDocumentId w)
                      then Store.TradeDocuments.withStatus "completed" d
                      else d)
                   (Store.tradeDocuments (Upload.db s) ++
                    [Upload.documentFields (Upload.newDocumentId w) user
                       (Upload.now w (Store.writes (Upload.db s)))
                       fileData recs]);
             Store.tradeRecords :=
               Store.tradeRecords (Upload.db s) ++
               imap (fun j record =>
                       Upload.recordFields
                         (Upload.newRecordId w
                            (S (Store.writes (Upload.db s)) + j))
                         (Upload.newDocumentId w) user
                         (Upload.now w (S (Store.writes (Upload.db s)) + j))
                         record) recs;
             Store.writes :=
               S (S (Store.writes (Upload.db s)) + length recs) |} |},
     Normal tt).
Proof.
  intros Hparse Hme Hall.
  unfold Upload.attempt.
  unfold Upload.bind at 1. cbn [Upload.setUploadedFiles].
  unfold Upload.bind at 1, Upload.await at 1. rewrite Hparse.
  unfold Upload.bind at 1. cbn [Upload.setUploadedFiles].
  unfold Upload.bind at 1, Upload.await at 1. rewrite Hme.
  cbn zeta.
  unfold Upload.bind at 1, Upload.getWrites at 1.
  cbn [Upload.db Upload.uploadedFiles].
  unfold Upload.bind at 1, Upload.onStore at 1, Store.tradeDocuments_create.
  cbn [Upload.db Upload.uploadedFiles].
  pose proof (Hall 0%nat ltac:(lia)) as H0. rewrite Nat.add_0_r in H0.
  rewrite H0.
  unfold Upload.bind at 1. cbn [Upload.setUploadedFiles].
  cbn [Upload.db Upload.uploadedFiles].
  unfold Upload.bind at 1.
  rewrite saveRecords_success;
    cbn [Upload.db Upload.uploadedFiles Store.tradeDocuments
         Store.tradeRecords Store.writes].
  - unfold Upload.bind at 1, Upload.onStore at 1,
      Store.tradeDocuments_update_status.
    cbn [Upload.db Upload.uploadedFiles Store.tradeDocuments
         Store.tradeRecords Store.writes].
    pose proof (Hall (S (length recs)) ltac:(lia)) as Hlast.
    replace (Store.writes (Upload.db s) + S (length recs))%nat
      with (S (Store.writes (Upload.db s)) + length recs)%nat in Hlast by lia.
    rewrite Hlast. reflexivity.
  - intros j Hj.
    replace (S (Store.writes (Upload.db s)) + j)%nat
      with (Store.writes (Upload.db s) + S j)%nat by lia.
    apply Hall. lia.
Qed.

(** X6: when the file is decoded, the user is known and no write is
    refused, [processFile] stores one new document, already in status
    "completed" and carrying the counts of the file, followed by one stored
    record per record of the file, in order; the entry of the file ends
    [completed] at 100 % with the same counts.  The store sees exactly
    [length recs + 2] writes. *)
Theorem processFile_success (w : Upload.World)
    (fileData : Upload.UploadedFile) (s : Upload.State)
    (recs : list Upload.TradeRecord) (user : string) :
  Upload.processExcelFile (Upload.decoded (Upload.file fileData)) = Normal recs ->
  Upload.me w = Normal user ->
  (forall j, (j <= S (length recs))%nat ->
             Upload.writeOutcome w (Store.writes (Upload.db s) + j) = None) ->
  let n := Store.writes (Upload.db s) in
  let documentId := Upload.newDocumentId w in
  let s' := fst (Upload.processFile w fileData s) in
  Store.tradeDocuments (Upload.db s')
  = map (fun d => if String.eqb (Store.TradeDocuments.id d) documentId
                  then Store.TradeDocuments.withStatus "completed" d else d)
        (Store.tradeDocuments (Upload.db s) ++
         [Upload.documentFields documentId user (Upload.now w n) fileData
            recs])%list
  /\ Store.tradeRecords (Upload.db s')
     = (Store.tradeRecords (Upload.db s) ++
        imap (fun j record =>
                Upload.recordFields (Upload.newRecordId w (S n + j)) documentId
                  user (Upload.now w (S n + j)) record) recs)%list
  /\ Store.writes (Upload.db s') = (n + length recs + 2)%nat
  /\ (forall f, f ∈ Upload.uploadedFiles s' ->
        Upload.id f = Upload.id fileData ->
        Upload.status f = Upload.completed /\
        Upload.progress f = 100%nat /\
        Upload.records f = Some (length recs) /\
        Upload.cbamaRecords f = Some (Upload.countCbam recs)).
Proof.
  intros Hparse Hme Hall n documentId s'. subst n documentId s'.
  unfold Upload.processFile, Upload.tryCatch.
  rewrite (attempt_success w fileData s recs user Hparse Hme Hall).
  cbn [fst Upload.db Upload.uploadedFiles Store.tradeDocuments
       Store.tradeRecords Store.writes].
  split; [reflexivity|]. split; [reflexivity|]. split; [lia|].
  intros f Hin Hid.
  apply updateFile_elem in Hin as (g & _ & ->); auto.
Qed.

Lemma processFile_success_witness :
  let w := {| Upload.me := Normal "user1";
              Upload.newDocumentId := "doc_1";
              Upload.newRecordId := fun _ => "rec_1";
              Upload.now := fun _ => "2024-01-01T00:00:00.000Z";
              Upload.writeOutcome := fun _ => None |} in
  let s' := fst (Upload.processFile w twoRowFile (emptyState [twoRowFile])) in
  length (Store.tradeRecords (Upload.db s')) = 2%nat /\
  Store.writes (Upload.db s') = 4%nat /\
  (forall f, f ∈ Upload.uploadedFiles s' ->
     Upload.id f = "f1" ->
     Upload.status f = Upload.completed /\
     Upload.progress f = 100%nat /\
     Upload.records f = Some 2%nat /\
     Upload.cbamaRecords f = Some 2%nat).
Proof.
  intros w s'.
  destruct (processFile_success w twoRowFile (emptyState [twoRowFile])
              (match Upload.mapRows [steelPipeRow; steelPipeRow] with
               | Normal l => l
               | Throw _ => []
               end) "user1")
    as (_ & Hrecs & Hwrites & Hentry).
  - vm_compute. reflexivity.
  - reflexivity.
  - intros j _. reflexivity.
  - split; [subst s'; rewrite Hrecs; reflexivity|].
    split; [exact Hwrites | exact Hentry].
Defined.

Ltac leaf :=
  match goal with
  | Hleaf : forall files db c' u, _ |- _ =>
      eapply Hleaf;
      [ | cbn [Upload.setUploadedFiles Upload.uploadedFiles Upload.db fst];
          rewrite ?updateFile_compose by (intros; reflexivity); reflexivity | ];
      [ intros f; split; reflexivity
      | first [exact I | intros f; reflexivity] ]
  end.

(** Whatever happens, the [try] block rewrites the entries of the file by
    one update that keeps their identifier and file; when it ends normally
    the update leaves them [completed]. *)
Lemma attempt_files (w : Upload.World) (fileData : Upload.UploadedFile)
    (s s1 : Upload.State) (c : completion ()) :
  Upload.attempt w fileData s = (s1, c) ->
  exists u,
    (forall f, Upload.id (u f) = Upload.id f /\ Upload.file (u f) = Upload.file f) /\
    Upload.uploadedFiles s1
    = Upload.updateFile (Upload.id fileData) u (Upload.uploadedFiles s) /\
    match c with
    | Normal _ => forall f, Upload.status (u f) = Upload.completed
    | Throw _ => True
    end.
Proof.
  assert (Hleaf : forall (files : list Upload.UploadedFile) (db : Store.DB)
                         (c' : completion ()) u,
            (forall f, Upload.id (u f) = Upload.id f /\
                       Upload.file (u f) = Upload.file f) ->
            files = Upload.updateFile (Upload.id fileData) u
                      (Upload.uploadedFiles s) ->
            match c' with
            | Normal _ => forall f, Upload.status (u f) = Upload.completed
            | Throw _ => True
            end ->
            ({| Upload.uploadedFiles := files; Upload.db := db |}, c') = (s1, c) ->
            exists u,
              (forall f, Upload.id (u f) = Upload.id f /\
                         Upload.file (u f) = Upload.file f) /\
              Upload.uploadedFiles s1
              = Upload.updateFile (Upload.id fileData) u
                  (Upload.uploadedFiles s) /\
              match c with
              | Normal _ => forall f, Upload.status (u f) = Upload.completed
              | Throw _ => True
              end).
  { intros files db c' u Hu Hfiles Hc [= <- <-]. exists u. auto. }
  unfold Upload.attempt.
  unfold Upload.bind at 1. cbn [Upload.setUploadedFiles].
  unfold Upload.bind at 1, Upload.await at 1.
  destruct (Upload.processExcelFile _) as [recs|e]; [|leaf].
  unfold Upload.bind at 1. cbn [Upload.setUploadedFiles].
  unfold Upload.bind at 1, Upload.await at 1.
  destruct (Upload.me w) as [user|e]; [|leaf].
  cbn zeta.
  unfold Upload.bind at 1, Upload.getWrites at 1.
  cbn [Upload.db Upload.uploadedFiles].
  unfold Upload.bind at 1, Upload.onStore at 1, Store.tradeDocuments_create.
  cbn [Upload.db Upload.uploadedFiles].
  destruct (Upload.writeOutcome w (Store.writes (Upload.db s))) as [e0|];
    [leaf|].
  unfold Upload.bind at 1. cbn [Upload.setUploadedFiles].
  cbn [Upload.db Upload.uploadedFiles].
  unfold Upload.bind at 1.
  match goal with |- context [Upload.forOf recs _ ?st] =>
    pose proof (saveRecords_outcome w (Upload.newDocumentId w) user recs st)
      as Hloop; cbn zeta in Hloop;
    destruct (Upload.forOf recs
                (Upload.saveRecord w (Upload.newDocumentId w) user) st)
      as [[files1 db1] c1]
  end.
  cbn [Upload.db Upload.uploadedFiles] in Hloop.
  destruct Hloop as (Hf1 & _ & _). subst files1.
  destruct c1 as [[]|e1]; [|leaf].
  unfold Upload.bind at 1, Upload.onStore at 1,
    Store.tradeDocuments_update_status.
  cbn [Upload.db Upload.uploadedFiles].
  destruct (Upload.writeOutcome w (Store.writes db1)) as [e2|]; leaf.
Qed.

(** [processFile] as one update of the entries of the file, which leaves
    them [completed] or [error]. *)
Lemma processFile_files (w : Upload.World) (fileData : Upload.UploadedFile)
    (s : Upload.State) :
  exists u,
    (forall f, Upload.id (u f) = Upload.id f /\
               Upload.file (u f) = Upload.file f /\
               (Upload.status (u f) = Upload.completed \/
                Upload.status (u f) = Upload.error)) /\
    Upload.uploadedFiles (fst (Upload.processFile w fileData s))
    = Upload.updateFile (Upload.id fileData) u (Upload.uploadedFiles s).
Proof.
  unfold Upload.processFile, Upload.tryCatch.
  destruct (Upload.attempt w fileData s) as [s1 c] eqn:Hatt.
  destruct (attempt_files w fileData s s1 c Hatt) as (u & Hu & Hfiles & Hc).
  destruct c as [[]|e]; cbn [fst snd Upload.onError Upload.setUploadedFiles
                             Upload.uploadedFiles] in *.
  - exists u. split; [|exact Hfiles].
    intros f. destruct (Hu f) as [? ?]. repeat split; auto.
  - exists (fun f => Upload.withError (Upload.cause e) (u f)). split.
    + intros f. destruct (Hu f) as [? ?]. repeat split; auto.
    + rewrite Hfiles. apply updateFile_compose. intros f. apply Hu.
Qed.

(** X7: whatever the file holds and whatever the store and the sign-in do,
    [processFile] keeps the list of entries in place: entries of other
    files are left exactly as they are, the entries of the processed file
    keep their identifier and file and end [completed] or [error], never
    [pending] or [processing].  If the entry of the file is no longer in
    the list, the list is unchanged. *)
Theorem processFile_entries (w : Upload.World)
    (fileData : Upload.UploadedFile) (s : Upload.State) :
  let s' := fst (Upload.processFile w fileData s) in
  length (Upload.uploadedFiles s') = length (Upload.uploadedFiles s) /\
  (forall i f, Upload.uploadedFiles s !! i = Some f ->
     Upload.id f <> Upload.id fileData ->
     Upload.uploadedFiles s' !! i = Some f) /\
  (forall i f, Upload.uploadedFiles s !! i = Some f ->
     Upload.id f = Upload.id fileData ->
     exists f', Upload.uploadedFiles s' !! i = Some f' /\
                Upload.id f' = Upload.id f /\
                Upload.file f' = Upload.file f /\
                (Upload.status f' = Upload.completed \/
                 Upload.status f' = Upload.error)) /\
  ((forall f, f ∈ Upload.uploadedFiles s -> Upload.id f <> Upload.id fileData) ->
   Upload.uploadedFiles s' = Upload.uploadedFiles s).
Proof.
  intros s'. subst s'.
  destruct (processFile_files w fileData s) as (u & Hu & ->).
  split; [unfold Upload.updateFile; apply length_map|].
  split; [|split].
  - intros i f Hi Hne. rewrite updateFile_lookup, Hi. cbn.
    apply String.eqb_neq in Hne. now rewrite Hne.
  - intros i f Hi Heq. rewrite updateFile_lookup, Hi. cbn.
    apply String.eqb_eq in Heq. rewrite Heq.
    exists (u f). destruct (Hu f) as (? & ? & ?). auto.
  - intros Hnone. unfold Upload.updateFile.
    rewrite <- (map_id (Upload.uploadedFiles s)) at 2.
    apply map_ext_in. intros f Hf.
    apply list_elem_of_In, Hnone, String.eqb_neq in Hf. now rewrite Hf.
Qed.

(** X8: when the file cannot be decoded, or it can but the signed-in user
    cannot be determined, [processFile] does not touch the store, not even
    by an attempted write, and the entries of the file show [error] with
    the cause. *)
Theorem processFile_early_failure (w : Upload.World)
    (fileData : Upload.UploadedFile) (s : Upload.State) (e : JS.thrown) :
  Upload.processExcelFile (Upload.decoded (Upload.file fileData)) = Throw e \/
  ((exists recs,
      Upload.processExcelFile (Upload.decoded (Upload.file fileData))
      = Normal recs) /\ Upload.me w = Throw e) ->
  let s' := fst (Upload.processFile w fileData s) in
  Upload.db s' = Upload.db s /\
  (forall f, f ∈ Upload.uploadedFiles s' ->
     Upload.id f = Upload.id fileData ->
     Upload.status f = Upload.error /\
     Upload.error_ f = Some (Upload.cause e)).
Proof.
  intros H s'. subst s'.
  unfold Upload.processFile, Upload.tryCatch, Upload.attempt.
  unfold Upload.bind at 1. cbn [Upload.setUploadedFiles].
  unfold Upload.bind at 1, Upload.await at 1.
  destruct H as [-> | [(recs & ->) Hme]].
  - cbn [fst Upload.onError Upload.setUploadedFiles Upload.db
         Upload.uploadedFiles].
    split; [reflexivity|]. intros f Hin Hid.
    apply updateFile_elem in Hin as (g & _ & ->); auto.
  - unfold Upload.bind at 1. cbn [Upload.setUploadedFiles].
    unfold Upload.bind at 1, Upload.await at 1. rewrite Hme.
    cbn [fst Upload.onError Upload.setUploadedFiles Upload.db
         Upload.uploadedFiles].
    split; [reflexivity|]. intros f Hin Hid.
    apply updateFile_elem in Hin as (g & _ & ->); auto.
Qed.

Lemma processFile_early_failure_witness :
  let fileData :=
    {| Upload.file := {| Upload.name := "hs.xlsx";
                         Upload.decoded := Normal [numericCodeRow] |};
       Upload.id := "f2"; Upload.status := Upload.pending;
       Upload.progress := 0; Upload.records := None;
       Upload.cbamaRecords := None; Upload.error_ := None |} in
  let s' := fst (Upload.processFile refusingWorld fileData
                   (emptyState [fileData])) in
  Upload.db s' = Upload.db (emptyState [fileData]) /\
  (forall f, f ∈ Upload.uploadedFiles s' ->
     Upload.id f = "f2" ->
     Upload.status f = Upload.error /\
     Upload.error_ f = Some "productCode.toLowerCase is not a function").
Proof.
  intros fileData s'.
  apply (processFile_early_failure refusingWorld fileData
           (emptyState [fileData])
           (JS.ErrorObject "productCode.toLowerCase is not a function")).
  left. reflexivity.
Defined.

(** *** [processAllFiles] *)

Lemma processFile_normal (w : Upload.World) (fileData : Upload.UploadedFile)
    (s : Upload.State) :
  snd (Upload.processFile w fileData s) = Normal tt.
Proof.
  unfold Upload.processFile, Upload.tryCatch.
  destruct (Upload.attempt w fileData s) as [s1 [[]|e]]; reflexivity.
Qed.

(** The loop over a list of files: it never throws, keeps every entry in
    place, settles the entries of the files it processes and leaves the
    others alone. *)
Lemma processEach_entries
    (todo : list (Upload.World * Upload.UploadedFile)) :
  forall s : Upload.State,
    snd (UploadPage.processEach todo s) = Normal tt /\
    length (Upload.uploadedFiles (fst (UploadPage.processEach todo s)))
    = length (Upload.uploadedFiles s) /\
    forall i f, Upload.uploadedFiles s !! i = Some f ->
      exists f',
        Upload.uploadedFiles (fst (UploadPage.processEach todo s)) !! i
        = Some f' /\
        Upload.id f' = Upload.id f /\
        Upload.file f' = Upload.file f /\
        (Upload.id f ∈ map (fun wf => Upload.id (snd wf)) todo ->
         Upload.status f' = Upload.completed \/
         Upload.status f' = Upload.error) /\
        (Upload.id f ∉ map (fun wf => Upload.id (snd wf)) todo -> f' = f).
Proof.
  induction todo as [|[w file] rest IH]; intros s.
  - cbn. split; [reflexivity|]. split; [reflexivity|].
    intros i f Hi. exists f. repeat split; auto.
    intros H. now apply elem_of_nil in H.
  - unfold UploadPage.processEach in *. cbn [Upload.forOf].
    unfold Upload.bind at 1 2 3.
    pose proof (processFile_normal w file s) as Hn.
    destruct (processFile_files w file s) as (u & Hu & Hfiles).
    destruct (Upload.processFile w file s) as [s1 c]. cbn [fst snd] in *.
    subst c. destruct (IH s1) as (IHn & IHlen & IHent).
    split; [exact IHn|]. split.
    { rewrite IHlen, Hfiles. unfold Upload.updateFile. apply length_map. }
    intros i f Hi.
    assert (H1 : Upload.uploadedFiles s1 !! i
                 = Some (if String.eqb (Upload.id f) (Upload.id file)
                         then u f else f)).
    { rewrite Hfiles, updateFile_lookup, Hi. reflexivity. }
    destruct (IHent _ _ H1) as (f' & Hf' & Hid & Hfile & Hin & Hout).
    assert (Hid1 : Upload.id (if String.eqb (Upload.id f) (Upload.id file)
                              then u f else f) = Upload.id f).
    { destruct (String.eqb _ _); [apply Hu | reflexivity]. }
    assert (Hfile1 : Upload.file (if String.eqb (Upload.id f) (Upload.id file)
                                  then u f else f) = Upload.file f).
    { destruct (String.eqb _ _); [apply Hu | reflexivity]. }
    rewrite Hid1 in *. rewrite Hfile1 in *.
    exists f'. split; [exact Hf'|]. split; [exact Hid|]. split; [exact Hfile|].
    cbn [map snd]. split.
    + intros Hmem.
      destruct (decide (Upload.id f ∈ map (fun wf : Upload.World * Upload.UploadedFile =>
                                             Upload.id (snd wf)) rest))
        as [Hrest|Hrest]; [now apply Hin|].
      apply elem_of_cons in Hmem as [Heq|Hmem]; [|contradiction].
      rewrite (Hout Hrest). apply String.eqb_eq in Heq. rewrite Heq.
      apply Hu.
    + intros Hmem. apply not_elem_of_cons in Hmem as [Hne Hrest].
      rewrite (Hout Hrest). apply String.eqb_neq in Hne. now rewrite Hne.
Qed.

(** X9: [processAllFiles] never throws and ends with [isProcessing]
    false; it keeps every entry in its place with its identifier and file;
    every entry that was pending ends [completed] or [error]; an entry that
    was not pending and shares its identifier with no pending entry is left
    exactly as it was. *)
Theorem processAllFiles_settles (worlds : nat -> Upload.World)
    (p : UploadPage.PageState) :
  let files := Upload.uploadedFiles (UploadPage.state p) in
  let p' := fst (UploadPage.processAllFiles worlds p) in
  let files' := Upload.uploadedFiles (UploadPage.state p') in
  snd (UploadPage.processAllFiles worlds p) = Normal tt /\
  UploadPage.isProcessing p' = false /\
  length files' = length files /\
  forall i f, files !! i = Some f ->
    exists f',
      files' !! i = Some f' /\
      Upload.id f' = Upload.id f /\
      Upload.file f' = Upload.file f /\
      (Upload.status f = Upload.pending ->
       Upload.status f' = Upload.completed \/ Upload.status f' = Upload.error) /\
      ((forall g, g ∈ files -> Upload.status g = Upload.pending ->
                  Upload.id g <> Upload.id f) -> f' = f).
Proof.
  intros files p' files'. subst files p' files'.
  unfold UploadPage.processAllFiles.
  set (pendingFiles := filter _ _).
  set (todo := imap _ pendingFiles).
  assert (Hids : map (fun wf : Upload.World * Upload.UploadedFile =>
                        Upload.id (snd wf)) todo
                 = map Upload.id pendingFiles).
  { subst todo. generalize worlds. clear.
    induction pendingFiles as [|x l IH]; intros worlds; [reflexivity|].
    cbn. f_equal. apply (IH (fun i => worlds (S i))). }
  destruct (processEach_entries todo (UploadPage.state p))
    as (Hn & Hlen & Hent).
  destruct (UploadPage.processEach todo (UploadPage.state p)) as [s' c].
  cbn [fst snd] in *. subst c. cbn [fst snd UploadPage.state
                                   UploadPage.isProcessing].
  split; [reflexivity|]. split; [reflexivity|]. split; [exact Hlen|].
  intros i f Hi.
  destruct (Hent i f Hi) as (f' & Hf' & Hid & Hfile & Hin & Hout).
  exists f'. split; [exact Hf'|]. split; [exact Hid|]. split; [exact Hfile|].
  rewrite Hids in Hin, Hout. split.
  - intros Hpending. apply Hin.
    apply list_elem_of_fmap. exists f. split; [reflexivity|].
    subst pendingFiles. apply list_elem_of_filter. split.
    + unfold UploadPage.isPending. now rewrite Hpending.
    + eapply list_elem_of_lookup_2, Hi.
  - intros Hnone. apply Hout. intros Hmem.
    apply list_elem_of_fmap in Hmem as (g & Hg & Hgin).
    subst pendingFiles. apply list_elem_of_filter in Hgin as [Hgp Hgin].
    apply (Hnone g Hgin); [|now symmetry].
    unfold UploadPage.isPending in Hgp.
    destruct (Upload.status g); congruence.
Qed.

(** X10: dropping files adds one pending entry per file at the end of the
    list, in the order dropped and at 0 %, and leaves the earlier entries
    alone; removing by identifier deletes exactly the entries with that
    identifier and keeps the order of the others, so that removing a file
    just dropped under a fresh identifier gives the earlier list back. *)
Theorem onDrop_removeFile (accepted : list (Upload.File * string))
    (prev : list Upload.UploadedFile) :
  (exists added,
     UploadPage.onDrop accepted prev = (prev ++ added)%list /\
     map Upload.file added = map fst accepted /\
     map Upload.id added = map snd accepted /\
     Forall (fun f => Upload.status f = Upload.pending /\
                      Upload.progress f = 0%nat) added) /\
  (forall fid f, f ∈ UploadPage.removeFile fid prev <->
                 f ∈ prev /\ Upload.id f <> fid) /\
  (forall fid, UploadPage.removeFile fid prev `sublist_of` prev) /\
  (forall file fid,
     (forall f, f ∈ prev -> Upload.id f <> fid) ->
     UploadPage.removeFile fid (UploadPage.onDrop [(file, fid)] prev) = prev).
Proof.
  split; [|split; [|split]].
  - eexists. split; [reflexivity|].
    rewrite !map_map. repeat split.
    + apply map_ext. now intros [file fid].
    + apply map_ext. now intros [file fid].
    + apply Forall_forall. intros f Hf.
      apply list_elem_of_fmap in Hf as ([file fid] & -> & _). now split.
  - intros fid f. unfold UploadPage.removeFile.
    rewrite list_elem_of_filter. tauto.
  - intros fid. apply sublist_filter.
  - intros file fid Hfresh. unfold UploadPage.removeFile, UploadPage.onDrop.
    rewrite filter_app. cbn [map].
    rewrite filter_cons_False by (cbn; tauto).
    rewrite filter_nil, app_nil_r.
    induction prev as [|x l IH]; [reflexivity|].
    rewrite filter_cons_True by (apply Hfresh; now left).
    f_equal. apply IH. intros f Hf. apply Hfresh. now right.
Qed.

(** *** What the upload stores and what the other pages read back *)

Lemma isCbam_recordFields (recordId documentId user createdAt : string)
    (record : Upload.TradeRecord) :
  Dashboard.isCbam
    (Upload.recordFields recordId documentId user createdAt record)
  = Upload.isCbamRelevant record.
Proof.
  unfold Dashboard.isCbam, Upload.recordFields.
  cbn [Store.TradeRecords.isCbamRelevant].
  destruct (Upload.isCbamRelevant record); reflexivity.
Qed.

(** X11: a record goes through the store unharmed.  The dashboard's test
    [Number(isCbamRelevant) > 0] on the stored row gives back the
    classifier's verdict; the analysis page reads back the classifier's
    category, or "unknown" when there is none, together with the country
    and the value of the mapped record; and a stored row without category
    is never rated high. *)
Theorem stored_record_round_trip (r : row) (record : Upload.TradeRecord)
    (recordId documentId user createdAt : string) :
  Upload.mapRow r = Normal record ->
  let stored :=
    Upload.recordFields recordId documentId user createdAt record in
  let scored := Analysis.processRecord stored in
  Dashboard.isCbam stored = Upload.isCbamRelevant record /\
  Analysis.cbamaCategory scored
  = match Upload.cbamaCategory record with
    | Some cat => cat
    | None => "unknown"
    end /\
  Analysis.originCountry scored = Upload.rowOriginCountry r /\
  Analysis.value scored = Upload.rowValue r /\
  Analysis.quantity scored = Upload.rowQuantity r /\
  (Upload.isCbamRelevant record = false ->
   Analysis.riskLevel scored <> Analysis.high).
Proof.
  intros Hmap stored scored. subst stored scored.
  split; [apply isCbam_recordFields|].
  destruct relevance_category_invariant_aux with (r := r) (record := record)
    as (Hrel & Hname & Hnull); [exact Hmap|].
  apply mapRow_fields in Hmap as (_ & _ & Hc & Hq & _ & Hv & _).
  unfold Analysis.processRecord, Upload.recordFields.
  cbn [Store.TradeRecords.cbamaCategory Store.TradeRecords.originCountry
       Store.TradeRecords.value Store.TradeRecords.quantity
       Analysis.cbamaCategory Analysis.originCountry Analysis.value
       Analysis.quantity Analysis.riskLevel].
  rewrite Hnull.
  split; [|split; [exact Hc | split; [exact Hv | split; [exact Hq|]]]].
  - destruct (Upload.cbamaCategory record) as [cat|] eqn:Hcat; [|reflexivity].
    destruct (String.eqb cat "") eqn:E; [|reflexivity].
    apply String.eqb_eq in E. subst cat. rewrite <- Hcat in Hnull.
    rewrite Hcat in Hnull. discriminate Hnull.
  - intros Hirr.
    destruct (Upload.cbamaCategory record) as [cat|] eqn:Hcat.
    + assert (Upload.isCbamRelevant record = true) by (apply Hrel; eauto).
      congruence.
    + unfold Analysis.calculateRiskLevel.
      change (JS.Array_includes Analysis.highRiskCategories
                (JS.VString "unknown")) with false.
      rewrite Bool.andb_false_r.
      destruct (_ || _)%bool; [discriminate|].
      destruct (JS.Array_includes Analysis.mediumRiskCountries _);
        discriminate.
Qed.

Lemma stored_record_round_trip_witness :
  exists record,
    Upload.mapRow steelPipeRow = Normal record /\
    Dashboard.isCbam (Upload.recordFields "rec_1" "doc_1" "user1" "t" record)
    = true /\
    Analysis.cbamaCategory
      (Analysis.processRecord
         (Upload.recordFields "rec_1" "doc_1" "user1" "t" record)) = "steel".
Proof.
  destruct (Upload.mapRow steelPipeRow) as [record|e] eqn:Hmap;
    [|vm_compute in Hmap; discriminate].
  exists record. split; [reflexivity|].
  destruct (stored_record_round_trip steelPipeRow record
              "rec_1" "doc_1" "user1" "t" Hmap) as (Hc & Hcat & _).
  vm_compute in Hmap. injection Hmap as <-.
  split; [exact Hc | exact Hcat].
Defined.

Lemma filter_imap_all {A B} (P : B -> Prop) `{!forall x, Decision (P x)}
    (f : nat -> A -> B) (l : list A) :
  (forall j x, P (f j x)) -> filter P (imap f l) = imap f l.
Proof.
  revert f. induction l as [|x l IH]; intros f Hall; [reflexivity|].
  cbn [imap]. rewrite filter_cons_True by apply Hall.
  f_equal. apply IH. intros j y. apply Hall.
Qed.

Lemma filter_imap_length {A B} (P : B -> Prop) (Q : A -> Prop)
    `{!forall x, Decision (P x)} `{!forall x, Decision (Q x)}
    (f : nat -> A -> B) (l : list A) :
  (forall j x, P (f j x) <-> Q x) ->
  length (filter P (imap f l)) = length (filter Q l).
Proof.
  revert f. induction l as [|x l IH]; intros f Hiff; [reflexivity|].
  cbn [imap]. rewrite !filter_cons.
  destruct (Hiff 0%nat x) as [H1 H2].
  destruct (decide (P (f 0%nat x))) as [HP|HP],
           (decide (Q x)) as [HQ|HQ]; try tauto;
    cbn [length]; [f_equal|]; apply IH; intros j y; apply Hiff.
Qed.

Lemma filter_none {A} (P : A -> Prop) `{!forall x, Decision (P x)}
    (l : list A) :
  (forall x, x ∈ l -> ~ P x) -> filter P l = [].
Proof.
  induction l as [|x l IH]; intros Hno; [reflexivity|].
  rewrite filter_cons_False by (apply Hno; now left).
  apply IH. intros y Hy. apply Hno. now right.
Qed.

(** X12: after a successful [processFile] under a document identifier no
    stored record refers to yet, the counts written on the document agree
    with the rows of the store: [totalRecords] is the number of stored
    records of the document, [cbamaRecords] the number of them the
    dashboard counts as CBAM relevant, and the document is stored as
    "completed". *)
Theorem document_counts_match_rows (w : Upload.World)
    (fileData : Upload.UploadedFile) (s : Upload.State)
    (recs : list Upload.TradeRecord) (user : string) :
  Upload.processExcelFile (Upload.decoded (Upload.file fileData)) = Normal recs ->
  Upload.me w = Normal user ->
  (forall j, (j <= S (length recs))%nat ->
             Upload.writeOutcome w (Store.writes (Upload.db s) + j) = None) ->
  (forall r, r ∈ Store.tradeRecords (Upload.db s) ->
             Store.TradeRecords.documentId r <> Upload.newDocumentId w) ->
  let s' := fst (Upload.processFile w fileData s) in
  let rows :=
    filter (fun r => Store.TradeRecords.documentId r = Upload.newDocumentId w)
           (Store.tradeRecords (Upload.db s')) in
  exists doc,
    doc ∈ Store.tradeDocuments (Upload.db s') /\
    Store.TradeDocuments.id doc = Upload.newDocumentId w /\
    Store.TradeDocuments.status doc = "completed" /\
    Store.TradeDocuments.filename doc = Upload.name (Upload.file fileData) /\
    Dashboard.calculateStats rows
    = {| Dashboard.totalRecords := Store.TradeDocuments.totalRecords doc;
         Dashboard.cbamaRecords := Store.TradeDocuments.cbamaRecords doc |}.
Proof.
  intros Hparse Hme Hall Hfresh s' rows. subst rows s'.
  unfold Upload.processFile, Upload.tryCatch.
  rewrite (attempt_success w fileData s recs user Hparse Hme Hall).
  cbn [fst Upload.db Store.tradeDocuments Store.tradeRecords].
  set (doc := Upload.documentFields _ _ _ _ _).
  exists (Store.TradeDocuments.withStatus "completed" doc).
  split; [|split; [reflexivity | split; [reflexivity | split; [reflexivity|]]]].
  - apply list_elem_of_fmap. exists doc. split.
    + subst doc. cbn [Upload.documentFields Store.TradeDocuments.id].
      now rewrite String.eqb_refl.
    + apply elem_of_app. right. now left.
  - rewrite filter_app, (filter_none _ _ Hfresh), app_nil_l.
    rewrite filter_imap_all by reflexivity.
    unfold Dashboard.calculateStats. f_equal.
    + now rewrite length_imap.
    + cbn [Store.TradeDocuments.withStatus Store.TradeDocuments.cbamaRecords
           doc Upload.documentFields]. unfold Upload.countCbam.
      apply filter_imap_length. intros j x.
      now rewrite isCbam_recordFields.
Qed.

Lemma document_counts_match_rows_witness :
  let w := {| Upload.me := Normal "user1";
              Upload.newDocumentId := "doc_1";
              Upload.newRecordId := fun _ => "rec_1";
              Upload.now := fun _ => "2024-01-01T00:00:00.000Z";
              Upload.writeOutcome := fun _ => None |} in
  let s' := fst (Upload.processFile w twoRowFile (emptyState [twoRowFile])) in
  exists doc,
    doc ∈ Store.tradeDocuments (Upload.db s') /\
    Store.TradeDocuments.status doc = "completed" /\
    Dashboard.calculateStats
      (filter (fun r => Store.TradeRecords.documentId r = "doc_1")
              (Store.tradeRecords (Upload.db s')))
    = {| Dashboard.totalRecords := Store.TradeDocuments.totalRecords doc;
         Dashboard.cbamaRecords := Store.TradeDocuments.cbamaRecords doc |}.
Proof.
  intros w s'.
  destruct (document_counts_match_rows w twoRowFile (emptyState [twoRowFile])
              (match Upload.mapRows [steelPipeRow; steelPipeRow] with
               | Normal l => l
               | Throw _ => []
               end) "user1")
    as (doc & Hin & _ & Hst & _ & Hstats).
  - vm_compute. reflexivity.
  - reflexivity.
  - intros j _. reflexivity.
  - intros r Hr. cbn in Hr. now apply elem_of_nil in Hr.
  - exists doc. split; [exact Hin|]. split; [exact Hst | exact Hstats].
Defined.

(* ===================================================================== *)
(** ** Further properties of the analysis page *)
(* ===================================================================== *)

(** *** The compliance score of a non-negative trade value *)

Lemma baseScore_Fin (riskLevel : string) :
  exists b, Analysis.baseScore riskLevel = JS.Fin b /\
            (b == 40 \/ b == 70 \/ b == 85)%Q.
Proof.
  destruct (baseScore_cases riskLevel) as [-> | [-> | ->]];
    eexists; (split; [reflexivity|]); intuition reflexivity.
Qed.

(** The value adjustment of a finite non-negative value: exactly
    [min (v / 100000) 15]. *)
Lemma valueAdjustment_exact (q : Q) :
  exists a, JS.Math_min (JS.div (JS.Fin q) (JS.num 100000)) (JS.num 15)
            = JS.Fin a /\ (a == Qmin (q / 100000) 15)%Q.
Proof.
  unfold JS.num. cbn [JS.div].
  replace (Qeq_bool (inject_Z 100000) 0) with false by reflexivity.
  cbn [JS.Math_min].
  destruct (JS.ltb (JS.Fin (inject_Z 15)) (JS.Fin (Qred (q / inject_Z 100000))))
    eqn:E; q_props; rewrite Qred_correct in E; eexists; (split; [reflexivity|]).
  - rewrite Q.min_r; [reflexivity | now apply Qlt_le_weak].
  - rewrite Q.min_l; [apply Qred_correct | exact E].
Qed.

(** X13: for a finite trade value that is not negative the clamp of
    [calculateComplianceScore] never acts: the score is exactly
    [base - min (value / 100000) 15], with base 40, 70 or 85. *)
Theorem complianceScore_exact (riskLevel : string) (q : Q) :
  (0 <= q)%Q ->
  exists b s,
    Analysis.baseScore riskLevel = JS.Fin b /\
    Analysis.calculateComplianceScore riskLevel (JS.Fin q) = JS.Fin s /\
    (s == b - Qmin (q / 100000) 15)%Q.
Proof.
  intros Hq.
  destruct (baseScore_Fin riskLevel) as (b & Hb & Hcases).
  destruct (valueAdjustment_exact q) as (a & Ha & Haq).
  exists b. unfold Analysis.calculateComplianceScore. rewrite Hb, Ha.
  assert (H0 : (0 <= a)%Q).
  { rewrite Haq. apply Q.min_glb; [|lra].
    unfold Qdiv. apply Qmult_le_0_compat; [exact Hq|].
    apply Qlt_le_weak, Qinv_lt_0_compat. reflexivity. }
  assert (H15 : (a <= 15)%Q) by (rewrite Haq; apply Q.le_min_r).
  unfold JS.num. cbn [JS.sub JS.neg JS.add].
  set (x := Qred (b + Qred (- a))).
  assert (Hx : (x == b - a)%Q).
  { subst x. rewrite !Qred_correct. reflexivity. }
  assert (Hlt : JS.ltb (JS.Fin x) (JS.Fin (inject_Z 100)) = true).
  { apply ltb_Fin. rewrite Hx. change (inject_Z 100) with 100%Q.
    destruct Hcases as [-> | [-> | ->]]; lra. }
  assert (Hgt : JS.ltb (JS.Fin (inject_Z 0)) (JS.Fin x) = true).
  { apply ltb_Fin. rewrite Hx. change (inject_Z 0) with 0%Q.
    destruct Hcases as [-> | [-> | ->]]; lra. }
  cbn [JS.Math_min]. rewrite Hlt. cbn [JS.Math_max]. rewrite Hgt.
  exists x. repeat split. rewrite Hx, Haq. reflexivity.
Qed.

Lemma complianceScore_exact_witness :
  (0 <= 250000)%Q /\
  exists b s,
    Analysis.baseScore "medium" = JS.Fin b /\
    Analysis.calculateComplianceScore "medium" (JS.Fin 250000) = JS.Fin s /\
    (s == b - Qmin (250000 / 100000) 15)%Q.
Proof.
  assert (H : (0 <= 250000)%Q) by (unfold Qle; simpl; lia).
  split; [exact H | exact (complianceScore_exact "medium" 250000 H)].
Defined.

(** The score of a non-negative value (finite or infinite) lies between
    [base - 15] and [base]. *)
Lemma complianceScore_band (riskLevel : string) (value : JS.number) :
  JS.leb (JS.num 0) value = true ->
  JS.leb (JS.sub (Analysis.baseScore riskLevel) (JS.num 15))
         (Analysis.calculateComplianceScore riskLevel value) = true /\
  JS.leb (Analysis.calculateComplianceScore riskLevel value)
         (Analysis.baseScore riskLevel) = true.
Proof.
  intros Hv. unfold Analysis.calculateComplianceScore.
  assert (Hv' : JS.isNaN value = false) by now apply leb_not_NaN in Hv.
  assert (Hlo : JS.leb (JS.num 0)
                  (JS.Math_min (JS.div value (JS.num 100000)) (JS.num 15))
                = true).
  { change (JS.num 0)
      with (JS.Math_min (JS.div (JS.num 0) (JS.num 100000)) (JS.num 15)).
    apply Math_min_mono_l; [reflexivity|].
    apply div_mono_pos; [reflexivity | exact Hv]. }
  pose proof (valueAdjustment_le_15 value Hv') as Hhi.
  destruct (baseScore_cases riskLevel) as [-> | [-> | ->]].
  all: split;
    [ match goal with |- JS.leb ?lo _ = true =>
        change lo with (JS.Math_max (JS.num 0) (JS.Math_min (JS.num 100) lo))
      end
    | match goal with |- JS.leb _ ?hi = true =>
        change hi
          with (JS.Math_max (JS.num 0)
                  (JS.Math_min (JS.num 100) (JS.sub hi (JS.num 0))))
      end ];
    (apply Math_max_mono_r; [reflexivity|]);
    (apply Math_min_mono_r; [reflexivity|]);
    apply sub_anti; assumption.
Qed.

(** X14: among non-negative trade values the risk level dominates the
    value: a high-risk record scores between 25 and 40, a medium-risk
    record between 55 and 70, a low-risk record between 70 and 85; so a
    high-risk record always scores strictly below a medium-risk one, and
    a medium-risk record never above a low-risk one, whatever their
    values. *)
Theorem risk_level_dominates_value (v1 v2 : JS.number) :
  JS.leb (JS.num 0) v1 = true ->
  JS.leb (JS.num 0) v2 = true ->
  JS.leb (JS.num 25) (Analysis.calculateComplianceScore "high" v1) = true /\
  JS.leb (Analysis.calculateComplianceScore "high" v1) (JS.num 40) = true /\
  JS.leb (JS.num 55) (Analysis.calculateComplianceScore "medium" v1) = true /\
  JS.leb (Analysis.calculateComplianceScore "medium" v1) (JS.num 70) = true /\
  JS.leb (JS.num 70) (Analysis.calculateComplianceScore "low" v1) = true /\
  JS.leb (Analysis.calculateComplianceScore "low" v1) (JS.num 85) = true /\
  JS.ltb (Analysis.calculateComplianceScore "high" v1)
         (Analysis.calculateComplianceScore "medium" v2) = true /\
  JS.leb (Analysis.calculateComplianceScore "medium" v1)
         (Analysis.calculateComplianceScore "low" v2) = true.
Proof.
  intros H1 H2.
  destruct (complianceScore_band "high" v1 H1) as [Hh1 Hh2].
  destruct (complianceScore_band "medium" v1 H1) as [Hm1 Hm2].
  destruct (complianceScore_band "low" v1 H1) as [Hl1 Hl2].
  destruct (complianceScore_band "medium" v2 H2) as [Hm1' _].
  destruct (complianceScore_band "low" v2 H2) as [Hl1' _].
  repeat split; try assumption.
  - revert Hh2 Hm1'.
    change (Analysis.baseScore "high") with (JS.num 40).
    change (JS.sub (Analysis.baseScore "medium") (JS.num 15)) with (JS.num 55).
    destruct (Analysis.calculateComplianceScore "high" v1),
             (Analysis.calculateComplianceScore "medium" v2);
      intros A B; try discriminate; try reflexivity.
    unfold JS.num in A, B. q_props. apply ltb_Fin.
    change (inject_Z 40) with 40%Q in A.
    change (inject_Z 55) with 55%Q in B. lra.
  - eapply leb_trans; [exact Hm2|]. exact Hl1'.
Qed.

Lemma risk_level_dominates_value_witness :
  JS.leb (JS.num 0) (JS.num 0) = true /\
  JS.leb (JS.num 0) JS.PosInf = true /\
  JS.ltb (Analysis.calculateComplianceScore "high" (JS.num 0))
         (Analysis.calculateComplianceScore "medium" JS.PosInf) = true.
Proof.
  split; [reflexivity|]. split; [reflexivity|].
  apply (risk_level_dominates_value (JS.num 0) JS.PosInf); reflexivity.
Defined.

(** *** Percentages are whole numbers between 0 and 100 *)

Lemma percent_whole (a t : Q) :
  (0 <= a)%Q -> (a <= t)%Q -> (0 < t)%Q ->
  exists z, JS.Math_round (JS.mul (JS.div (JS.Fin a) (JS.Fin t)) (JS.num 100))
            = JS.num z /\ (0 <= z <= 100)%Z.
Proof.
  intros H0 Hle Ht.
  assert (Hz : Qeq_bool t 0 = false).
  { apply Bool.not_true_iff_false. rewrite Qeq_bool_iff. lra. }
  unfold JS.num. cbn [JS.div]. rewrite Hz. cbn [JS.mul JS.Math_round].
  eexists. split; [reflexivity|].
  set (q := Qred (Qred (a / t) * inject_Z 100)).
  assert (Hq : (q == a / t * 100)%Q).
  { subst q. rewrite !Qred_correct. reflexivity. }
  assert (Hfrac0 : (0 <= a / t)%Q).
  { unfold Qdiv. apply Qmult_le_0_compat; [exact H0|].
    apply Qlt_le_weak, Qinv_lt_0_compat, Ht. }
  assert (Hfrac1 : (a / t <= 1)%Q).
  { apply Qle_shift_div_r; [exact Ht | lra]. }
  split.
  - change 0%Z with (Qfloor 0). apply Qfloor_resp_le. rewrite Hq. lra.
  - change 100%Z with (Qfloor (100 + (1 # 2))). apply Qfloor_resp_le.
    rewrite Hq. lra.
Qed.

Lemma ofNat_le (c t : nat) :
  (c <= t)%nat -> (inject_Z (Z.of_nat c) <= inject_Z (Z.of_nat t))%Q.
Proof. intros H. rewrite <- Zle_Qle. lia. Qed.

Lemma guardedPercent_whole (count total : nat) :
  (count <= total)%nat ->
  exists z, guardedPercent count total = JS.num z /\ (0 <= z <= 100)%Z.
Proof.
  intros Hle. unfold guardedPercent. rewrite gtb_ofNat.
  destruct total as [|n]; [exists 0%Z; split; [reflexivity | lia]|].
  unfold JS.ofNat. apply percent_whole.
  - change 0%Q with (inject_Z (Z.of_nat 0)). apply ofNat_le. lia.
  - now apply ofNat_le.
  - change 0%Q with (inject_Z 0). rewrite <- Zlt_Qlt. lia.
Qed.

(** X15: over any record collection the percentages the pages compute are
    whole numbers between 0 and 100: the dashboard's CBAM share, the
    analysis page's high-risk share, and the overview's CBAM share and
    compliance percentage. *)
Theorem percentages_between_0_and_100
    (cbamCategory : Store.TradeRecords.t -> option string)
    (records : list Store.TradeRecords.t) :
  let whole (p : JS.number) := exists z, p = JS.num z /\ (0 <= z <= 100)%Z in
  whole (Dashboard.cbamPercent (Dashboard.calculateStats records)) /\
  whole (Analysis.highRiskPercent (Analysis.calculateStats records)) /\
  whole (Overview.cbamPercent (Overview.calculateStats cbamCategory records)) /\
  whole (Overview.complianceScore
           (Overview.calculateStats cbamCategory records)).
Proof.
  cbn zeta. split; [|split; [|split]].
  - change (Dashboard.cbamPercent (Dashboard.calculateStats records))
      with (guardedPercent
              (length (filter (fun r => Dashboard.isCbam r = true) records))
              (length records)).
    apply guardedPercent_whole, length_filter.
  - change (Analysis.highRiskPercent (Analysis.calculateStats records))
      with (guardedPercent
              (length (filter (fun r => Analysis.isHigh r = true)
                              (map Analysis.processRecord records)))
              (length (map Analysis.processRecord records))).
    apply guardedPercent_whole, length_filter.
  - change (Overview.cbamPercent (Overview.calculateStats cbamCategory records))
      with (guardedPercent
              (length (filter (fun r => Dashboard.isCbam r = true) records))
              (length records)).
    apply guardedPercent_whole, length_filter.
  - unfold Overview.complianceScore, Overview.calculateStats.
    cbn [Overview.totalRecords Overview.cbamRelevant].
    rewrite gtb_ofNat.
    pose proof (length_filter (fun r => Dashboard.isCbam r = true) records)
      as Hle.
    set (c := length (filter _ records)) in *.
    destruct (length records) as [|n] eqn:Hn;
      [exists 100%Z; split; [reflexivity | lia]|].
    unfold JS.ofNat. cbn [JS.sub JS.neg JS.add].
    apply ofNat_le in Hle.
    assert (Hc0 : (0 <= inject_Z (Z.of_nat c))%Q).
    { change 0%Q with (inject_Z (Z.of_nat 0)). apply ofNat_le. lia. }
    apply percent_whole; rewrite ?Qred_correct.
    + lra.
    + lra.
    + change 0%Q with (inject_Z 0). rewrite <- Zlt_Qlt. lia.
Qed.

(** *** The statistics of the analysis page *)

(** The score of a value that is a number is a finite number between 0 and
    100; the score of NaN is NaN. *)
Lemma score_finite (riskLevel : string) (value : JS.number) :
  JS.isNaN value = false ->
  exists q, Analysis.calculateComplianceScore riskLevel value = JS.Fin q /\
            (0 <= q <= 100)%Q.
Proof.
  intros Hv. unfold Analysis.calculateComplianceScore.
  pose proof (valueAdjustment_le_15 value Hv) as Hadj.
  apply leb_not_NaN in Hadj as [Hadj _].
  set (adj := JS.Math_min _ (JS.num 15)) in *.
  assert (Hx : JS.isNaN (JS.sub (Analysis.baseScore riskLevel) adj) = false).
  { destruct (baseScore_cases riskLevel) as [-> | [-> | ->]];
      now apply sub_not_NaN. }
  pose proof (Math_min_upper_l (JS.num 100) _ eq_refl Hx) as Hup.
  assert (Hlo : JS.leb (JS.num 0)
                  (JS.Math_max (JS.num 0)
                     (JS.Math_min (JS.num 100)
                        (JS.sub (Analysis.baseScore riskLevel) adj))) = true).
  { apply Math_max_lower; [reflexivity|]. now apply leb_not_NaN in Hup. }
  assert (Hhi : JS.leb (JS.Math_max (JS.num 0)
                          (JS.Math_min (JS.num 100)
                             (JS.sub (Analysis.baseScore riskLevel) adj)))
                       (JS.num 100) = true).
  { apply Math_max_upper; [reflexivity | exact Hup]. }
  destruct (JS.Math_max _ _) as [| |q|]; try discriminate.
  exists q. split; [reflexivity|].
  unfold JS.num in Hlo, Hhi. q_props.
  change (inject_Z 0) with 0%Q in Hlo. change (inject_Z 100) with 100%Q in Hhi.
  lra.
Qed.

Lemma score_NaN (riskLevel : string) :
  Analysis.calculateComplianceScore riskLevel JS.NaN = JS.NaN.
Proof.
  unfold Analysis.calculateComplianceScore.
  destruct (baseScore_cases riskLevel) as [-> | [-> | ->]]; reflexivity.
Qed.

Lemma add_NaN_l (x : JS.number) : JS.add JS.NaN x = JS.NaN.
Proof. reflexivity. Qed.

Lemma foldl_add_NaN (l : list Analysis.CBAMRecord) :
  foldl (fun sum r => JS.add sum (Analysis.complianceScore r)) JS.NaN l
  = JS.NaN.
Proof. induction l as [|x l IH]; [reflexivity | exact IH]. Qed.

(** The sum of the scores: finite and within [0, 100 * n] on top of the
    start value when every value is a number, NaN as soon as one value is
    NaN. *)
Lemma sum_scores (records : list Store.TradeRecords.t) :
  forall a : Q,
    (Forall (fun r => JS.isNaN (Store.TradeRecords.value r) = false) records ->
     exists s,
       foldl (fun sum r => JS.add sum (Analysis.complianceScore r))
             (JS.Fin a) (map Analysis.processRecord records) = JS.Fin s /\
       (a <= s <= a + 100 * inject_Z (Z.of_nat (length records)))%Q) /\
    (Exists (fun r => JS.isNaN (Store.TradeRecords.value r) = true) records ->
     foldl (fun sum r => JS.add sum (Analysis.complianceScore r))
           (JS.Fin a) (map Analysis.processRecord records) = JS.NaN).
Proof.
  induction records as [|r rest IH]; intros a.
  - split.
    + intros _. exists a. split; [reflexivity|].
      change (inject_Z (Z.of_nat (length (@nil Store.TradeRecords.t))))
        with 0%Q. lra.
    + intros H. inversion H.
  - cbn [map foldl].
    unfold Analysis.processRecord at 1 3. cbn [Analysis.complianceScore].
    set (level := Analysis.riskString _).
    destruct (JS.isNaN (Store.TradeRecords.value r)) eqn:Hr.
    + assert (Hval : Store.TradeRecords.value r = JS.NaN).
      { destruct (Store.TradeRecords.value r); try discriminate; reflexivity. }
      rewrite Hval, score_NaN. cbn [JS.add]. split.
      * intros H. apply Forall_cons in H as [H _]. congruence.
      * intros _. apply foldl_add_NaN.
    + destruct (score_finite level _ Hr) as (q & -> & Hq).
      cbn [JS.add]. destruct (IH (Qred (a + q))) as [IHfin IHnan]. split.
      * intros H. apply Forall_cons in H as [_ H].
        destruct (IHfin H) as (s & -> & Hs). exists s. split; [reflexivity|].
        rewrite Qred_correct in Hs. cbn [length].
        rewrite Nat2Z.inj_succ, <- Z.add_1_r, inject_Z_plus.
        change (inject_Z 1) with 1%Q. lra.
      * intros H. apply Exists_cons in H as [H|H]; [congruence|].
        now apply IHnan.
Qed.

(** X16: the average compliance score of the analysis page is 0 for an
    empty collection; it is a finite number between 0 and 100 when every
    listed value is a number; and a single NaN value makes the average
    NaN. *)
Theorem averageComplianceScore_range (records : list Store.TradeRecords.t) :
  let average :=
    Analysis.averageComplianceScore (Analysis.calculateStats records) in
  (records = [] -> average = JS.num 0) /\
  (Forall (fun r => JS.isNaN (Store.TradeRecords.value r) = false) records ->
   exists q, average = JS.Fin q /\ (0 <= q <= 100)%Q) /\
  (Exists (fun r => JS.isNaN (Store.TradeRecords.value r) = true) records ->
   average = JS.NaN).
Proof.
  cbn zeta. unfold Analysis.calculateStats.
  cbn [Analysis.averageComplianceScore].
  rewrite gtb_ofNat, length_map.
  split; [intros ->; reflexivity|].
  destruct (sum_scores records (inject_Z 0)) as [Hfin Hnan].
  change (inject_Z 0) with 0%Q in Hfin at 2 3.
  destruct records as [|r rest] eqn:Hrec.
  { split; [intros _; exists 0%Q; split; [reflexivity | lra]|].
    intros H. inversion H. }
  rewrite <- Hrec in *. unfold JS.num.
  assert (Hlen : length records = S (length rest)) by now rewrite Hrec.
  rewrite Hlen. split.
  - intros Hall. destruct (Hfin Hall) as (s & -> & Hs).
    rewrite Hlen in Hs.
    set (t := inject_Z (Z.of_nat (S (length rest)))) in *.
    assert (Ht : (0 < t)%Q).
    { subst t. change 0%Q with (inject_Z 0). rewrite <- Zlt_Qlt. lia. }
    unfold JS.ofNat. fold t. cbn [JS.div].
    assert (Hz : Qeq_bool t 0 = false).
    { apply Bool.not_true_iff_false. rewrite Qeq_bool_iff. lra. }
    rewrite Hz. eexists. split; [reflexivity|]. rewrite Qred_correct.
    split.
    + unfold Qdiv. apply Qmult_le_0_compat; [lra|].
      apply Qlt_le_weak, Qinv_lt_0_compat, Ht.
    + apply Qle_shift_div_r; [exact Ht | lra].
  - intros Hex. rewrite (Hnan Hex). reflexivity.
Qed.

(** *** The category breakdown *)

Lemma textAfter_head (name : string) (n : nat) :
  exists rest, textAfter name n = String "f" rest.
Proof.
  induction n as [|k [rest IH]].
  - exists ("unction " ++ name ++ "() { [native code] }"). reflexivity.
  - exists (rest ++ "1"). cbn [textAfter]. rewrite IH. reflexivity.
Qed.

(** The text under an inherited method name is not the text of a
    number. *)
Lemma Number_textAfter (name : string) (n : nat) :
  JS.Number (JS.VString (textAfter name n)) = JS.NaN.
Proof.
  destruct (textAfter_head name n) as [rest ->]. reflexivity.
Qed.

(** X17: the category breakdowns of the analysis page and of the overview
    page are tallies in a plain object.  Under a category name that is not
    a property such an object inherits, the entry is the number of listed
    records of that category (for the overview, of CBAM-relevant records),
    there is no entry when there is none, and the percentage the analysis
    page shows with it is a whole number between 0 and 100.  Under the name
    of an inherited method ("constructor", "toString", ...) the entry is a
    text, the source of the method followed by a "1" per record, and the
    percentage shown is NaN; under "__proto__" there is never an entry. *)
Theorem category_breakdown_counts
    (cbamCategory : Store.TradeRecords.t -> option string)
    (records : list Store.TradeRecords.t) (c : string) :
  let stats := Analysis.calculateStats records in
  let overview := Overview.calculateStats cbamCategory records in
  let n := length (filter (fun r => Analysis.cbamaCategory r = c)
                          (map Analysis.processRecord records)) in
  let cbamRecords := filter (fun r => Dashboard.isCbam r = true) records in
  let k := length (filter (fun r => Overview.categoryKey cbamCategory r = c)
                          cbamRecords) in
  (ordinaryKey c ->
   Analysis.categoriesBreakdown stats !! c
   = (if decide (n = 0%nat) then None
      else Some (JS.VNumber (JS.ofNat n))) /\
   Overview.categories overview !! c
   = (if decide (k = 0%nat) then None
      else Some (JS.VNumber (JS.ofNat k))) /\
   (n <= Analysis.totalRecords stats)%nat /\
   (k <= Overview.cbamRelevant overview)%nat /\
   exists z, Analysis.categoryPercent stats (JS.VNumber (JS.ofNat n))
             = JS.num z /\ (0 <= z <= 100)%Z) /\
  (forall name,
     PlainObject.functionNamed c PlainObject.inheritedFunctions = Some name ->
     (n <> 0%nat ->
      Analysis.categoriesBreakdown stats !! c
      = Some (JS.VString (textAfter name n)) /\
      Analysis.categoryPercent stats (JS.VString (textAfter name n))
      = JS.NaN) /\
     (k <> 0%nat ->
      Overview.categories overview !! c
      = Some (JS.VString (textAfter name k)) /\
      Overview.categoryPercent overview (JS.VString (textAfter name k))
      = JS.NaN)) /\
  (c = "__proto__" ->
   Analysis.categoriesBreakdown stats !! c = None /\
   Overview.categories overview !! c = None).
Proof.
  intros stats overview n cbamRecords k.
  assert (Hlook : Analysis.categoriesBreakdown stats !! c = tallied c n).
  { subst stats n. unfold Analysis.calculateStats.
    cbn [Analysis.categoriesBreakdown].
    apply (tally_lookup Analysis.cbamaCategory). }
  assert (Hlook' : Overview.categories overview !! c = tallied c k).
  { subst overview k cbamRecords. unfold Overview.calculateStats.
    cbn [Overview.categories]. cbn zeta.
    apply (tally_lookup (Overview.categoryKey cbamCategory)). }
  assert (Hle : (n <= Analysis.totalRecords stats)%nat).
  { subst n stats. unfold Analysis.calculateStats.
    cbn [Analysis.totalRecords]. apply length_filter. }
  assert (Hle' : (k <= Overview.cbamRelevant overview)%nat).
  { subst k overview. unfold Overview.calculateStats.
    cbn [Overview.cbamRelevant]. apply length_filter. }
  rewrite Hlook, Hlook'. split; [|split].
  - intros Hkey. rewrite !tallied_ordinary by exact Hkey.
    split; [now destruct n|]. split; [now destruct k|].
    split; [exact Hle|]. split; [exact Hle'|].
    change (Analysis.categoryPercent stats (JS.VNumber (JS.ofNat n)))
      with (guardedPercent n (Analysis.totalRecords stats)).
    now apply guardedPercent_whole.
  - intros name Hname.
    assert (Hproto : String.eqb c "__proto__" = false).
    { apply String.eqb_neq. intros ->. vm_compute in Hname. discriminate. }
    unfold tallied. rewrite Hproto, Hname. split.
    + intros Hn. split; [now destruct n|].
      unfold Analysis.categoryPercent. rewrite Number_textAfter, gtb_ofNat.
      destruct (Analysis.totalRecords stats); [lia | reflexivity].
    + intros Hk. split; [now destruct k|].
      unfold Overview.categoryPercent. rewrite Number_textAfter.
      reflexivity.
  - intros ->. split; reflexivity.
Qed.

(** The analysis page on two records filed under "constructor" and one
    under "steel". *)
Example constructor_category_breakdown :
  let records := [categoryRecord "r1" "constructor";
                  categoryRecord "r2" "steel";
                  categoryRecord "r3" "constructor"] in
  let stats := Analysis.calculateStats records in
  Analysis.categoriesBreakdown stats !! "steel"
  = Some (JS.VNumber (JS.num 1)) /\
  Analysis.categoriesBreakdown stats !! "constructor"
  = Some (JS.VString "function Object() { [native code] }11") /\
  (("steel", JS.num 33) ∈ Analysis.categoryPercents stats /\
   ("constructor", JS.NaN) ∈ Analysis.categoryPercents stats).
Proof.
  cbn zeta. split; [vm_compute; reflexivity|].
  split; [vm_compute; reflexivity|].
  unfold Analysis.categoryPercents, PlainObject.entries.
  split; apply list_elem_of_fmap.
  - exists ("steel", JS.VNumber (JS.num 1)).
    split; [vm_compute; reflexivity|].
    apply elem_of_map_to_list. vm_compute. reflexivity.
  - exists ("constructor",
            JS.VString "function Object() { [native code] }11").
    split; [vm_compute; reflexivity|].
    apply elem_of_map_to_list. vm_compute. reflexivity.
Qed.

(* ===================================================================== *)
(** ** Properties of the trade-flow page *)
(* ===================================================================== *)

(** *** Keys *)

Lemma sameValueZero_refl (a : JS.value) : JS.sameValueZero a a = true.
Proof.
  destruct a as [|s|[| |q|]|b]; simpl; auto using String.eqb_refl.
  - apply Qeq_bool_iff. reflexivity.
  - now destruct b.
Qed.

Lemma sameValueZero_sym (a b : JS.value) :
  JS.sameValueZero a b = true -> JS.sameValueZero b a = true.
Proof.
  destruct a as [|s|[| |p|]|x], b as [|t|[| |q|]|y]; simpl; try congruence.
  - rewrite !String.eqb_eq. congruence.
  - rewrite !Qeq_bool_iff. intros H. now symmetry.
  - destruct x, y; simpl; congruence.
Qed.

Lemma sameValueZero_trans (a b c : JS.value) :
  JS.sameValueZero a b = true -> JS.sameValueZero b c = true ->
  JS.sameValueZero a c = true.
Proof.
  destruct a as [|s|[| |p|]|x], b as [|t|[| |q|]|y], c as [|u|[| |r|]|z];
    simpl; try congruence.
  - rewrite !String.eqb_eq. congruence.
  - rewrite !Qeq_bool_iff. intros H1 H2. now rewrite H1.
  - destruct x, y, z; simpl; congruence.
Qed.

(** *** [upsert] *)

Lemma upsert_spec (k : JS.value)
    (f : TradeFlow.CountryData.t -> TradeFlow.CountryData.t)
    (m : list TradeFlow.CountryData.t) :
  (exists m1 d m2,
     m = (m1 ++ d :: m2)%list /\
     JS.sameValueZero (TradeFlow.CountryData.country d) k = true /\
     Forall (fun d' => JS.sameValueZero (TradeFlow.CountryData.country d') k
                       = false) m1 /\
     TradeFlow.upsert k f m = (m1 ++ f d :: m2)%list) \/
  (Forall (fun d' => JS.sameValueZero (TradeFlow.CountryData.country d') k
                     = false) m /\
   TradeFlow.upsert k f m = (m ++ [f (TradeFlow.fresh k)])%list).
Proof.
  induction m as [|d m IH]; cbn [TradeFlow.upsert].
  - right. split; [constructor | reflexivity].
  - destruct (JS.sameValueZero (TradeFlow.CountryData.country d) k) eqn:E.
    + left. exists [], d, m. repeat split; [exact E | constructor].
    + destruct IH as [(m1 & d' & m2 & -> & Hd' & Hm1 & ->) | [Hall ->]].
      * left. exists (d :: m1), d', m2.
        repeat split; [exact Hd' | now constructor].
      * right. split; [now constructor | reflexivity].
Qed.

(** *** The country map groups the records by country *)

Lemma countryMapOf_snoc (records : list Store.TradeRecords.t)
    (r : Store.TradeRecords.t) :
  countryMapOf (records ++ [r])
  = TradeFlow.upsert (countryKey r) (TradeFlow.account r (recordValue r))
                     (countryMapOf records).
Proof.
  unfold countryMapOf. rewrite foldl_app. cbn [foldl].
  destruct (foldl TradeFlow.visit ([], JS.num 0) records) as [m total].
  reflexivity.
Qed.

Lemma filedUnder_snoc (k : JS.value) (records : list Store.TradeRecords.t)
    (r : Store.TradeRecords.t) :
  filedUnder k (records ++ [r])
  = (filedUnder k records ++
     if JS.sameValueZero k (countryKey r) then [r] else [])%list.
Proof.
  unfold filedUnder. rewrite filter_app. f_equal.
  rewrite filter_cons, filter_nil.
  destruct (JS.sameValueZero k (countryKey r)); now case_decide.
Qed.

(** What holds of the country map after any number of records: its keys
    are pairwise different, every record has the entry of its key, and
    every entry counts the records filed under its key. *)
Lemma countryMap_invariant (records : list Store.TradeRecords.t) :
  let m := countryMapOf records in
  StronglySorted (fun a b => JS.sameValueZero a b = false)
                 (map TradeFlow.CountryData.country m) /\
  (forall r, r ∈ records ->
     Exists (fun d => JS.sameValueZero (TradeFlow.CountryData.country d)
                        (countryKey r) = true) m) /\
  Forall (fun d =>
            let mine := filedUnder (TradeFlow.CountryData.country d) records in
            TradeFlow.CountryData.totalRecords d = length mine /\
            TradeFlow.CountryData.cbamaRecords d
            = length (filter (fun r => Dashboard.isCbam r = true) mine) /\
            mine <> []) m.
Proof.
  induction records as [|r records IH] using rev_ind.
  - cbn. repeat split; [constructor | | constructor].
    intros r Hr. now apply elem_of_nil in Hr.
  - cbn zeta in *. rewrite countryMapOf_snoc.
    destruct IH as (HK & HC & HN).
    set (k := countryKey r) in *.
    set (f := TradeFlow.account r (recordValue r)).
    assert (Hfc : forall d, TradeFlow.CountryData.country (f d)
                            = TradeFlow.CountryData.country d) by reflexivity.
    destruct (upsert_spec k f (countryMapOf records))
      as [(m1 & d & m2 & Hm & Hd & Hm1 & ->) | [Hall ->]].
    + (* the country has its entry *)
      rewrite Hm in HK, HC, HN.
      assert (Hkeys : map TradeFlow.CountryData.country (m1 ++ f d :: m2)
                      = map TradeFlow.CountryData.country (m1 ++ d :: m2)).
      { now rewrite !map_app. }
      assert (Hm2 : Forall (fun d' => JS.sameValueZero
                                        (TradeFlow.CountryData.country d') k
                                      = false) m2).
      { rewrite map_app in HK. apply StronglySorted_app_1_r in HK.
        cbn [map] in HK. apply StronglySorted_cons in HK as [HK _].
        rewrite Forall_fmap in HK. eapply Forall_impl; [exact HK|].
        cbn. intros d' Hdd'.
        destruct (JS.sameValueZero (TradeFlow.CountryData.country d') k)
          eqn:E; [|reflexivity].
        assert (JS.sameValueZero (TradeFlow.CountryData.country d)
                  (TradeFlow.CountryData.country d') = true); [|congruence].
        eapply sameValueZero_trans; [exact Hd|].
        now apply sameValueZero_sym. }
      split; [now rewrite Hkeys|]. split.
      * intros r' Hr'. apply elem_of_app in Hr' as [Hr'|Hr'].
        -- specialize (HC r' Hr'). rewrite Exists_app, Exists_cons in *.
           tauto.
        -- apply list_elem_of_singleton in Hr'. subst r'.
           rewrite Exists_app, Exists_cons. right. left. exact Hd.
      * apply Forall_app in HN as [HN1 HN2].
        apply Forall_cons in HN2 as [(Hd1 & Hd2 & Hd3) HN2].
        apply Forall_app. split; [|apply Forall_cons; split].
        -- eapply Forall_impl; [apply Forall_and; split; [exact Hm1 | exact HN1]|].
           intros d' [Hne (H1 & H2 & H3)]. cbn zeta.
           rewrite filedUnder_snoc. fold k. rewrite Hne, app_nil_r. auto.
        -- cbn zeta. rewrite Hfc, filedUnder_snoc. fold k. rewrite Hd.
           rewrite filter_app, !length_app. cbn [length].
           rewrite filter_cons, filter_nil.
           subst f. cbn [TradeFlow.account TradeFlow.CountryData.totalRecords
                         TradeFlow.CountryData.cbamaRecords].
           split; [lia|]. split.
           ++ destruct (Dashboard.isCbam r) eqn:Hcb; case_decide;
                try congruence; cbn [length]; lia.
           ++ intros Habs. now apply app_eq_nil in Habs as [_ Habs].
        -- eapply Forall_impl; [apply Forall_and; split; [exact Hm2 | exact HN2]|].
           intros d' [Hne (H1 & H2 & H3)]. cbn zeta.
           rewrite filedUnder_snoc. fold k. rewrite Hne, app_nil_r. auto.
    + (* a new country *)
      split; [|split].
      * rewrite map_app. apply StronglySorted_app_2; [|exact HK|].
        -- intros a b Ha Hb. cbn in Hb. apply list_elem_of_singleton in Hb.
           subst b. apply list_elem_of_fmap in Ha as (d' & -> & Hd').
           rewrite Forall_forall in Hall. now apply Hall.
        -- cbn. repeat constructor.
      * intros r' Hr'. apply elem_of_app in Hr' as [Hr'|Hr'].
        -- apply Exists_app. left. now apply HC.
        -- apply list_elem_of_singleton in Hr'. subst r'.
           apply Exists_app. right. constructor.
           apply sameValueZero_refl.
      * apply Forall_app. split.
        -- eapply Forall_impl; [apply Forall_and; split; [exact Hall | exact HN]|].
           intros d' [Hne (H1 & H2 & H3)]. cbn zeta.
           rewrite filedUnder_snoc. fold k. rewrite Hne, app_nil_r. auto.
        -- apply Forall_singleton. cbn zeta. rewrite Hfc.
           cbn [TradeFlow.fresh TradeFlow.CountryData.country].
           rewrite filedUnder_snoc. fold k. rewrite sameValueZero_refl.
           assert (Hnone : filedUnder k records = []).
           { unfold filedUnder. apply filter_none. intros r' Hr' Hk.
             specialize (HC r' Hr'). apply Exists_exists in HC as (d' & Hd' & E).
             rewrite Forall_forall in Hall. specialize (Hall d' Hd').
             cbn in Hall.
             assert (JS.sameValueZero (TradeFlow.CountryData.country d') k
                     = true); [|congruence].
             eapply sameValueZero_trans; [exact E|].
             now apply sameValueZero_sym. }
           rewrite Hnone. cbn [app length].
           rewrite filter_cons, filter_nil.
           subst f. cbn [TradeFlow.account TradeFlow.fresh
                         TradeFlow.CountryData.totalRecords
                         TradeFlow.CountryData.cbamaRecords].
           split; [reflexivity|]. split; [|discriminate].
           destruct (Dashboard.isCbam r) eqn:Hcb; case_decide;
             try congruence; reflexivity.
Qed.

Lemma StronglySorted_lookup {A} (R : A -> A -> Prop) (l : list A)
    (i j : nat) (a b : A) :
  StronglySorted R l -> l !! i = Some a -> l !! j = Some b -> (i < j)%nat ->
  R a b.
Proof.
  intros HS. revert i j. induction HS as [|x l HS IH Hx]; intros i j Hi Hj Hlt.
  - discriminate.
  - destruct j as [|j]; [lia|]. cbn in Hj. destruct i as [|i].
    + cbn in Hi. injection Hi as <-.
      rewrite List.Forall_forall in Hx. apply Hx.
      apply list_elem_of_In. eapply list_elem_of_lookup_2, Hj.
    + cbn in Hi. apply (IH i j Hi Hj). lia.
Qed.

Lemma calculateTradeFlow_parts (records : list Store.TradeRecords.t) :
  TradeFlow.totalCountries (TradeFlow.calculateTradeFlow records)
  = length (countryMapOf records) /\
  TradeFlow.topCountries (TradeFlow.calculateTradeFlow records)
  = take 10 (TradeFlow.sortByValue (countryMapOf records)).
Proof.
  unfold TradeFlow.calculateTradeFlow, countryMapOf.
  destruct (foldl TradeFlow.visit ([], JS.num 0) records) as [m total].
  split; reflexivity.
Qed.

(** X18: the country map of the trade-flow page groups the listed records
    by [originCountry || 'Unknown']: no two entries have the same key,
    every record finds the entry of its key, and every entry counts the
    records filed under its key (at least one) and, among them, those that
    are CBAM relevant.  [totalCountries] is the number of entries. *)
Theorem countryMap_groups_records (records : list Store.TradeRecords.t) :
  let m := countryMapOf records in
  TradeFlow.totalCountries (TradeFlow.calculateTradeFlow records) = length m /\
  (forall i j d d', m !! i = Some d -> m !! j = Some d' ->
     JS.sameValueZero (TradeFlow.CountryData.country d)
                      (TradeFlow.CountryData.country d') = true -> i = j) /\
  (forall r, r ∈ records ->
     exists d, d ∈ m /\
       JS.sameValueZero (TradeFlow.CountryData.country d) (countryKey r)
       = true) /\
  (forall d, d ∈ m ->
     let mine := filedUnder (TradeFlow.CountryData.country d) records in
     TradeFlow.CountryData.totalRecords d = length mine /\
     TradeFlow.CountryData.cbamaRecords d
     = length (filter (fun r => Dashboard.isCbam r = true) mine) /\
     (1 <= TradeFlow.CountryData.totalRecords d)%nat).
Proof.
  intros m. subst m.
  destruct (countryMap_invariant records) as (HK & HC & HN).
  cbn zeta in *.
  split; [apply calculateTradeFlow_parts|]. split; [|split].
  - intros i j d d' Hi Hj Hsame.
    assert (Hki : map TradeFlow.CountryData.country (countryMapOf records) !! i
                  = Some (TradeFlow.CountryData.country d)).
    { now rewrite list_lookup_fmap, Hi. }
    assert (Hkj : map TradeFlow.CountryData.country (countryMapOf records) !! j
                  = Some (TradeFlow.CountryData.country d')).
    { now rewrite list_lookup_fmap, Hj. }
    destruct (Nat.lt_trichotomy i j) as [Hlt | [Heq | Hgt]]; [|exact Heq|].
    + pose proof (StronglySorted_lookup _ _ _ _ _ _ HK Hki Hkj Hlt) as Hne.
      cbn in Hne. congruence.
    + pose proof (StronglySorted_lookup _ _ _ _ _ _ HK Hkj Hki Hgt) as Hne.
      cbn in Hne. apply sameValueZero_sym in Hsame. congruence.
  - intros r Hr. specialize (HC r Hr).
    apply Exists_exists in HC as (d & Hd & E). eauto.
  - intros d Hd. rewrite Forall_forall in HN.
    destruct (HN d Hd) as (H1 & H2 & H3).
    split; [exact H1|]. split; [exact H2|].
    rewrite H1. destruct (filedUnder _ records); [contradiction | cbn; lia].
Qed.

(** *** Ranking the countries *)

Lemma gtb_sub_Fin (a b : Q) :
  JS.gtb (JS.sub (JS.Fin a) (JS.Fin b)) (JS.num 0)
  = true <-> (b < a)%Q.
Proof.
  unfold JS.gtb, JS.num. cbn [JS.sub JS.neg JS.add].
  rewrite ltb_Fin, !Qred_correct. change (inject_Z 0) with 0%Q.
  split; intros H; lra.
Qed.

Lemma insertSorted_perm (x : TradeFlow.CountryData.t)
    (l : list TradeFlow.CountryData.t) :
  TradeFlow.insertSorted x l ≡ₚ x :: l.
Proof.
  induction l as [|y l IH]; cbn [TradeFlow.insertSorted]; [reflexivity|].
  destruct (JS.gtb _ _); [reflexivity|].
  rewrite IH. apply Permutation_swap.
Qed.

Lemma sortByValue_perm (l : list TradeFlow.CountryData.t) :
  TradeFlow.sortByValue l ≡ₚ l.
Proof.
  unfold TradeFlow.sortByValue.
  assert (H : forall acc,
            foldl (fun sorted x => TradeFlow.insertSorted x sorted) acc l
            ≡ₚ acc ++ l).
  { induction l as [|x l IH]; intros acc; cbn [foldl].
    - now rewrite app_nil_r.
    - rewrite IH, insertSorted_perm. cbn [app]. apply Permutation_middle. }
  apply (H []).
Qed.

Lemma notSmaller_trans (a b c : TradeFlow.CountryData.t) :
  notSmaller a b -> notSmaller b c -> notSmaller a c.
Proof. unfold notSmaller. intros H1 H2. eapply leb_trans; eauto. Qed.

Lemma insertSorted_sorted (x : TradeFlow.CountryData.t)
    (l : list TradeFlow.CountryData.t) :
  finiteTotal x -> Forall finiteTotal l ->
  StronglySorted notSmaller l ->
  StronglySorted notSmaller (TradeFlow.insertSorted x l).
Proof.
  intros (a & Ha) Hfin HS.
  induction HS as [|y l HS IH Hy]; cbn [TradeFlow.insertSorted].
  - repeat constructor.
  - apply Forall_cons in Hfin as [(b & Hb) Hfin].
    rewrite Ha, Hb.
    destruct (JS.gtb (JS.sub (JS.Fin a) (JS.Fin b)) (JS.num 0)) eqn:E.
    + apply gtb_sub_Fin in E.
      assert (Hxy : notSmaller x y).
      { unfold notSmaller. rewrite Ha, Hb. apply leb_Fin. lra. }
      constructor; [now constructor|].
      constructor; [exact Hxy|].
      eapply List.Forall_impl; [|exact Hy].
      intros z Hz. eapply notSmaller_trans; eauto.
    + assert (Hyx : notSmaller y x).
      { unfold notSmaller. rewrite Ha, Hb. apply leb_Fin.
        apply Qnot_lt_le. intros Hlt. apply gtb_sub_Fin in Hlt. congruence. }
      constructor; [now apply IH|].
      apply List.Forall_forall. intros z Hz.
      apply list_elem_of_In in Hz. rewrite insertSorted_perm in Hz.
      apply elem_of_cons in Hz as [->|Hz]; [exact Hyx|].
      rewrite List.Forall_forall in Hy. apply Hy. now apply list_elem_of_In.
Qed.

Lemma sortByValue_sorted (l : list TradeFlow.CountryData.t) :
  Forall finiteTotal l -> StronglySorted notSmaller (TradeFlow.sortByValue l).
Proof.
  unfold TradeFlow.sortByValue.
  assert (H : forall acc,
            Forall finiteTotal acc -> StronglySorted notSmaller acc ->
            Forall finiteTotal l ->
            StronglySorted notSmaller
              (foldl (fun sorted x => TradeFlow.insertSorted x sorted) acc l)).
  { induction l as [|x l IH]; intros acc Hacc HS Hl; cbn [foldl];
      [exact HS|].
    apply Forall_cons in Hl as [Hx Hl].
    apply IH; [|now apply insertSorted_sorted | exact Hl].
    rewrite insertSorted_perm. now constructor. }
  intros Hl. apply H; [constructor | constructor | exact Hl].
Qed.

(** When no listed value is infinite, every total of the country map is a
    finite number. *)
Lemma countryMap_finite (records : list Store.TradeRecords.t) :
  (forall r, r ∈ records -> notInfinite (Store.TradeRecords.value r)) ->
  Forall finiteTotal (countryMapOf records).
Proof.
  induction records as [|r records IH] using rev_ind; intros Hfin.
  - constructor.
  - rewrite countryMapOf_snoc.
    assert (IH' : Forall finiteTotal (countryMapOf records)).
    { apply IH. intros r' Hr'. apply Hfin, elem_of_app. now left. }
    assert (Hv : exists v, recordValue r = JS.Fin v).
    { destruct (Hfin r) as [Hp Hn]; [apply elem_of_app; right; now left|].
      unfold recordValue.
      destruct (Store.TradeRecords.value r) as [| |q|]; cbn [JS.truthy];
        try contradiction; eauto.
      destruct (negb (Qeq_bool q 0)); eauto. }
    destruct Hv as (v & Hv).
    assert (Hacc : forall d, finiteTotal d ->
                     finiteTotal (TradeFlow.account r (recordValue r) d)).
    { intros d (q & Hq). unfold finiteTotal.
      cbn [TradeFlow.account TradeFlow.CountryData.totalValue].
      rewrite Hq, Hv. cbn [JS.add]. eauto. }
    destruct (upsert_spec (countryKey r)
                (TradeFlow.account r (recordValue r)) (countryMapOf records))
      as [(m1 & d & m2 & Hm & _ & _ & ->) | [_ ->]].
    + rewrite Hm in IH'. apply Forall_app in IH' as [H1 H2].
      apply Forall_cons in H2 as [Hd H2].
      apply Forall_app. split; [exact H1|]. constructor; auto.
    + apply Forall_app. split; [exact IH'|].
      apply Forall_singleton, Hacc. exists 0%Q. reflexivity.
Qed.

(** X19: the ranking of the trade-flow page, when no listed value is
    infinite.  [topCountries] holds the first ten entries (or all, if there
    are fewer) of a reordering of the country map, in non-increasing order
    of total value, and every entry left out has a total value no greater
    than any entry kept. *)
Theorem topCountries_ranked (records : list Store.TradeRecords.t) :
  (forall r, r ∈ records -> notInfinite (Store.TradeRecords.value r)) ->
  let m := countryMapOf records in
  let top := TradeFlow.topCountries (TradeFlow.calculateTradeFlow records) in
  length top = Nat.min 10 (length m) /\
  (exists rest, top ++ rest ≡ₚ m) /\
  StronglySorted notSmaller top /\
  (forall d d', d ∈ top -> d' ∈ m -> d' ∉ top -> notSmaller d d').
Proof.
  intros Hfin m top. subst m top.
  destruct (calculateTradeFlow_parts records) as [_ ->].
  pose proof (sortByValue_perm (countryMapOf records)) as Hperm.
  pose proof (sortByValue_sorted _ (countryMap_finite records Hfin)) as HS.
  set (sorted := TradeFlow.sortByValue (countryMapOf records)) in *.
  rewrite <- (take_drop 10 sorted) in HS, Hperm.
  split; [|split; [|split]].
  - rewrite length_take. f_equal.
    rewrite <- (take_drop 10 sorted) at 1. now rewrite Hperm.
  - exists (drop 10 sorted). exact Hperm.
  - now apply StronglySorted_app_1_l in HS.
  - intros d d' Hd Hd' Hnot.
    rewrite <- Hperm in Hd'. apply elem_of_app in Hd' as [Hd'|Hd'];
      [contradiction|].
    eapply StronglySorted_app_1_elem_of; eauto.
Qed.

Lemma topCountries_ranked_witness :
  let m := countryMapOf twelveCountries in
  let top :=
    TradeFlow.topCountries (TradeFlow.calculateTradeFlow twelveCountries) in
  (forall r, r ∈ twelveCountries ->
             notInfinite (Store.TradeRecords.value r)) /\
  length m = 12%nat /\
  map (fun d => (TradeFlow.CountryData.country d,
                 TradeFlow.CountryData.totalValue d)) top
  = [(JS.VString "Peru", JS.num 1000); (JS.VString "France", JS.num 900);
     (JS.VString "Japan", JS.num 800); (JS.VString "India", JS.num 700);
     (JS.VString "Turkey", JS.num 650); (JS.VString "Egypt", JS.num 600);
     (JS.VString "China", JS.num 500); (JS.VString "Spain", JS.num 400);
     (JS.VString "Brazil", JS.num 200); (JS.VString "Germany", JS.num 100)] /\
  length top = Nat.min 10 (length m) /\
  (exists rest, (top ++ rest)%list ≡ₚ m) /\
  StronglySorted notSmaller top /\
  (forall d d', d ∈ top -> d' ∈ m -> d' ∉ top -> notSmaller d d').
Proof.
  cbn zeta.
  assert (H : forall r, r ∈ twelveCountries ->
                        notInfinite (Store.TradeRecords.value r)).
  { intros r Hr. unfold twelveCountries in Hr.
    repeat (apply elem_of_cons in Hr as [->|Hr]; [split; discriminate|]).
    now apply elem_of_nil in Hr. }
  split; [exact H|].
  split; [vm_compute; reflexivity|].
  split; [vm_compute; reflexivity|].
  exact (topCountries_ranked twelveCountries H).
Defined.

(* ===================================================================== *)
(** ** Properties of the settings page *)
(* ===================================================================== *)

(** One delete loop: it removes the rows under the first [j] identifiers,
    where [j] is the position of the first delete that is refused, or all
    of them. *)
Lemma deleteRows_spec {A} (rowId : A -> string) (o : Store.outcomes)
    (ids : list string) :
  forall (rows : list A) (n : nat),
    exists j,
      (j <= length ids)%nat /\
      (forall i, (i < j)%nat -> o (n + i)%nat = None) /\
      fst (fst (Settings.deleteRows rowId o ids rows n))
      = filter (fun r => rowId r ∉ take j ids) rows /\
      match snd (Settings.deleteRows rowId o ids rows n) with
      | Normal _ => j = length ids
      | Throw e => (j < length ids)%nat /\ o (n + j)%nat = Some e
      end.
Proof.
  induction ids as [|i rest IH]; intros rows n; cbn [Settings.deleteRows].
  - exists 0%nat. cbn. repeat split; try lia.
    symmetry. induction rows as [|x l IHl]; [reflexivity|].
    rewrite filter_cons_True; [now f_equal | apply not_elem_of_nil].
  - destruct (o n) as [e|] eqn:Ho.
    + exists 0%nat. cbn. rewrite Nat.add_0_r. repeat split; try lia; auto.
      symmetry. induction rows as [|x l IHl]; [reflexivity|].
      rewrite filter_cons_True; [now f_equal | apply not_elem_of_nil].
    + destruct (IH (filter (fun r => rowId r <> i) rows) (S n))
        as (j & Hj & Hbefore & Hrows & Hc).
      exists (S j). split; [cbn; lia|]. split; [|split].
      * intros [|k] Hk; [now rewrite Nat.add_0_r|].
        replace (n + S k)%nat with (S n + k)%nat by lia. apply Hbefore. lia.
      * rewrite Hrows, list_filter_filter. apply list_filter_iff.
        intros r. cbn [take]. rewrite not_elem_of_cons. tauto.
      * destruct (snd _) as [[]|e].
        -- cbn. lia.
        -- destruct Hc as [Hlt He]. split; [cbn; lia|].
           now replace (n + S j)%nat with (S n + j)%nat by lia.
Qed.

Lemma filter_not_in_nil {A} (rowId : A -> string) (rows : list A) :
  filter (fun r => rowId r ∉ @nil string) rows = rows.
Proof.
  induction rows as [|x l IH]; [reflexivity|].
  rewrite filter_cons_True; [now f_equal | apply not_elem_of_nil].
Qed.

(** After a delete loop that went through, no listed row is left; in any
    case the rows under other identifiers are all kept. *)
Lemma deleteRows_result {A} (rowId : A -> string) (o : Store.outcomes)
    (ids : list string) (rows : list A) (n : nat) :
  let rows' := fst (fst (Settings.deleteRows rowId o ids rows n)) in
  (forall r, r ∈ rows' -> r ∈ rows) /\
  (forall r, r ∈ rows -> rowId r ∉ ids -> r ∈ rows') /\
  match snd (Settings.deleteRows rowId o ids rows n) with
  | Normal _ => forall r, r ∈ rows' -> rowId r ∉ ids
  | Throw _ => True
  end /\
  (o n <> None -> rows' = rows).
Proof.
  cbn zeta.
  destruct (deleteRows_spec rowId o ids rows n) as (j & Hj & Hbefore & -> & Hc).
  split; [|split; [|split]].
  - intros r Hr. now apply list_elem_of_filter in Hr.
  - intros r Hr Hid. apply list_elem_of_filter. split; [|exact Hr].
    intros Hin. apply Hid. exact (subseteq_take j ids _ Hin).
  - destruct (snd _) as [[]|e]; [|exact I].
    subst j. rewrite firstn_all. intros r Hr.
    now apply list_elem_of_filter in Hr.
  - intros Ho. destruct j as [|j]; [apply filter_not_in_nil|].
    specialize (Hbefore 0%nat ltac:(lia)). rewrite Nat.add_0_r in Hbefore.
    contradiction.
Qed.

(** X20: [deleteAllData] deletes children before parents.  Whatever the
    store refuses, as long as a trade record of the signed-in user is left,
    no document and no profile has been deleted, and as long as a document
    of the user is left, no profile has been deleted; [isDeleting] is reset
    in every case. *)
Theorem deleteAllData_children_first (w : Settings.World)
    (p : Settings.PageState) (user : string) :
  Settings.me w = Normal user ->
  let p' := Settings.deleteAllData w p in
  Settings.isDeleting p' = false /\
  ((exists r, r ∈ Settings.tradeRecords (Settings.db p') /\
              Store.TradeRecords.userId r = user) ->
   Settings.tradeDocuments (Settings.db p')
   = Settings.tradeDocuments (Settings.db p) /\
   Settings.companyProfiles (Settings.db p')
   = Settings.companyProfiles (Settings.db p)) /\
  ((exists d, d ∈ Settings.tradeDocuments (Settings.db p') /\
              Store.TradeDocuments.userId d = user) ->
   Settings.companyProfiles (Settings.db p')
   = Settings.companyProfiles (Settings.db p)).
Proof.
  intros Hme p'. subst p'.
  unfold Settings.deleteAllData, Settings.attemptDelete. rewrite Hme.
  destruct (Settings.lists w) as [e|].
  { cbn. repeat split; reflexivity. }
  cbn zeta.
  set (d := Settings.db p).
  set (records := filter (fun x => Store.TradeRecords.userId x = user) _).
  set (documents := filter (fun x => Store.TradeDocuments.userId x = user) _).
  set (profiles := filter (fun x => Settings.userId x = user) _).
  pose proof (deleteRows_result Store.TradeRecords.id
                (Settings.deleteOutcome w) (map Store.TradeRecords.id records)
                (Settings.tradeRecords d) (Settings.writes d)) as H1.
  destruct (Settings.deleteRows Store.TradeRecords.id _ _ _ _)
    as [[records' n1] c1].
  cbn [fst snd] in H1. destruct H1 as (H1sub & _ & H1c & _).
  destruct c1 as [[]|e1].
  2: { cbn. repeat split; reflexivity. }
  assert (Hnorec : forall r, r ∈ records' ->
                     Store.TradeRecords.userId r <> user).
  { intros r Hr Hu. apply (H1c r Hr).
    apply list_elem_of_fmap. exists r. split; [reflexivity|].
    subst records. apply list_elem_of_filter. split; [exact Hu | now apply H1sub]. }
  pose proof (deleteRows_result Store.TradeDocuments.id
                (Settings.deleteOutcome w)
                (map Store.TradeDocuments.id documents)
                (Settings.tradeDocuments d) n1) as H2.
  destruct (Settings.deleteRows Store.TradeDocuments.id _ _ _ _)
    as [[documents' n2] c2].
  cbn [fst snd] in H2. destruct H2 as (H2sub & _ & H2c & _).
  destruct c2 as [[]|e2].
  2: { cbn. split; [reflexivity|]. split.
       - intros (r & Hr & Hu). now destruct (Hnorec r Hr).
       - intros _. reflexivity. }
  assert (Hnodoc : forall x, x ∈ documents' ->
                     Store.TradeDocuments.userId x <> user).
  { intros x Hx Hu. apply (H2c x Hx).
    apply list_elem_of_fmap. exists x. split; [reflexivity|].
    subst documents. apply list_elem_of_filter.
    split; [exact Hu | now apply H2sub]. }
  destruct (Settings.deleteRows Settings.id _ _ _ _) as [[profiles' n3] c3].
  destruct c3 as [[]|e3]; cbn; (split; [reflexivity|]); split.
  all: try (intros (r & Hr & Hu); now destruct (Hnorec r Hr)).
  all: intros (x & Hx & Hu); now destruct (Hnodoc x Hx).
Qed.


Lemma deleteAllData_children_first_witness :
  Settings.me balkingWorld = Normal "user1" /\
  Settings.isDeleting (Settings.deleteAllData balkingWorld confirmingPage)
  = false /\
  Settings.tradeDocuments
    (Settings.db (Settings.deleteAllData balkingWorld confirmingPage))
  = Settings.tradeDocuments sharedStore.
Proof.
  split; [reflexivity|].
  destruct (deleteAllData_children_first balkingWorld confirmingPage "user1"
              eq_refl) as (Hdel & Hrec & _).
  split; [exact Hdel|].
  apply Hrec. exists (recordOf "rec_3" "doc_1" "user1").
  split; [|reflexivity].
  vm_compute. apply elem_of_cons. right. apply elem_of_cons. now left.
Defined.

Lemma filter_iff_in {A} (P Q : A -> Prop)
    `{!forall x, Decision (P x), !forall x, Decision (Q x)} (l : list A) :
  (forall x, x ∈ l -> P x <-> Q x) -> filter P l = filter Q l.
Proof.
  induction l as [|a l IH]; intros Hiff; [reflexivity|].
  assert (Ha : P a <-> Q a) by (apply Hiff; now left).
  assert (Hl : filter P l = filter Q l).
  { apply IH. intros x Hx. apply Hiff. now right. }
  destruct (decide (P a)) as [HP|HP].
  - rewrite !filter_cons_True by tauto. now f_equal.
  - rewrite !filter_cons_False by tauto. exact Hl.
Qed.

Lemma unique_row {A} (rowId : A -> string) (rows : list A) (x y : A) :
  NoDup (map rowId rows) -> x ∈ rows -> y ∈ rows -> rowId x = rowId y ->
  x = y.
Proof.
  induction rows as [|a l IH]; intros Hnd Hx Hy Hid.
  - now apply elem_of_nil in Hx.
  - cbn in Hnd. apply NoDup_cons in Hnd as [Ha Hnd].
    apply elem_of_cons in Hx as [->|Hx];
      apply elem_of_cons in Hy as [->|Hy].
    + reflexivity.
    + destruct Ha. rewrite Hid. apply list_elem_of_fmap. now exists y.
    + destruct Ha. rewrite <- Hid. apply list_elem_of_fmap. now exists x.
    + now apply IH.
Qed.

(** With one row per identifier, the identifiers listed for a user are
    those of the user's rows. *)
Lemma own_ids {A} (rowId owner : A -> string) (user : string)
    (rows : list A) (r : A) :
  NoDup (map rowId rows) -> r ∈ rows ->
  rowId r ∈ map rowId (filter (fun x => owner x = user) rows) <->
  owner r = user.
Proof.
  intros Hnd Hr. split.
  - intros Hin. apply list_elem_of_fmap in Hin as (x & Hid & Hx).
    apply list_elem_of_filter in Hx as [Hu Hx].
    now rewrite (unique_row rowId rows r x Hnd Hr Hx Hid).
  - intros Hu. apply list_elem_of_fmap. exists r. split; [reflexivity|].
    apply list_elem_of_filter. now split.
Qed.

(** A delete loop over the rows listed for a user that is never refused
    leaves exactly the rows of the others. *)
Lemma deleteRows_all {A} (rowId owner : A -> string) (user : string)
    (o : Store.outcomes) (rows : list A) (n : nat) :
  (forall k, o k = None) -> NoDup (map rowId rows) ->
  let ids := map rowId (filter (fun x => owner x = user) rows) in
  fst (fst (Settings.deleteRows rowId o ids rows n))
  = filter (fun x => owner x <> user) rows /\
  snd (Settings.deleteRows rowId o ids rows n) = Normal tt.
Proof.
  intros Ho Hnd ids.
  destruct (deleteRows_spec rowId o ids rows n) as (j & Hj & _ & -> & Hc).
  destruct (snd _) as [[]|e].
  - subst j. rewrite firstn_all. split; [|reflexivity].
    apply filter_iff_in. intros x Hx. subst ids.
    now rewrite (own_ids rowId owner user rows x Hnd Hx).
  - destruct Hc as [_ Hc]. rewrite Ho in Hc. discriminate.
Qed.

(** X21: when nothing is refused and each table has one row per
    identifier, [deleteAllData] leaves in each of the three tables exactly
    the rows of the other users, in their order, and closes the
    confirmation. *)
Theorem deleteAllData_success (w : Settings.World) (p : Settings.PageState)
    (user : string) :
  Settings.me w = Normal user ->
  Settings.lists w = None ->
  (forall k, Settings.deleteOutcome w k = None) ->
  uniqueIds (Settings.db p) ->
  let p' := Settings.deleteAllData w p in
  Settings.tradeRecords (Settings.db p')
  = filter (fun r => Store.TradeRecords.userId r <> user)
           (Settings.tradeRecords (Settings.db p)) /\
  Settings.tradeDocuments (Settings.db p')
  = filter (fun d => Store.TradeDocuments.userId d <> user)
           (Settings.tradeDocuments (Settings.db p)) /\
  Settings.companyProfiles (Settings.db p')
  = filter (fun c => Settings.userId c <> user)
           (Settings.companyProfiles (Settings.db p)) /\
  Settings.showDeleteConfirm p' = false /\
  Settings.isDeleting p' = false.
Proof.
  intros Hme Hlists Ho (Hdocs & Hrecs & Hprofs) p'. subst p'.
  unfold Settings.deleteAllData, Settings.attemptDelete.
  rewrite Hme, Hlists. cbn zeta.
  set (d := Settings.db p) in *.
  destruct (deleteRows_all Store.TradeRecords.id Store.TradeRecords.userId
              user (Settings.deleteOutcome w) (Settings.tradeRecords d)
              (Settings.writes d) Ho Hrecs) as [H1 H1c].
  destruct (Settings.deleteRows Store.TradeRecords.id _ _ _ _)
    as [[records' n1] c1].
  cbn [fst snd] in H1, H1c. subst c1.
  destruct (deleteRows_all Store.TradeDocuments.id Store.TradeDocuments.userId
              user (Settings.deleteOutcome w) (Settings.tradeDocuments d)
              n1 Ho Hdocs) as [H2 H2c].
  destruct (Settings.deleteRows Store.TradeDocuments.id _ _ _ _)
    as [[documents' n2] c2].
  cbn [fst snd] in H2, H2c. subst c2.
  destruct (deleteRows_all Settings.id Settings.userId
              user (Settings.deleteOutcome w) (Settings.companyProfiles d)
              n2 Ho Hprofs) as [H3 H3c].
  destruct (Settings.deleteRows Settings.id _ _ _ _)
    as [[profiles' n3] c3].
  cbn [fst snd] in H3, H3c. subst c3.
  cbn. repeat split; assumption.
Qed.

Lemma sharedStore_uniqueIds : uniqueIds sharedStore.
Proof.
  repeat split; cbn; repeat (apply NoDup_cons; split);
    try apply NoDup_nil_2;
    rewrite ?elem_of_cons, ?elem_of_nil; intuition discriminate.
Qed.

Lemma deleteAllData_success_witness :
  uniqueIds sharedStore /\
  Settings.tradeRecords
    (Settings.db (Settings.deleteAllData obligingWorld confirmingPage))
  = [recordOf "rec_2" "doc_2" "user2"].
Proof.
  split; [exact sharedStore_uniqueIds|].
  exact (proj1 (deleteAllData_success obligingWorld confirmingPage "user1"
                  eq_refl eq_refl (fun _ => eq_refl) sharedStore_uniqueIds)).
Defined.

(** X22: whatever the store refuses, [deleteAllData] deletes no row of
    another user: with one row per identifier, every row that does not
    belong to the signed-in user is still in its table afterwards, and the
    tables gain no row.  When the user or the lists cannot be fetched, or a
    delete is refused, the confirmation stays as it was. *)
Theorem deleteAllData_spares_others (w : Settings.World)
    (p : Settings.PageState) :
  uniqueIds (Settings.db p) ->
  let p' := Settings.deleteAllData w p in
  (forall r, r ∈ Settings.tradeRecords (Settings.db p) ->
     Settings.me w <> Normal (Store.TradeRecords.userId r) ->
     r ∈ Settings.tradeRecords (Settings.db p')) /\
  (forall d, d ∈ Settings.tradeDocuments (Settings.db p) ->
     Settings.me w <> Normal (Store.TradeDocuments.userId d) ->
     d ∈ Settings.tradeDocuments (Settings.db p')) /\
  (forall c, c ∈ Settings.companyProfiles (Settings.db p) ->
     Settings.me w <> Normal (Settings.userId c) ->
     c ∈ Settings.companyProfiles (Settings.db p')) /\
  (forall r, r ∈ Settings.tradeRecords (Settings.db p') ->
     r ∈ Settings.tradeRecords (Settings.db p)) /\
  (forall d, d ∈ Settings.tradeDocuments (Settings.db p') ->
     d ∈ Settings.tradeDocuments (Settings.db p)) /\
  (forall c, c ∈ Settings.companyProfiles (Settings.db p') ->
     c ∈ Settings.companyProfiles (Settings.db p)) /\
  (snd (Settings.attemptDelete w (Settings.db p)) <> Normal tt ->
   Settings.showDeleteConfirm p' = Settings.showDeleteConfirm p).
Proof.
  intros (Hdocs & Hrecs & Hprofs) p'. subst p'.
  unfold Settings.deleteAllData, Settings.attemptDelete.
  destruct (Settings.me w) as [user|e].
  2: { cbn. repeat split; auto. }
  destruct (Settings.lists w) as [e|].
  { cbn. repeat split; auto. }
  cbn zeta.
  set (d := Settings.db p) in *.
  pose proof (deleteRows_result Store.TradeRecords.id
                (Settings.deleteOutcome w)
                (map Store.TradeRecords.id
                   (filter (fun x => Store.TradeRecords.userId x = user)
                      (Settings.tradeRecords d)))
                (Settings.tradeRecords d) (Settings.writes d)) as H1.
  pose proof (fun n => deleteRows_result Store.TradeDocuments.id
                (Settings.deleteOutcome w)
                (map Store.TradeDocuments.id
                   (filter (fun x => Store.TradeDocuments.userId x = user)
                      (Settings.tradeDocuments d)))
                (Settings.tradeDocuments d) n) as H2.
  pose proof (fun n => deleteRows_result Settings.id
                (Settings.deleteOutcome w)
                (map Settings.id
                   (filter (fun x => Settings.userId x = user)
                      (Settings.companyProfiles d)))
                (Settings.companyProfiles d) n) as H3.
  assert (K1 : forall r, r ∈ Settings.tradeRecords d ->
                 Normal user <> Normal (Store.TradeRecords.userId r) ->
                 Store.TradeRecords.id r
                 ∉ map Store.TradeRecords.id
                     (filter (fun x => Store.TradeRecords.userId x = user)
                        (Settings.tradeRecords d))).
  { intros r Hr Hne Hin.
    apply (own_ids Store.TradeRecords.id Store.TradeRecords.userId user
             _ r Hrecs Hr) in Hin. congruence. }
  assert (K2 : forall r, r ∈ Settings.tradeDocuments d ->
                 Normal user <> Normal (Store.TradeDocuments.userId r) ->
                 Store.TradeDocuments.id r
                 ∉ map Store.TradeDocuments.id
                     (filter (fun x => Store.TradeDocuments.userId x = user)
                        (Settings.tradeDocuments d))).
  { intros r Hr Hne Hin.
    apply (own_ids Store.TradeDocuments.id Store.TradeDocuments.userId user
             _ r Hdocs Hr) in Hin. congruence. }
  assert (K3 : forall r, r ∈ Settings.companyProfiles d ->
                 Normal user <> Normal (Settings.userId r) ->
                 Settings.id r
                 ∉ map Settings.id
                     (filter (fun x => Settings.userId x = user)
                        (Settings.companyProfiles d))).
  { intros r Hr Hne Hin.
    apply (own_ids Settings.id Settings.userId user
             _ r Hprofs Hr) in Hin. congruence. }
  destruct (Settings.deleteRows Store.TradeRecords.id _ _ _ _)
    as [[records' n1] c1].
  cbn [fst snd] in H1. destruct H1 as (H1sub & H1keep & _ & _).
  destruct c1 as [[]|e1].
  2: { cbn. repeat split; auto. }
  specialize (H2 n1).
  destruct (Settings.deleteRows Store.TradeDocuments.id _ _ _ _)
    as [[documents' n2] c2].
  cbn [fst snd] in H2. destruct H2 as (H2sub & H2keep & _ & _).
  destruct c2 as [[]|e2].
  2: { cbn. repeat split; auto. }
  specialize (H3 n2).
  destruct (Settings.deleteRows Settings.id _ _ _ _)
    as [[profiles' n3] c3].
  cbn [fst snd] in H3. destruct H3 as (H3sub & H3keep & _ & _).
  destruct c3 as [[]|e3]; cbn; repeat split; auto; congruence.
Qed.

Lemma deleteAllData_spares_others_witness :
  uniqueIds sharedStore /\
  recordOf "rec_2" "doc_2" "user2"
  ∈ Settings.tradeRecords
      (Settings.db (Settings.deleteAllData balkingWorld confirmingPage)).
Proof.
  split; [exact sharedStore_uniqueIds|].
  apply (proj1 (deleteAllData_spares_others balkingWorld confirmingPage
                  sharedStore_uniqueIds)).
  - apply elem_of_cons. right. apply elem_of_cons. now left.
  - discriminate.
Defined.


(* ===================================================================== *)
(** ** Properties of the company profile page *)
(* ===================================================================== *)

(** X23: the profile completion shown is one of 0, 17, 33, 50, 67, 83 and
    100 per cent, by the number of the six fields that are filled in; the
    badge reads Complete exactly when at least five of them are, Partial
    when three or four are, and Incomplete otherwise. *)
Theorem profile_completion_thresholds (profile : Settings.Profile) :
  let k := CompanyProfile.completedFields profile in
  (k <= 6)%nat /\
  CompanyProfile.completionPercentage profile
  = JS.num (nth k [0; 17; 33; 50; 67; 83; 100]%Z 0%Z) /\
  (CompanyProfile.completionLabel profile = "Complete" <-> (5 <= k)%nat) /\
  (CompanyProfile.completionLabel profile = "Partial"
   <-> (3 <= k <= 4)%nat) /\
  (CompanyProfile.completionLabel profile = "Incomplete" <-> (k <= 2)%nat).
Proof.
  intros k.
  assert (Hk : (k <= 6)%nat).
  { subst k. unfold CompanyProfile.completedFields.
    etransitivity; [apply length_filter|]. reflexivity. }
  split; [exact Hk|].
  unfold CompanyProfile.completionLabel, CompanyProfile.completionPercentage.
  fold k. change (length (CompanyProfile.fields profile)) with 6%nat.
  clearbody k.
  do 7 (destruct k as [|k];
        [vm_compute; repeat split; intros; try reflexivity;
         try discriminate; try lia |]).
  lia.
Qed.


Lemma trimStart_keeps (a : ascii) (s1 : string) :
  (nat_of_ascii a < 128)%nat -> JS.isWhiteSpace a = false ->
  CompanyProfile.trimStart (String a s1) = String a s1.
Proof.
  intros Ha Hws. cbn [CompanyProfile.trimStart]. rewrite Hws.
  destruct s1 as [|b s2]; [reflexivity|].
  assert (H2 : CompanyProfile.isWhiteSpace2 a b = false).
  { unfold CompanyProfile.isWhiteSpace2.
    destruct (Nat.eqb_spec (nat_of_ascii a) 194); [lia | reflexivity]. }
  rewrite H2. destruct s2 as [|c s3]; [reflexivity|].
  assert (H3 : CompanyProfile.isWhiteSpace3 a b c = false).
  { unfold CompanyProfile.isWhiteSpace3.
    destruct (Nat.eqb_spec (nat_of_ascii a) 225); [lia|].
    destruct (Nat.eqb_spec (nat_of_ascii a) 226); [lia|].
    destruct (Nat.eqb_spec (nat_of_ascii a) 227); [lia|].
    destruct (Nat.eqb_spec (nat_of_ascii a) 239); [lia|].
    reflexivity. }
  now rewrite H3.
Qed.

Lemma trimStart_ascii (s : string) :
  isAscii s ->
  CompanyProfile.trimStart (CompanyProfile.trimStart s)
  = CompanyProfile.trimStart s /\
  (CompanyProfile.trimStart s = ""
   <-> Forall (fun c => JS.isWhiteSpace c = true) (list_ascii_of_string s)).
Proof.
  unfold isAscii. induction s as [|a s1 IH]; intros Hs.
  - split; [reflexivity|]. split; [constructor | reflexivity].
  - cbn [list_ascii_of_string] in *. apply Forall_cons in Hs as [Ha Hs].
    specialize (IH Hs). destruct IH as [IH1 IH2].
    destruct (JS.isWhiteSpace a) eqn:Hws.
    + assert (E : CompanyProfile.trimStart (String a s1)
                  = CompanyProfile.trimStart s1).
      { cbn [CompanyProfile.trimStart]. now rewrite Hws. }
      rewrite E. split; [exact IH1|]. rewrite IH2. split.
      * intros H. now constructor.
      * intros H. now apply Forall_cons in H as [_ H].
    + rewrite !(trimStart_keeps a s1 Ha Hws). split; [reflexivity|].
      split; [discriminate|].
      intros H. apply Forall_cons in H as [H _]. congruence.
Qed.

Lemma trimEnd_empty (t : string) :
  CompanyProfile.trimEnd t = "" <-> CompanyProfile.trimStart t = "".
Proof.
  destruct t as [|a t1]; [split; reflexivity|].
  cbn [CompanyProfile.trimEnd].
  destruct (CompanyProfile.trimStart (String a t1)); split;
    try reflexivity; discriminate.
Qed.

(** X24: a field of ASCII characters counts as filled in exactly when it
    holds a character that is not white space; the empty field and a field
    of blanks do not count. *)
Theorem isCompleted_ascii (field : string) :
  isAscii field ->
  CompanyProfile.isCompleted field = true
  <-> Exists (fun c => JS.isWhiteSpace c = false)
             (list_ascii_of_string field).
Proof.
  intros Hascii. destruct (trimStart_ascii field Hascii) as [Hidem Hblank].
  assert (Htrim : CompanyProfile.trim field = ""
                  <-> CompanyProfile.trimStart field = "").
  { unfold CompanyProfile.trim. rewrite trimEnd_empty. now rewrite Hidem. }
  assert (Hcompleted : CompanyProfile.isCompleted field = true
                       <-> CompanyProfile.trimStart field <> "").
  { unfold CompanyProfile.isCompleted. cbn [JS.truthy].
    destruct (String.eqb_spec field "") as [->|Hne]; cbn [negb JS.truthy].
    - cbn. split; [discriminate | congruence].
    - destruct (String.eqb_spec (CompanyProfile.trim field) "") as [E|E];
        cbn [negb]; rewrite <- Htrim; split; congruence. }
  rewrite Hcompleted, Hblank. clear.
  induction (list_ascii_of_string field) as [|c l IHl].
  - split; [intros H; destruct H; constructor | intros H; inversion H].
  - split.
    + intros H. destruct (JS.isWhiteSpace c) eqn:Hws.
      * apply Exists_cons_tl, IHl. intros HF. apply H. now constructor.
      * now apply Exists_cons_hd.
    + intros H HF. apply Forall_cons in HF as [Hc HF].
      apply Exists_cons in H as [H|H]; [congruence|].
      now apply IHl in H.
Qed.

Lemma isCompleted_ascii_witness :
  isAscii "  Acme GmbH " /\ CompanyProfile.isCompleted "  Acme GmbH " = true.
Proof.
  assert (H : isAscii "  Acme GmbH ").
  { unfold isAscii. cbn. repeat constructor. }
  split; [exact H|].
  apply (isCompleted_ascii "  Acme GmbH " H).
  cbn. do 2 apply Exists_cons_tl. apply Exists_cons_hd. reflexivity.
Defined.
